(** * BOM workflow engine: a shallow embedding of the Python back end

    The development follows the layout of [backend/]:

    - [Py]        the fragment of Python the services rely on: JSON scalars,
                  truthiness, [==], [>], [max], [str.strip], [str.lower],
                  substring tests, exceptions;
    - [Resilient] [_call_api_with_retry] and the translation service
                  ([services/translation_service.py],
                  [services/gemini_agent_service.py]);
    - [Dedup]     [WorkflowService._deduplicate_items]
                  ([services/workflow_service.py]);
    - [Router]    [WorkflowService._apply_classification_logic]
                  ([services/workflow_service_backup.py]);
    - [Models]    the tables of [models.py] and [update_workflow_status];
    - [Workflow]  [WorkflowService._process_workflow_async];
    - [Scenario]  one workflow and two sets of services, for the examples.

    The lemmas about each module follow the definitions, in the same order.

    Items are the dictionaries [json.loads] produces.  Their field values are
    JSON scalars here (null, booleans, numbers, strings); a field holding an
    array or an object is outside the model.  [json.loads] allocates a fresh
    dictionary per object, so no two items of a list alias and in-place
    mutation of an item is modelled by replacing its value.

    Strings are UTF-8 byte strings.  [str.strip] and [str.lower] are modelled
    on the ASCII range and leave the other bytes alone, which is exact for
    text whose non-ASCII characters are neither white space nor cased; a
    statement that depends on which keys are equal, or on what counts as
    white space, is made for ASCII text.

    The database is SQLite, one connection per call of a function of
    [models.py], closed on the function's last line.  A statement whose
    values cannot be bound raises before it runs.  A statement that fails
    while it runs leaves its connection open with the write lock, and the
    writes that follow are refused until Python's cyclic collector closes
    that connection; when the collector runs is not the program's to
    decide, so it is a parameter of the model.  A call of a service begins
    with no connection open.  Apart from that the database and the disk
    are taken as reliable.  *)

From Stdlib Require Import ZArith QArith String Ascii List Bool Lia.
From stdpp Require Import gmap strings list fin_maps pretty.

Local Open Scope string_scope.
Local Open Scope list_scope.

(* ===================================================================== *)
(** * Python values and exceptions                                         *)
(* ===================================================================== *)

Module Py.

(** A JSON scalar.  A float is represented by the decimal rational its
    literal denotes: rounding to the nearest double is monotone and
    injective on decimals of at most 15 significant digits, so on these
    [==] and [>] agree with the rationals'. *)
Inductive pyval : Type :=
| VNone
| VBool (b : bool)
| VInt (z : Z)
| VFloat (q : Q)
| VStr (s : string).

Inductive exn_kind : Type :=
| ValueError | RuntimeError | AttributeError | TypeError | IntegrityError
| OperationalError | OverflowError.

(** An exception: its class, [str(e)], and whether the call that raised it
    has left open a database connection whose transaction holds the write
    lock of the database.  The functions of [models.py] close their
    connection on the last line and not in a [finally], so a statement
    that fails inside its transaction leaves one.  The traceback of the
    exception refers to it, so it stays open as long as the exception is
    being handled; after that it is garbage, but [sqlite3] keeps it in a
    reference cycle, and it is closed, and its lock given up, only when
    Python's cyclic collector next runs. *)
Record exn : Type := MkExn {
  exn_class : exn_kind;
  exn_str : string;
  holds_lock : bool
}.

(** An exception that leaves no connection behind. *)
Abbreviation Exn k s := (MkExn k s false).

(** The outcome of an expression that may raise. *)
Inductive exc (A : Type) : Type :=
| Ok (a : A)
| Raise (e : exn).
Arguments Ok {A} a.
Arguments Raise {A} e.

#[export] Instance exc_ret : MRet exc := fun A a => Ok a.
#[export] Instance exc_bind : MBind exc := fun A B f m =>
  match m with
  | Ok a => f a
  | Raise e => Raise e
  end.

Definition type_name (v : pyval) : string :=
  match v with
  | VNone => "NoneType"
  | VBool _ => "bool"
  | VInt _ => "int"
  | VFloat _ => "float"
  | VStr _ => "str"
  end.

(** [bool(v)] *)
Definition truthy (v : pyval) : bool :=
  match v with
  | VNone => false
  | VBool b => b
  | VInt z => negb (z =? 0)%Z
  | VFloat q => negb (Qeq_bool q 0)
  | VStr s => negb (s =? "")
  end.

(** The numeric tower: [bool] is a subclass of [int], and [int] and
    [float] compare by value. *)
Definition as_num (v : pyval) : option Q :=
  match v with
  | VBool b => Some (if b then 1 else 0)%Q
  | VInt z => Some (inject_Z z)
  | VFloat q => Some q
  | _ => None
  end.

(** [a == b] *)
Definition py_eq (a b : pyval) : bool :=
  match as_num a, as_num b with
  | Some x, Some y => Qeq_bool x y
  | _, _ =>
      match a, b with
      | VNone, VNone => true
      | VStr s, VStr t => (s =? t)
      | _, _ => false
      end
  end.

(** [a > b]; strings compare by code point, which on UTF-8 is the order
    of the byte strings. *)
Definition py_gt (a b : pyval) : exc bool :=
  match as_num a, as_num b with
  | Some x, Some y => Ok (negb (Qle_bool x y))
  | _, _ =>
      match a, b with
      | VStr s, VStr t =>
          Ok (match String.compare s t with Gt => true | _ => false end)
      | _, _ =>
          Raise (Exn TypeError
                   ("'>' not supported between instances of '" +:+ type_name a
                    +:+ "' and '" +:+ type_name b +:+ "'"))
      end
  end.

(** [max(a, b)]: [a] unless [b > a]. *)
Definition py_max (a b : pyval) : exc pyval :=
  gt ← py_gt b a; mret (if gt : bool then b else a).

(** ASCII white space as [str.isspace] sees it: TAB..CR, FS..US, space. *)
Definition is_space (c : ascii) : bool :=
  let n := N_of_ascii c in
  ((9 <=? n) && (n <=? 13) || (28 <=? n) && (n <=? 32))%N.

Fixpoint lstrip (s : string) : string :=
  match s with
  | String c s' => if is_space c then lstrip s' else s
  | EmptyString => EmptyString
  end.

Fixpoint rstrip (s : string) : string :=
  match s with
  | String c s' =>
      let r := rstrip s' in
      if is_space c && (r =? "") then "" else String c r
  | EmptyString => EmptyString
  end.

(** [s.strip()] *)
Definition strip (s : string) : string := rstrip (lstrip s).

Definition lower_char (c : ascii) : ascii :=
  let n := N_of_ascii c in
  if ((65 <=? n) && (n <=? 90))%N then ascii_of_N (n + 32) else c.

(** [s.lower()] *)
Fixpoint lower (s : string) : string :=
  match s with
  | String c s' => String (lower_char c) (lower s')
  | EmptyString => EmptyString
  end.

(** [needle in hay] for two strings. *)
Fixpoint is_substring (needle hay : string) : bool :=
  String.prefix needle hay ||
  match hay with
  | String _ hay' => is_substring needle hay'
  | EmptyString => false
  end.

(** [x in container] where [container] is a scalar: only a string is a
    container, and it only admits a string on the left. *)
Definition py_in (x container : pyval) : exc bool :=
  match container with
  | VStr hay =>
      match x with
      | VStr needle => Ok (is_substring needle hay)
      | _ =>
          Raise (Exn TypeError
                   ("'in <string>' requires string as left operand, not "
                    +:+ type_name x))
      end
  | _ =>
      Raise (Exn TypeError
               ("argument of type '" +:+ type_name container
                +:+ "' is not iterable"))
  end.

(** [d.get(k)] and [d.get(k, default)] on a dictionary of scalars. *)
Definition get (d : gmap string pyval) (k : string) : pyval :=
  default VNone (d !! k).

Definition get_or (d : gmap string pyval) (k : string) (dflt : pyval) : pyval :=
  default dflt (d !! k).

(** [d.update({k1: v1, ...})]: the pairs are written left to right. *)
Definition update (kvs : list (string * pyval)) (d : gmap string pyval)
  : gmap string pyval :=
  fold_left (fun d kv => <[kv.1 := kv.2]> d) kvs d.

(** The rightmost pair of a key in the argument of [update]: what
    [update] leaves under that key. *)
Fixpoint last_binding (k : string) (kvs : list (string * pyval)) : option pyval :=
  match kvs with
  | [] => None
  | kv :: kvs' =>
      match last_binding k kvs' with
      | Some v => Some v
      | None => if kv.1 =? k then Some kv.2 else None
      end
  end.

End Py.
Export Py.

Abbreviation item := (gmap string pyval).

(* ===================================================================== *)
(** * The resilient caller and the translation service                     *)
(* ===================================================================== *)

Module Resilient.

(** What [requests.post] gives back. *)
Record response : Type := Response {
  status_code : Z;
  reason : string;
  text : string
}.

(** One POST either yields a response or raises a [RequestException]
    that is not an [HTTPError] (connection error, timeout, ...). *)
Inductive post_result : Type :=
| Replied (r : response)
| TransportError (e : string).

(** What the wrapper does to the outside world, in order. *)
Inductive event : Type :=
| Posted (attempt : nat)
| Slept (seconds : Z).

Section Caller.
Variable url : string.

(** [response.raise_for_status()]: the text of the [HTTPError] for a
    4xx or 5xx status, nothing otherwise. *)
Definition raise_for_status (r : response) : option string :=
  if ((400 <=? status_code r) && (status_code r <? 500))%Z then
    Some (pretty (status_code r) +:+ " Client Error: " +:+ reason r
          +:+ " for url: " +:+ url)
  else if ((500 <=? status_code r) && (status_code r <? 600))%Z then
    Some (pretty (status_code r) +:+ " Server Error: " +:+ reason r
          +:+ " for url: " +:+ url)
  else None.

(** The remote service as the wrapper sees it: its answer to the
    POST of loop iteration [i]. *)
Variable service : nat -> post_result.

(** The loop [for i in range(max_retries)], with [n] iterations left
    from index [i].  Falling off the loop returns [None]. *)
Fixpoint attempts (max_retries n i : nat) (trace : list event)
  : exc (option response) * list event :=
  match n with
  | O => (Ok None, trace)
  | S n' =>
      let trace := trace ++ [Posted i] in
      match service i with
      | Replied r =>
          match raise_for_status r with
          | None => (Ok (Some r), trace)
          | Some e =>
              if (status_code r =? 429)%Z && (i <? max_retries - 1)%nat then
                let wait_time := (2 ^ Z.of_nat i)%Z in
                attempts max_retries n' (S i) (trace ++ [Slept wait_time])
              else
                (Raise (Exn RuntimeError
                          ("API call failed after " +:+ pretty (i + 1)%nat
                           +:+ " retries: " +:+ e)), trace)
          end
      | TransportError e =>
          (Raise (Exn RuntimeError ("API call failed: " +:+ e)), trace)
      end
  end.

(** [_call_api_with_retry(payload, max_retries)]; the same text in
    [TranslationService] and in [GeminiAgentService]. *)
Definition _call_api_with_retry (max_retries : nat)
  : exc (option response) * list event :=
  attempts max_retries max_retries 0 [].

End Caller.

(** The default of the keyword argument [max_retries]. *)
Definition default_max_retries : nat := 5.

Fixpoint posts (trace : list event) : nat :=
  match trace with
  | Posted _ :: trace' => S (posts trace')
  | Slept _ :: trace' => posts trace'
  | [] => 0
  end.

Fixpoint sleeps (trace : list event) : list Z :=
  match trace with
  | Slept s :: trace' => s :: sleeps trace'
  | Posted _ :: trace' => sleeps trace'
  | [] => []
  end.

Definition rate_limited (p : post_result) : bool :=
  match p with
  | Replied r => (status_code r =? 429)%Z
  | TransportError _ => false
  end.

(** A POST that fails: a transport error or a 4xx/5xx status. *)
Definition failed (p : post_result) : bool :=
  match p with
  | Replied r => ((400 <=? status_code r) && (status_code r <? 600))%Z
  | TransportError _ => true
  end.

(** The trace of [k] rate-limited attempts followed by a last one,
    starting at loop index [i]. *)
Fixpoint schedule (i k : nat) : list event :=
  match k with
  | O => [Posted i]
  | S k' => Posted i :: Slept (2 ^ Z.of_nat i) :: schedule (S i) k'
  end.

Section Translation.
Variable url : string.
(** The gateway's answers to the successive POSTs of one prompt. *)
Variable gateway : string -> nat -> post_result.
(** [response.json()['choices'][0]['message']['content']] on a reply
    body, which raises when the body is not JSON of that shape. *)
Variable content_of : string -> exc string.

Definition translation_prompt (text : string) : string :=
  "
        Translate the following text from Japanese to English. Ensure all text, including any technical terms or mixed content, is translated. Maintain all original formatting, including line breaks and tables. Do not omit any part of the original text in the translation.
        
        Japanese Text:
        " +:+ text +:+ "
        
        English Translation:
        ".

(** [TranslationService._call_api]: any exception is re-raised as a
    [RuntimeError]. *)
Definition _call_api (prompt : string) : exc (option response) :=
  match fst (_call_api_with_retry url (gateway prompt) default_max_retries) with
  | Ok r => Ok r
  | Raise e => Raise (Exn RuntimeError ("API call failed: " +:+ exn_str e))
  end.

(** The [try] block of [translate_to_english]: the call and the
    extraction of the translated text. *)
Definition translation_call (text : string) : exc string :=
  r ← _call_api (translation_prompt text);
  match r with
  | Some r => content_of (Resilient.text r)
  | None =>
      Raise (Exn AttributeError "'NoneType' object has no attribute 'json'")
  end.

(** [translate_to_english]: [except Exception] prints and returns the
    argument. *)
Definition translate_to_english (text : string) : string :=
  match translation_call text with
  | Ok extracted_text => extracted_text
  | Raise _ => text
  end.

End Translation.

End Resilient.

(* ===================================================================== *)
(** * Deduplication ([workflow_service.py])                                *)
(* ===================================================================== *)

Module Dedup.

Definition HUMAN : string := "🔴 Human Intervention Required".
Definition FLAG : string := "🟠 Auto w/ Flag".
Definition AUTO : string := "🟢 Auto-Register".

(** [x.strip() if x is not None else '']: a value that is neither
    [None] nor a string has no [strip]. *)
Definition strip_or_empty (v : pyval) : exc string :=
  match v with
  | VNone => Ok ""
  | VStr s => Ok (strip s)
  | _ =>
      Raise (Exn AttributeError
               ("'" +:+ type_name v +:+ "' object has no attribute 'strip'"))
  end.

(** The key of an item: lines 143-150. *)
Definition item_key (it : item) : exc string :=
  material_name_str ← strip_or_empty (get it "material_name");
  part_number_str ← strip_or_empty (get it "part_number");
  mret (lower material_name_str +:+ "||" +:+ lower part_number_str).

(** The dictionary [action_path_priority] and its [get]. *)
Definition action_path_priority (v : pyval) : option Z :=
  match v with
  | VStr s =>
      if s =? HUMAN then Some 3%Z
      else if s =? FLAG then Some 2%Z
      else if s =? AUTO then Some 1%Z
      else None
  | _ => None
  end.

(** Lines 156-159.  The f-string is only reached with two strings, where
    formatting is concatenation. *)
Definition merge_reasoning (existing_item it : item) : exc item :=
  let new_reasoning := get_or it "reasoning" (VStr "") in
  if truthy new_reasoning then
    let old_reasoning := get_or existing_item "reasoning" (VStr "") in
    present ← py_in new_reasoning old_reasoning;
    if present : bool then mret existing_item
    else
      match old_reasoning, new_reasoning with
      | VStr old, VStr new =>
          mret (<["reasoning" := VStr (old +:+ " | " +:+ new)]> existing_item)
      | _, _ => mret existing_item
      end
  else mret existing_item.

(** Lines 161-165. *)
Definition merge_confidence (existing_item it : item) : exc item :=
  score ← py_max (get_or existing_item "confidence_score" (VInt 0))
                 (get_or it "confidence_score" (VInt 0));
  mret (<["confidence_score" := score]> existing_item).

(** Lines 167-177. *)
Definition merge_action_path (existing_item it : item) : item :=
  let current_priority := action_path_priority (get existing_item "action_path") in
  let new_priority := action_path_priority (get it "action_path") in
  match new_priority with
  | Some n =>
      match current_priority with
      | None => <["action_path" := get it "action_path"]> existing_item
      | Some c =>
          if (c <? n)%Z then <["action_path" := get it "action_path"]> existing_item
          else existing_item
      end
  | None => existing_item
  end.

(** Lines 179-181: the right-hand side reads [existing_item]. *)
Definition merge_label (existing_item it : item) : item :=
  if truthy (get it "qa_classification_label")
     && negb (py_eq (get it "qa_classification_label")
                    (get existing_item "qa_classification_label"))
  then <["qa_classification_label" := get existing_item "qa_classification_label"]>
         existing_item
  else existing_item.

(** The body of [if key in unique_items:]. *)
Definition merge (existing_item it : item) : exc item :=
  e1 ← merge_reasoning existing_item it;
  e2 ← merge_confidence e1 it;
  mret (merge_label (merge_action_path e2 it) it).

(** [unique_items]: a [dict] keeps its keys in insertion order. *)
Fixpoint dict_get (key : string) (d : list (string * item)) : option item :=
  match d with
  | (k, v) :: d' => if k =? key then Some v else dict_get key d'
  | [] => None
  end.

(** Writing under a key already present keeps its position. *)
Fixpoint dict_set (key : string) (v : item) (d : list (string * item))
  : list (string * item) :=
  match d with
  | (k, v0) :: d' =>
      if k =? key then (k, v) :: d' else (k, v0) :: dict_set key v d'
  | [] => [(key, v)]
  end.

(** The loop [for item in items]. *)
Fixpoint dedup_loop (items : list item) (unique_items : list (string * item))
  : exc (list (string * item)) :=
  match items with
  | [] => Ok unique_items
  | it :: items' =>
      key ← item_key it;
      match dict_get key unique_items with
      | Some existing_item =>
          merged ← merge existing_item it;
          dedup_loop items' (dict_set key merged unique_items)
      | None => dedup_loop items' (dict_set key it unique_items)
      end
  end.

Definition _deduplicate_items (items : list item) : exc (list item) :=
  match items with
  | [] => Ok []
  | _ => unique_items ← dedup_loop items []; mret (map snd unique_items)
  end.

(** The invariant of [unique_items]: the keys are distinct and each
    entry sits under its own key. *)
Definition keyed (d : list (string * item)) : Prop :=
  NoDup (map fst d) /\ forall k it, In (k, it) d -> item_key it = Ok k.

(** The fields of a classified item as the data model types them:
    [reasoning] is text and [confidence_score] a number, when present. *)
Definition is_text (v : option pyval) : bool :=
  match v with
  | None | Some (VStr _) => true
  | _ => false
  end.
Definition is_number (v : option pyval) : bool :=
  match v with
  | None => true
  | Some v => match as_num v with Some _ => true | None => false end
  end.
Definition scored (it : item) : bool :=
  is_text (it !! "reasoning") && is_number (it !! "confidence_score").

End Dedup.

(* ===================================================================== *)
(** * The rule chain ([workflow_service_backup.py])                        *)
(* ===================================================================== *)

Module Router.
Import Dedup.

(** The dictionary [_apply_classification_logic] returns.  Its scalar
    fields are in [fields]; the one field that holds an object, the
    record of the knowledge base stored under ['kb_match'], is kept
    apart ([None] when the matcher found nothing). *)
Record classified : Type := Classified {
  fields : item;
  kb_match : option item
}.

Definition _is_part_number_obsolete (pn : pyval) : bool :=
  py_eq pn (VStr "OBSOLETE-PN").

(** ['Ambiguous' in name or 'Vague' in name] *)
Definition _is_name_ambiguous (name : pyval) : exc bool :=
  ambiguous ← py_in (VStr "Ambiguous") name;
  if ambiguous : bool then mret true else py_in (VStr "Vague") name.

(** Lines 93-97, as the truth values the conditions below test. *)
Definition has_pn (it : item) : bool :=
  truthy (get it "part_number") && negb (py_eq (get it "part_number") (VStr "")).
Definition has_name (it : item) : bool :=
  truthy (get it "material_name") && negb (py_eq (get it "material_name") (VStr "")).
Definition has_qty (it : item) : bool :=
  negb (match get it "qty" with VNone => true | _ => false end)
  && negb (py_eq (get it "qty") (VStr "")).
Definition has_vendor (it : item) : bool :=
  truthy (get it "vendor_name") && negb (py_eq (get it "vendor_name") (VStr "")).
Definition is_kit (it : item) : bool :=
  truthy (get_or it "kit_available" (VBool false)).

(** [x in [i.get(k) for i in item_master_items]] *)
Definition in_master (k : string) (x : pyval) (item_master_items : list item) : bool :=
  existsb (fun i => py_eq x (get i k)) item_master_items.

(** Lines 100-101. *)
Definition pn_match_in_master (it : item) (item_master_items : list item) : bool :=
  has_pn it && in_master "part_number" (get it "part_number") item_master_items.
Definition name_match_in_master (it : item) (item_master_items : list item) : bool :=
  has_name it && in_master "material_name" (get it "material_name") item_master_items.

(** The defaults written before the rules run (lines 104-112). *)
Definition defaults (it : item) : list (string * pyval) :=
  [("pn_match", VBool false); ("name_mismatch", VBool false);
   ("pn_mismatch", VBool false); ("obsolete_pn", VBool false);
   ("vendor_name_only", VBool false); ("kit_available", VBool false);
   ("is_consumable", VBool false);
   ("qa_classification_label", VStr "5");
   ("qa_confidence_level", VStr "low");
   ("reasoning", VStr "No match found");
   ("action_path", VStr HUMAN);
   ("confidence_score", VFloat 0.0);
   ("qa_material_name", get it "material_name")].

(** What a rule writes besides its flags. *)
Definition verdict (label level reasoning path : string) (score : Q)
  : list (string * pyval) :=
  [("qa_classification_label", VStr label);
   ("qa_confidence_level", VStr level);
   ("reasoning", VStr reasoning);
   ("action_path", VStr path);
   ("confidence_score", VFloat score)].

(** Lines 85-90 on the scalar fields: ['supplier_match'] is set and
    the old ['kb_match'], if any, is overwritten by the matched record. *)
Definition enrich (it : item) : item :=
  <["supplier_match" := VBool true]> (delete "kb_match" it).

(** [_apply_classification_logic(item, item_master_items)].  [best_match]
    is what [kb_service.search_for_matches([item])] found for the item: the
    list it returns has one entry per item, so the enrichment always
    runs. *)
Definition _apply_classification_logic
    (best_match : option item) (it0 : item) (item_master_items : list item)
  : exc classified :=
  let it := enrich it0 in
  let has_pn := has_pn it in
  let has_name := has_name it in
  let has_qty := has_qty it in
  let has_vendor := has_vendor it in
  let is_kit := is_kit it in
  let pn_match_in_master := pn_match_in_master it item_master_items in
  let name_match_in_master := name_match_in_master it item_master_items in
  let it := update (defaults it) it in
  let result kvs := Ok (Classified (update kvs it) best_match) in
  (* Rule 1 *)
  if pn_match_in_master && has_qty && has_name then
    result ([("pn_match", VBool true); ("is_consumable", VBool true)]
            ++ verdict "1" "high" "Match to BOM & Item Master Data" AUTO 0.95)
  (* Rule 2 *)
  else if pn_match_in_master && has_qty && truthy (get it "spec_match") then
    result ([("pn_match", VBool true); ("is_consumable", VBool true)]
            ++ verdict "2" "high" "Verify process parameters match" AUTO 0.90)
  (* Rule 3 *)
  else if pn_match_in_master && negb has_qty then
    result ([("is_consumable", VBool true); ("pn_match", VBool true)]
            ++ verdict "3" "medium" "Infer qty from BOM history" FLAG 0.70)
  (* Rule 9 *)
  else if has_vendor && negb has_pn && negb has_name then
    result ([("vendor_name_only", VBool true)]
            ++ verdict "9" "medium" "Map vendor to consumable in master" FLAG 0.60)
  (* Rule 11 *)
  else if is_kit && has_pn then
    result ([("kit_available", VBool true); ("is_consumable", VBool true)]
            ++ verdict "11" "medium" "Expand kit BOM" FLAG 0.55)
  (* Rule 12 *)
  else if negb has_pn && has_name && has_qty then
    result ([("is_consumable", VBool true)]
            ++ verdict "12" "medium" "Merge WI with QC steps" FLAG 0.65)
  (* Rule 4 *)
  else if negb has_pn && name_match_in_master then
    result ([("is_consumable", VBool true)]
            ++ verdict "4" "low" "Check for text match in master data" HUMAN 0.40)
  (* Rule 6 *)
  else if has_pn && has_name && negb pn_match_in_master then
    result ([("pn_mismatch", VBool true); ("is_consumable", VBool true)]
            ++ verdict "6" "low" "Compare QC vs BOM & Master Data" HUMAN 0.30)
  (* Rule 7 *)
  else if _is_part_number_obsolete (get_or it "part_number" (VStr "")) && has_name then
    result ([("obsolete_pn", VBool true); ("is_consumable", VBool true)]
            ++ verdict "7" "low" "Cross-check active/inactive status" HUMAN 0.20)
  else
    (* Rule 8 *)
    ambiguous ← _is_name_ambiguous (get_or it "material_name" (VStr ""));
    if ambiguous : bool then
      result ([("name_mismatch", VBool true)]
              ++ verdict "8" "low" "NLP ambiguity score high" HUMAN 0.35)
    (* Rule 10 *)
    else if truthy (get_or it "multiple_references" (VBool false)) then
      result (verdict "10" "low" "Detect multiple material refs" HUMAN 0.10)
    (* Rule 13 *)
    else if has_vendor && is_kit && negb has_pn then
      result (verdict "13" "low" "Map vendor, expand kit BOM" HUMAN 0.25)
    (* Rule 5 *)
    else
      result ([("is_consumable", VBool false)]
              ++ verdict "5" "low" "No match found" HUMAN 0.0).

(** The four fields a verdict is read from. *)
Definition label (c : classified) : pyval := get (fields c) "qa_classification_label".
Definition level (c : classified) : pyval := get (fields c) "qa_confidence_level".
Definition path (c : classified) : pyval := get (fields c) "action_path".
Definition score (c : classified) : pyval := get (fields c) "confidence_score".

End Router.

(* ===================================================================== *)
(** * The tables ([models.py])                                             *)
(* ===================================================================== *)

Module Models.

(** A row of [workflows]. *)
Record workflow_row : Type := WorkflowRow {
  status : string;
  comparison_mode : string;
  created_at : nat;
  updated_at : nat;
  progress : Z;
  current_stage : option string;
  message : option string;
  wi_document_path : option string;
  item_master_path : option string
}.

(** A row of [knowledge_base].  A column that stores [str(v)] or
    [json.dumps(v)] is represented by [v]. *)
Record kb_row : Type := KbRow {
  kb_material_name : pyval;
  kb_part_number : pyval;
  kb_description : pyval;
  kb_classification_label : pyval;
  kb_confidence_level : pyval;
  kb_supplier_info : pyval;
  kb_workflow_id : string;
  kb_approved_by : string;
  kb_approved_at : nat;
  kb_metadata : item
}.

(** A row of [pending_approvals]; [item_data] stores [json.dumps(item)]. *)
Record pending_row : Type := PendingRow {
  pa_workflow_id : string;
  pa_item_data : item;
  pa_status : string;
  pa_created_at : nat
}.

Record summary : Type := Summary {
  total_materials : nat;
  successful_matches : nat;
  knowledge_base_matches : nat;
  summary_comparison_mode : string
}.

(** A row of [workflow_results]. *)
Record result_row : Type := ResultRow {
  wr_workflow_id : string;
  wr_matches : list item;
  wr_summary : summary
}.

(** The database; [clock] is what [CURRENT_TIMESTAMP] reads. *)
Record database : Type := Database {
  clock : nat;
  workflows : gmap string workflow_row;
  knowledge_base : list kb_row;
  pending_approvals : list pending_row;
  workflow_results : list result_row
}.

(** An integer that fits SQLite's [INTEGER], 64 bits with a sign.
    Binding another one to a statement raises an [OverflowError] before
    the statement runs and before a transaction is begun. *)
Definition fits_integer (z : Z) : bool :=
  ((-9223372036854775808 <=? z) && (z <=? 9223372036854775807))%Z.

(** A scalar that can be bound to a statement. *)
Definition binds (v : pyval) : bool :=
  match v with
  | VInt z => fits_integer z
  | _ => true
  end.

Definition too_large : exn :=
  Exn OverflowError "Python int too large to convert to SQLite INTEGER".

(** What a statement raises while another connection holds the write
    lock. *)
Definition locked : exn := Exn OperationalError "database is locked".

(** The [SET] clause [update_workflow_status] builds: [progress] is
    written unless it is [None], [stage] and [message] when truthy. *)
Definition set_status (now : nat) (new_status : string) (new_progress : option Z)
    (stage new_message : option string) (row : workflow_row) : workflow_row :=
  {| status := new_status;
     comparison_mode := comparison_mode row;
     created_at := created_at row;
     updated_at := now;
     progress := match new_progress with
                 | Some p => p
                 | None => progress row
                 end;
     current_stage := match stage with
                      | Some s => if s =? "" then current_stage row else Some s
                      | None => current_stage row
                      end;
     message := match new_message with
                | Some m => if m =? "" then message row else Some m
                | None => message row
                end;
     wi_document_path := wi_document_path row;
     item_master_path := item_master_path row |}.

(** The table once the [UPDATE ... WHERE id = ?] of
    [update_workflow_status] is committed: it touches the row of that id,
    if there is one. *)
Definition updated_status (workflow_id new_status : string)
    (new_progress : option Z) (stage new_message : option string)
    (db : database) : database :=
  {| clock := clock db;
     workflows :=
       match workflows db !! workflow_id with
       | Some row =>
           <[workflow_id :=
               set_status (clock db) new_status new_progress stage new_message row]>
             (workflows db)
       | None => workflows db
       end;
     knowledge_base := knowledge_base db;
     pending_approvals := pending_approvals db;
     workflow_results := workflow_results db |}.

(** The [progress] an update is given can be bound. *)
Definition progress_fits (new_progress : option Z) : bool :=
  match new_progress with
  | Some p => fits_integer p
  | None => true
  end.

(** [WorkflowModel.update_workflow_status], called while [held] tells
    whether a connection left open earlier still holds the write lock.
    The values are bound first, then the [UPDATE] runs; when it cannot
    run nothing is written. *)
Definition update_workflow_status (held : bool) (workflow_id new_status : string)
    (new_progress : option Z) (stage new_message : option string)
    (db : database) : exc unit * database :=
  if negb (progress_fits new_progress) then (Raise too_large, db)
  else if held then (Raise locked, db)
  else (Ok tt, updated_status workflow_id new_status new_progress stage new_message db).

(** What [add_item] raises when the [INSERT] fails on the column
    [material_name], which is [TEXT NOT NULL]: the transaction of the
    [INSERT] is open, and [conn.close()] is not reached. *)
Definition not_null_failed : exn :=
  MkExn IntegrityError "NOT NULL constraint failed: knowledge_base.material_name" true.

(** [KnowledgeBaseModel.add_item], called while no other connection
    holds the write lock.  [confidence_level] and [supplier_info] are
    bound as the strings [str(v)] and [json.dumps(v)]; the four columns
    bound as they come must fit. *)
Definition add_item (material_name part_number description classification_label
    confidence_level supplier_info : pyval) (workflow_id approved_by : string)
    (metadata : item) (db : database) : exc unit * database :=
  if negb (binds material_name && binds part_number && binds description
           && binds classification_label)
  then (Raise too_large, db)
  else
  match material_name with
  | VNone => (Raise not_null_failed, db)
  | _ =>
      (Ok tt,
       {| clock := clock db;
          workflows := workflows db;
          knowledge_base :=
            knowledge_base db ++
            [KbRow material_name part_number description classification_label
                   confidence_level supplier_info workflow_id approved_by
                   (clock db) metadata];
          pending_approvals := pending_approvals db;
          workflow_results := workflow_results db |})
  end.

(** [PendingApprovalModel.add_pending_item] *)
Definition add_pending_item (workflow_id : string) (item_data : item)
    (db : database) : database :=
  {| clock := clock db;
     workflows := workflows db;
     knowledge_base := knowledge_base db;
     pending_approvals :=
       pending_approvals db ++ [PendingRow workflow_id item_data "pending" (clock db)];
     workflow_results := workflow_results db |}.

(** The [INSERT INTO workflow_results] of [_save_workflow_results]. *)
Definition insert_workflow_result (workflow_id : string) (matches : list item)
    (s : summary) (db : database) : database :=
  {| clock := clock db;
     workflows := workflows db;
     knowledge_base := knowledge_base db;
     pending_approvals := pending_approvals db;
     workflow_results := workflow_results db ++ [ResultRow workflow_id matches s] |}.

End Models.

(* ===================================================================== *)
(** * The orchestrator ([workflow_service.py])                             *)
(* ===================================================================== *)

Module Workflow.
Import Dedup Models.

(** What a run reads and writes: the database and the directory
    [results/], one JSON document [{matches, summary}] per file. *)
Record world : Type := World {
  db : database;
  results_dir : gmap string (list item * summary)
}.

(** The services [_process_workflow_async] calls through [self]; a call
    returns or raises.  The classifier is handed the rows
    [kb_service.get_items()] selects from the knowledge base, a function
    of the table. *)
Record collaborators : Type := Collaborators {
  extract_text : string -> exc string;
  parse_item_master : string -> exc (list item);
  translate_to_english : string -> exc string;
  extract_and_classify_items : string -> list item -> list kb_row -> exc (list item)
}.

(** The method [translate_to_english] of the [TranslationService] that
    [WorkflowService.__init__] creates: whatever the gateway does, the
    call returns. *)
Definition translation_service (url : string)
    (gateway : string -> nat -> Resilient.post_result)
    (content_of : string -> exc string) : string -> exc string :=
  fun text => Ok (Resilient.translate_to_english url gateway content_of text).

(** Statements that may raise and that change the world; what was
    written before a raise stays written. *)
Definition M (A : Type) : Type := world -> exc A * world.

#[export] Instance M_ret : MRet M := fun A a w => (Ok a, w).
#[export] Instance M_bind : MBind M := fun A B f m w =>
  match m w with
  | (Ok a, w') => f a w'
  | (Raise e, w') => (Raise e, w')
  end.

Definition lift {A : Type} (r : exc A) : M A := fun w => (r, w).
Definition on_db (f : database -> database) : M unit :=
  fun w => (Ok tt, World (f (db w)) (results_dir w)).
Definition read_db {A : Type} (f : database -> A) : M A :=
  fun w => (Ok (f (db w)), w).

Definition is_auto_register (it : item) : bool :=
  py_eq (get it "action_path") (VStr AUTO).

(** [_add_to_knowledge_base]: one committed [INSERT] per item. *)
Fixpoint _add_to_knowledge_base (workflow_id : string) (matches : list item)
  : M unit :=
  match matches with
  | [] => mret tt
  | m :: matches' =>
      (fun w =>
         let (r, d) :=
           add_item (get m "material_name") (get m "part_number")
                    (get m "reasoning") (get m "qa_classification_label")
                    (get m "confidence_score") (get m "vendor_name")
                    workflow_id "system" m (db w) in
         (r, World d (results_dir w)));;
      _add_to_knowledge_base workflow_id matches'
  end.

(** [_create_pending_approvals] *)
Fixpoint _create_pending_approvals (workflow_id : string) (matches : list item)
  : M unit :=
  match matches with
  | [] => mret tt
  | m :: matches' =>
      on_db (add_pending_item workflow_id m);;
      _create_pending_approvals workflow_id matches'
  end.

(** [_generate_summary] on a list. *)
Definition _generate_summary (items : list item) (mode : string) : summary :=
  {| total_materials := length items;
     successful_matches := length (List.filter is_auto_register items);
     knowledge_base_matches := 0;
     summary_comparison_mode := mode |}.

(** [_save_workflow_results]: the file, then the row. *)
Definition _save_workflow_results (workflow_id : string) (results : list item)
    (s : summary) : M unit :=
  (fun w => (Ok tt, World (db w) (<[workflow_id := (results, s)]> (results_dir w))));;
  on_db (insert_workflow_result workflow_id results s).

(** A call of [WorkflowModel.update_workflow_status]. *)
Definition set_workflow_status (held : bool) (workflow_id new_status : string)
    (new_progress : option Z) (stage new_message : option string) : M unit :=
  fun w =>
    let (r, d) := update_workflow_status held workflow_id new_status new_progress
                                         stage new_message (db w) in
    (r, World d (results_dir w)).

Section Run.
Variable c : collaborators.
Variables (workflow_id wi_path : string) (item_path : option string).
Variable mode : string.

(** Lines 64-73. *)
Definition extracting : M (string * list item * list kb_row) :=
  set_workflow_status false workflow_id "processing" (Some 10%Z) (Some "extracting")
                      (Some "Extracting data from documents");;
  wi_content ← lift (extract_text c wi_path);
  item_master_items ←
    lift (match item_path with
          | Some p => if p =? "" then Ok [] else parse_item_master c p
          | None => Ok []
          end);
  kb_items ← read_db knowledge_base;
  mret (wi_content, item_master_items, kb_items).

(** Lines 75-81. *)
Definition translating (wi_content : string) : M string :=
  set_workflow_status false workflow_id "processing" (Some 30%Z) (Some "translating")
                      (Some "Translating document to English");;
  lift (translate_to_english c wi_content).

(** Lines 83-98. *)
Definition classifying (translated_wi_content : string)
    (item_master_items : list item) (kb_items : list kb_row) : M (list item) :=
  set_workflow_status false workflow_id "processing" (Some 50%Z) (Some "classifying")
                      (Some "Classifying and matching items with Gemini");;
  extracted_items ←
    lift (extract_and_classify_items c translated_wi_content item_master_items
                                     kb_items);
  lift (_deduplicate_items extracted_items).

(** Lines 100-125. *)
Definition routing (deduplicated_items : list item) : M unit :=
  let items_to_auto_register := List.filter is_auto_register deduplicated_items in
  let items_for_human_review :=
    List.filter (fun it => negb (is_auto_register it)) deduplicated_items in
  match items_to_auto_register with
  | [] => mret tt
  | _ => _add_to_knowledge_base workflow_id items_to_auto_register
  end;;
  match items_for_human_review with
  | [] => mret tt
  | _ => _create_pending_approvals workflow_id items_for_human_review
  end;;
  _save_workflow_results workflow_id deduplicated_items
                         (_generate_summary deduplicated_items mode);;
  set_workflow_status false workflow_id "completed" (Some 100%Z) (Some "completed")
                      (Some "Processing completed successfully").

(** The [try] block of [_process_workflow_async]. *)
Definition try_block : M unit :=
  '(wi_content, item_master_items, kb_items) ← extracting;
  translated_wi_content ← translating wi_content;
  deduplicated_items ← classifying translated_wi_content item_master_items kb_items;
  routing deduplicated_items.

(** [_process_workflow_async]: [except Exception as e] records the
    failure, unless the exception has left a connection that holds the
    write lock: the handler runs while the exception is alive, so the
    connection is still open, the [UPDATE] of the handler raises in its
    turn, out of the call, and nothing is recorded.  No connection is
    open when the call begins, so the writes of the [try] block find the
    database unlocked. *)
Definition _process_workflow_async (w : world) : world :=
  match try_block w with
  | (Ok _, w') => w'
  | (Raise e, w') =>
      snd (set_workflow_status (holds_lock e) workflow_id "error" None None
             (Some ("Processing failed: " +:+ exn_str e)) w')
  end.

End Run.

(** ** Vocabulary of the statements about a run *)

(** The world once the milestone of a stage is written. *)
Definition at_stage (workflow_id : string) (p : Z) (stage msg : string) (w : world)
  : world :=
  World (updated_status workflow_id "processing" (Some p) (Some stage)
                                (Some msg) (db w))
        (results_dir w).

Definition at_extracting (workflow_id : string) (w : world) : world :=
  at_stage workflow_id 10 "extracting" "Extracting data from documents" w.
Definition at_translating (workflow_id : string) (w : world) : world :=
  at_stage workflow_id 30 "translating" "Translating document to English"
           (at_extracting workflow_id w).
Definition at_classifying (workflow_id : string) (w : world) : world :=
  at_stage workflow_id 50 "classifying" "Classifying and matching items with Gemini"
           (at_translating workflow_id w).

(** The item master a run works with (line 70). *)
Definition item_master_of (c : collaborators) (item_path : option string)
  : exc (list item) :=
  match item_path with
  | Some p => if p =? "" then Ok [] else parse_item_master c p
  | None => Ok []
  end.

(** What the three stages compute from the document, the item master and
    the rows of the knowledge base: the deduplicated items. *)
Definition classified_items (c : collaborators) (wi_path : string)
    (item_path : option string) (kb_items : list kb_row) : exc (list item) :=
  wi_content ← extract_text c wi_path;
  item_master_items ← item_master_of c item_path;
  translated_wi_content ← translate_to_english c wi_content;
  extracted_items ←
    extract_and_classify_items c translated_wi_content item_master_items kb_items;
  _deduplicate_items extracted_items.

(** The rows the two sinks write for an item. *)
Definition kb_row_of (workflow_id : string) (now : nat) (m : item) : kb_row :=
  KbRow (get m "material_name") (get m "part_number") (get m "reasoning")
        (get m "qa_classification_label") (get m "confidence_score")
        (get m "vendor_name") workflow_id "system" now m.
Definition pending_row_of (workflow_id : string) (now : nat) (m : item) : pending_row :=
  PendingRow workflow_id m "pending" now.

(** The values [_add_to_knowledge_base] binds as they come, for an item,
    can be bound. *)
Definition storable (m : item) : bool :=
  binds (get m "material_name") && binds (get m "part_number")
  && binds (get m "reasoning") && binds (get m "qa_classification_label").

(** The row of a workflow, if it has one. *)
Definition workflow_of (workflow_id : string) (w : world) : option workflow_row :=
  workflows (db w) !! workflow_id.

End Workflow.

(* ===================================================================== *)
(** * A run used in the examples                                           *)
(* ===================================================================== *)

Module Scenario.
Import Dedup Models Workflow.

Definition screw : item :=
  <["material_name" := VStr "Screw M3x10"]>
    (<["part_number" := VStr "PN-123"]> (<["action_path" := VStr AUTO]> ∅)).
Definition gasket : item :=
  <["material_name" := VStr "Old Gasket"]>
    (<["part_number" := VStr "OBSOLETE-PN"]> (<["action_path" := VStr HUMAN]> ∅)).

(** A gateway that answers 500 to every POST. *)
Definition url : string := "https://gateway".
Definition down : string -> nat -> Resilient.post_result :=
  fun _ _ => Resilient.Replied (Resilient.Response 500 "Internal Server Error" "").
Definition content_of : string -> exc string := fun body => Ok body.

Definition document : string := "作業手順書".

(** A document that parses, the translation service on the gateway that
    is down, and a classifier that finds two items. *)
Definition gateway_down : collaborators :=
  {| extract_text := fun _ => Ok document;
     parse_item_master := fun _ => Ok [];
     translate_to_english := translation_service url down content_of;
     extract_and_classify_items := fun _ _ _ => Ok [screw; gasket] |}.

(** The same with a document of an unknown type. *)
Definition bad_document : collaborators :=
  {| extract_text := fun _ => Raise (Exn ValueError "Unsupported file type: .png");
     parse_item_master := parse_item_master gateway_down;
     translate_to_english := translate_to_english gateway_down;
     extract_and_classify_items := extract_and_classify_items gateway_down |}.

Definition pending_row_w1 : workflow_row :=
  WorkflowRow "pending" "full" 3 3 0 None None (Some "uploads/w1/wi.txt") None.

(** A database that holds the freshly created workflow [w1]. *)
Definition submitted : world :=
  World (Database 7 {[ "w1" := pending_row_w1 ]} [] [] []) ∅.

End Scenario.

(* ===================================================================== *)
(** * Vocabulary for strings                                               *)
(* ===================================================================== *)

Module Text.

(** Text in the ASCII range.  On it [Py.strip] and [Py.lower] are
    [str.strip] and [str.lower], and the white space of [Py.is_space] is
    the white space of the regular expressions. *)
Fixpoint ascii_text (s : string) : bool :=
  match s with
  | String c s' => (N_of_ascii c <? 128)%N && ascii_text s'
  | EmptyString => true
  end.

(** A string of white space only. *)
Fixpoint blank (s : string) : bool :=
  match s with
  | String c s' => is_space c && blank s'
  | EmptyString => true
  end.

End Text.

(* ===================================================================== *)
(** * Vocabulary for the deduplicated list                                 *)
(* ===================================================================== *)

Module DedupSpec.
Import Dedup.

(** The keys of a list of items, as the loop computes them, item by item. *)
Fixpoint keys_of (items : list item) : exc (list string) :=
  match items with
  | [] => Ok []
  | it :: items' =>
      key ← item_key it;
      keys ← keys_of items';
      mret (key :: keys)
  end.

Definition seen (key : string) (keys : list string) : bool :=
  existsb (String.eqb key) keys.

(** The keys in the order of their first occurrence. *)
Definition first_occurrences (keys : list string) : list string :=
  fold_left (fun acc key => if seen key acc then acc else acc ++ [key]) keys [].

(** [m] is at least as strict as [it]. *)
Definition path_covered (it m : item) : Prop :=
  forall p, action_path_priority (get it "action_path") = Some p ->
    exists p', action_path_priority (get m "action_path") = Some p' /\ (p <= p')%Z.

(** [m] scores at least as high as [it], for a numeric score. *)
Definition score_covered (it m : item) : Prop :=
  forall x, as_num (get_or it "confidence_score" (VInt 0)) = Some x ->
    exists y, as_num (get_or m "confidence_score" (VInt 0)) = Some y /\ (x <= y)%Q.

(** The reasoning of [it], a non-empty text, is part of that of [m]. *)
Definition reasoning_covered (it m : item) : Prop :=
  forall s, get_or it "reasoning" (VStr "") = VStr s -> s <> "" ->
    exists t, get_or m "reasoning" (VStr "") = VStr t /\ is_substring s t = true.

(** What the key reads of a field: [strip], then [lower]. *)
Definition normal (v : pyval) : exc string :=
  s ← strip_or_empty v; mret (lower s).

(** The record [m] covers, in the sense of [covers], all that [e] does. *)
Definition extends (covers : item -> item -> Prop) (e m : item) : Prop :=
  forall x, covers x e -> covers x m.

(** An item whose name and part number, where they are text, are in the
    ASCII range. *)
Definition plain_field (v : pyval) : bool :=
  match v with
  | VStr s => Text.ascii_text s
  | _ => true
  end.
Definition plain (it : item) : bool :=
  plain_field (get it "material_name") && plain_field (get it "part_number").

(** A name or part number the loop can normalise. *)
Definition strippable (v : pyval) : bool :=
  match v with
  | VNone | VStr _ => true
  | _ => false
  end.

End DedupSpec.

(* ===================================================================== *)
(** * Two mentions of one part, for the examples                           *)
(* ===================================================================== *)

Module Mentions.
Import Dedup.

Definition first_mention : item :=
  <["material_name" := VStr "Screw"]>
    (<["part_number" := VStr "PN-1"]>
       (<["action_path" := VStr AUTO]>
          (<["confidence_score" := VFloat 0.4]>
             (<["reasoning" := VStr "in BOM"]> ∅)))).

Definition second_mention : item :=
  <["material_name" := VStr " screw "]>
    (<["part_number" := VStr "pn-1"]>
       (<["action_path" := VStr HUMAN]>
          (<["confidence_score" := VFloat 0.9]>
             (<["reasoning" := VStr "in KB"]> ∅)))).

(** What the loop makes of the two. *)
Definition merged_mention : item :=
  <["action_path" := VStr HUMAN]>
    (<["confidence_score" := VFloat 0.9]>
       (<["reasoning" := VStr "in BOM | in KB"]> first_mention)).

(** An item whose name came back as a number. *)
Definition numbered : item :=
  <["material_name" := VInt 42]> (<["part_number" := VStr "PN-2"]> ∅).

End Mentions.

(* ===================================================================== *)
(** * Vocabulary for the verdicts of the rule chain                        *)
(* ===================================================================== *)

Module RouterSpec.
Import Dedup Router.

(** Level, action path and score go together. *)
Definition coherent (c : classified) : Prop :=
  exists q, score c = VFloat q /\
    ((level c = VStr "high" /\ path c = VStr AUTO /\ (0.90 <= q)%Q /\ (q <= 0.95)%Q) \/
     (level c = VStr "medium" /\ path c = VStr FLAG /\ (0.55 <= q)%Q /\ (q <= 0.70)%Q) \/
     (level c = VStr "low" /\ path c = VStr HUMAN /\ (0 <= q)%Q /\ (q <= 0.40)%Q)).

(** The keys [_apply_classification_logic] writes. *)
Definition written : list string :=
  ["supplier_match"; "kb_match"] ++ map fst (defaults ∅).

End RouterSpec.

(* ===================================================================== *)
(** * Vocabulary for the waiting time                                      *)
(* ===================================================================== *)

Module RetrySpec.

(** The seconds slept in all. *)
Definition total_wait (trace : list Resilient.event) : Z :=
  fold_right Z.add 0%Z (Resilient.sleeps trace).

End RetrySpec.

(* ===================================================================== *)
(** * The Gemini agent ([gemini_agent_service.py])                         *)
(* ===================================================================== *)

Module Gemini.

(** [s[n:]] *)
Fixpoint skip (n : nat) (s : string) : string :=
  match n, s with
  | S n', String _ s' => skip n' s'
  | _, _ => s
  end.

(** The first occurrence of [needle] in [s]: what stands before it and
    what stands after it. *)
Fixpoint split_at (needle s : string) : option (string * string) :=
  if String.prefix needle s then Some ("", skip (String.length needle) s)
  else
    match s with
    | String c s' =>
        match split_at needle s' with
        | Some (before, after) => Some (String c before, after)
        | None => None
        end
    | EmptyString => None
    end.

(** [_extract_json_from_markdown]: [re.search] of "```json", white space,
    a shortest run of any characters, white space, "```", in [DOTALL]
    mode.  The leftmost match starts at the first "```json"; its group 1
    begins after the white space that follows and ends before the white
    space in front of the next "```".  Without a match the text is
    returned. *)
Definition _extract_json_from_markdown (text : string) : string :=
  match split_at "```json" text with
  | Some (_, rest) =>
      match split_at "```" (lstrip rest) with
      | Some (body, _) => rstrip body
      | None => text
      end
  | None => text
  end.

Section Agent.
Variable url : string.
(** The gateway's answers to the successive POSTs of the prompt built from
    the document, the item master and the knowledge-base rows. *)
Variable gateway : string -> list item -> list Models.kb_row -> nat -> Resilient.post_result.
(** [response.json()] followed by the test on ['choices'] and by
    [['choices'][0]['message']['content']]: [None] when ['choices'] is
    missing or empty; raises when the body is not JSON or not of that
    shape. *)
Variable choices_content : string -> exc (option string).
(** [json.loads] followed by [isinstance(parsed_data, list)]: [None] for
    JSON that is not an array. *)
Variable loads_items : string -> exc (option (list item)).

(** [extract_and_classify_items]: every way of failing ends in the empty
    list. *)
Definition extract_and_classify_items (document_content : string)
    (item_master_items : list item) (kb_items : list Models.kb_row) : list item :=
  match fst (Resilient._call_api_with_retry url
               (gateway document_content item_master_items kb_items)
               Resilient.default_max_retries) with
  | Ok (Some response) =>
      match choices_content (Resilient.text response) with
      | Ok (Some extracted_text) =>
          match loads_items (_extract_json_from_markdown extracted_text) with
          | Ok (Some parsed_data) => parsed_data
          | Ok None => []
          | Raise _ => []
          end
      | Ok None => []
      | Raise _ => []
      end
  | Ok None => []
  | Raise _ => []
  end.

End Agent.

(** The agent as the orchestrator calls it: the call always returns. *)
Definition gemini_service (url : string)
    (gateway : string -> list item -> list Models.kb_row -> nat -> Resilient.post_result)
    (choices_content : string -> exc (option string))
    (loads_items : string -> exc (option (list item)))
  : string -> list item -> list Models.kb_row -> exc (list item) :=
  fun document_content item_master_items kb_items =>
    Ok (extract_and_classify_items url gateway choices_content loads_items
          document_content item_master_items kb_items).

(** No backtick in a string. *)
Fixpoint no_backtick (s : string) : bool :=
  match s with
  | String c s' => negb (Ascii.eqb c "`") && no_backtick s'
  | EmptyString => true
  end.

End Gemini.

(* ===================================================================== *)
(** * Runs on a classifier that is down or that forgets a name             *)
(* ===================================================================== *)

Module Outage.
Import Dedup Models Workflow.

(** A gateway that answers 503 to every POST of the classification
    prompt. *)
Definition agent_down
  : string -> list item -> list kb_row -> nat -> Resilient.post_result :=
  fun _ _ _ _ =>
    Resilient.Replied (Resilient.Response 503 "Service Unavailable" "").

(** A document that parses and translates, and the agent on that
    gateway. *)
Definition classifier_down : collaborators :=
  {| extract_text := fun _ => Ok Scenario.document;
     parse_item_master := fun _ => Ok [];
     translate_to_english := fun _ => Ok "Work instruction";
     extract_and_classify_items :=
       Gemini.gemini_service Scenario.url agent_down
         (fun _ => Ok None) (fun _ => Ok None) |}.

(** An item the classifier sends to the knowledge base without a name. *)
Definition nameless : item :=
  <["part_number" := VStr "PN-9"]> (<["action_path" := VStr AUTO]> ∅).

(** A classifier that finds the screw, the nameless item and the gasket. *)
Definition forgets_a_name : collaborators :=
  {| extract_text := fun _ => Ok Scenario.document;
     parse_item_master := fun _ => Ok [];
     translate_to_english := fun _ => Ok "Work instruction";
     extract_and_classify_items :=
       fun _ _ _ => Ok [Scenario.screw; nameless; Scenario.gasket] |}.

End Outage.

(* ===================================================================== *)
(** * The rest of the workflow tables ([models.py])                        *)
(* ===================================================================== *)

Module Store.
Import Models.

(** [WorkflowModel.create_workflow], called while no other connection
    holds the write lock: [id] is the primary key of [workflows]; the
    columns the [INSERT] leaves out take the defaults of the schema.  An
    [INSERT] that fails on the key leaves its connection open, as in
    [KnowledgeBaseModel.add_item]. *)
Definition create_workflow (workflow_id comparison_mode : string)
    (wi_path item_path : option string) (d : database) : exc unit * database :=
  match workflows d !! workflow_id with
  | Some _ =>
      (Raise (MkExn IntegrityError "UNIQUE constraint failed: workflows.id" true), d)
  | None =>
      (Ok tt,
       {| clock := clock d;
          workflows :=
            <[workflow_id :=
                WorkflowRow "pending" comparison_mode (clock d) (clock d) 0 None None
                            wi_path item_path]> (workflows d);
          knowledge_base := knowledge_base d;
          pending_approvals := pending_approvals d;
          workflow_results := workflow_results d |})
  end.

(** [WorkflowModel.get_workflow] *)
Definition get_workflow (workflow_id : string) (d : database) : option workflow_row :=
  workflows d !! workflow_id.

(** [WorkflowModel.delete_workflow] *)
Definition delete_workflow (workflow_id : string) (d : database) : database :=
  {| clock := clock d;
     workflows := delete workflow_id (workflows d);
     knowledge_base := knowledge_base d;
     pending_approvals := pending_approvals d;
     workflow_results := workflow_results d |}.

(** [WorkflowModel.delete_workflow_results] *)
Definition delete_workflow_results (workflow_id : string) (d : database) : database :=
  {| clock := clock d;
     workflows := workflows d;
     knowledge_base := knowledge_base d;
     pending_approvals := pending_approvals d;
     workflow_results :=
       List.filter (fun r => negb (wr_workflow_id r =? workflow_id)) (workflow_results d) |}.

(** [PendingApprovalModel.delete_pending_items_by_workflow] *)
Definition delete_pending_items_by_workflow (workflow_id : string) (d : database)
  : database :=
  {| clock := clock d;
     workflows := workflows d;
     knowledge_base := knowledge_base d;
     pending_approvals :=
       List.filter (fun r => negb (pa_workflow_id r =? workflow_id)) (pending_approvals d);
     workflow_results := workflow_results d |}.

End Store.

(* ===================================================================== *)
(** * The life of a workflow ([workflow_service.py])                       *)
(* ===================================================================== *)

Module Service.
Import Models Workflow.

(** An uploaded file: its name and its bytes. *)
Record upload : Type := Upload { filename : string; file : string }.

(** A call handed to the executor. *)
Record job : Type := Job {
  job_workflow_id : string;
  job_wi_path : string;
  job_item_path : option string;
  job_comparison_mode : string
}.

(** The world of a run, the directory [uploads/] with one directory per
    workflow, and the calls submitted to the executor.  File names are
    read as plain names, and the disk as reliable.  A call of the service
    finds the database unlocked: by then the collector has closed what an
    earlier call may have left open. *)
Record site : Type := Site {
  state : world;
  uploads : gmap string (gmap string string);
  submitted : list job
}.

(** What a method of the service gives back: a value, or the
    [Exception] it raises. *)
Inductive outcome (A : Type) : Type :=
| Done (a : A)
| Failed (msg : string).
Arguments Done {A} a.
Arguments Failed {A} msg.

Definition upload_dir : string := "uploads".

(** [os.path.join] of a directory and a plain name. *)
Definition path_join (dir name : string) : string := dir +:+ "/" +:+ name.

(** [start_workflow]: the files are written before the row is created;
    the second file is written over the first when they have one name. *)
Definition start_workflow (workflow_id : string) (wi_document : upload)
    (item_master : option upload) (comparison_mode : string) (s : site)
  : outcome bool * site :=
  let workflow_dir := path_join upload_dir workflow_id in
  let wi_path := path_join workflow_dir (filename wi_document) in
  let dir1 :=
    <[filename wi_document := file wi_document]> (default ∅ (uploads s !! workflow_id)) in
  let item_path :=
    match item_master with
    | Some u => Some (path_join workflow_dir (filename u))
    | None => None
    end in
  let dir2 :=
    match item_master with
    | Some u => <[filename u := file u]> dir1
    | None => dir1
    end in
  let uploads' := <[workflow_id := dir2]> (uploads s) in
  match Store.create_workflow workflow_id comparison_mode (Some wi_path) item_path
                              (db (state s)) with
  | (Ok _, d) =>
      (Done true,
       Site (World d (results_dir (state s))) uploads'
            (submitted s ++ [Job workflow_id wi_path item_path comparison_mode]))
  | (Raise e, d) =>
      (Failed ("Failed to start workflow: " +:+ exn_str e),
       Site (World d (results_dir (state s))) uploads' (submitted s))
  end.

(** The executor running a submitted call. *)
Definition run_job (c : collaborators) (j : job) (s : site) : site :=
  Site (_process_workflow_async c (job_workflow_id j) (job_wi_path j) (job_item_path j)
          (job_comparison_mode j) (state s))
       (uploads s) (submitted s).

(** [get_workflow_status] *)
Definition get_workflow_status (workflow_id : string) (s : site) : exc workflow_row :=
  match Store.get_workflow workflow_id (db (state s)) with
  | Some workflow => Ok workflow
  | None => Raise (Exn ValueError "Workflow not found")
  end.

(** [get_workflow_results] *)
Definition get_workflow_results (workflow_id : string) (s : site)
  : exc (list item * summary) :=
  match results_dir (state s) !! workflow_id with
  | Some r => Ok r
  | None => Raise (Exn ValueError "Results not found")
  end.

(** [delete_workflow]: the three tables, then the upload directory and
    the results file where they exist. *)
Definition delete_workflow (workflow_id : string) (s : site) : site :=
  Site (World (Store.delete_pending_items_by_workflow workflow_id
                 (Store.delete_workflow_results workflow_id
                    (Store.delete_workflow workflow_id (db (state s)))))
              (delete workflow_id (results_dir (state s))))
       (delete workflow_id (uploads s))
       (submitted s).

(** Nothing of a workflow is on the site. *)
Definition fresh (workflow_id : string) (s : site) : Prop :=
  workflows (db (state s)) !! workflow_id = None /\
  results_dir (state s) !! workflow_id = None /\
  uploads s !! workflow_id = None /\
  Forall (fun r => pa_workflow_id r <> workflow_id) (pending_approvals (db (state s))) /\
  Forall (fun r => wr_workflow_id r <> workflow_id) (workflow_results (db (state s))).

(** An empty site. *)
Definition empty_site : site := Site (World (Database 7 ∅ [] [] []) ∅) ∅ [].

Definition wi : upload := Upload "wi.txt" "作業手順書".
Definition misnamed_master : upload := Upload "wi.txt" "part_number,material_name".

End Service.

(* ===================================================================== *)
(** * Vocabulary for what a run may touch                                  *)
(* ===================================================================== *)

Module Isolation.
Import Models Workflow.

(** From [w] to [w'], only what belongs to one workflow has changed: the
    rows of the other workflows and their results files are as before,
    the three other tables have only grown, by rows that carry the id of
    that workflow, and the clock has not been read differently. *)
Definition touches_only (workflow_id : string) (w w' : world) : Prop :=
  clock (db w') = clock (db w) /\
  (forall other, other <> workflow_id ->
     workflows (db w') !! other = workflows (db w) !! other) /\
  (forall other, other <> workflow_id ->
     results_dir w' !! other = results_dir w !! other) /\
  (exists rows, knowledge_base (db w') = knowledge_base (db w) ++ rows /\
     Forall (fun r => kb_workflow_id r = workflow_id) rows) /\
  (exists rows, pending_approvals (db w') = pending_approvals (db w) ++ rows /\
     Forall (fun r => pa_workflow_id r = workflow_id) rows) /\
  (exists rows, workflow_results (db w') = workflow_results (db w) ++ rows /\
     Forall (fun r => wr_workflow_id r = workflow_id) rows).

End Isolation.

(* ===================================================================== *)
(** * The review of pending items ([knowledge_base_service.py])            *)
(* ===================================================================== *)

Module Review.

(** A row of [pending_approvals] with its id and what a review writes. *)
Record pending_item : Type := PendingItem {
  pi_id : Z;
  pi_workflow_id : string;
  pi_item_data : item;
  pi_status : string;
  pi_reviewed_by : option string;
  pi_reviewed_at : option nat;
  pi_review_notes : option string
}.

(** A row of [knowledge_base] as a review writes it: [workflow_id] is
    what the item holds under that key.  A column that stores [str(v)] or
    [json.dumps(v)] is represented by [v]. *)
Record kb_entry : Type := KbEntry {
  ke_material_name : pyval;
  ke_part_number : pyval;
  ke_description : pyval;
  ke_classification_label : pyval;
  ke_confidence_level : pyval;
  ke_supplier_info : pyval;
  ke_workflow_id : pyval;
  ke_approved_by : string;
  ke_approved_at : nat;
  ke_metadata : item
}.

Record tables : Type := Tables {
  knowledge_base : list kb_entry;
  pending_approvals : list pending_item
}.

(** What a statement with more [?] than the SQLite at hand admits
    raises, when it is prepared. *)
Definition too_many_variables : exn := Exn OperationalError "too many SQL variables".

Section Reviewing.
(** The order [ORDER BY created_at DESC] gives to the selected rows. *)
Variable order : list pending_item -> list pending_item.
(** What [CURRENT_TIMESTAMP] reads during the call. *)
Variable now : nat.
(** The largest number of [?] a statement may hold in the SQLite at
    hand. *)
Variable variable_limit : nat.
(** Whether Python's cyclic collector runs between the write number
    [i - 1] of the call and the write number [i], and so closes the
    connections left open until then. *)
Variable swept : nat -> bool.

(** [PendingApprovalModel.get_pending_items()] *)
Definition get_pending_items (t : tables) : list pending_item :=
  order (List.filter (fun r => pi_status r =? "pending") (pending_approvals t)).

(** The arguments [approve_items] passes to [add_item]. *)
Definition entry_of (item_data : item) : kb_entry :=
  KbEntry (get item_data "material_name") (get item_data "part_number")
          (get item_data "reasoning") (get item_data "qa_classification_label")
          (get item_data "confidence_score") (get item_data "vendor_name")
          (get item_data "workflow_id") "system" now item_data.

(** The values [add_item] binds as they come can be bound. *)
Definition storable (e : kb_entry) : bool :=
  Models.binds (ke_material_name e) && Models.binds (ke_part_number e)
  && Models.binds (ke_description e) && Models.binds (ke_classification_label e)
  && Models.binds (ke_workflow_id e).

(** [KnowledgeBaseModel.add_item], called while [held] tells whether a
    connection left open earlier in the call still holds the write lock.
    With the outcome and the tables comes whether such a connection is
    there afterwards: the values are bound first; then the [INSERT] is
    refused if the database is locked; if it fails on [material_name],
    which is [TEXT NOT NULL], its transaction stays open, since
    [conn.close()] is not reached. *)
Definition add_item (held : bool) (e : kb_entry) (t : tables)
  : exc unit * tables * bool :=
  if negb (storable e) then (Raise Models.too_large, t, held)
  else if held then (Raise Models.locked, t, true)
  else
    match ke_material_name e with
    | VNone => (Raise Models.not_null_failed, t, true)
    | _ => (Ok tt, Tables (knowledge_base t ++ [e]) (pending_approvals t), false)
    end.

(** The loop of [approve_items], from its write number [i]: an item
    whose [INSERT] fails is printed and skipped. *)
Fixpoint approve_loop (items : list pending_item) (i approved_count : nat)
    (held : bool) (t : tables) : nat * bool * tables :=
  match items with
  | [] => (approved_count, held, t)
  | it :: items' =>
      match add_item (held && negb (swept i)) (entry_of (pi_item_data it)) t with
      | (Ok _, t', held') => approve_loop items' (S i) (S approved_count) held' t'
      | (Raise _, t', held') => approve_loop items' (S i) approved_count held' t'
      end
  end.

Definition named_in (item_ids : list Z) (r : pending_item) : bool :=
  existsb (Z.eqb (pi_id r)) item_ids.

(** The table once the [UPDATE] of [update_approval_status] is
    committed. *)
Definition reviewed (item_ids : list Z) (status : string)
    (reviewer notes : option string) (t : tables) : tables :=
  Tables (knowledge_base t)
         (map (fun r =>
                 if named_in item_ids r
                 then PendingItem (pi_id r) (pi_workflow_id r) (pi_item_data r) status
                                  reviewer (Some now) notes
                 else r)
              (pending_approvals t)).

(** [PendingApprovalModel.update_approval_status], called while [held]
    tells whether a connection left open earlier still holds the write
    lock: three [?] and one per id; the statement is prepared, the values
    are bound, then the [UPDATE] runs. *)
Definition update_approval_status (held : bool) (item_ids : list Z) (status : string)
    (reviewer notes : option string) (t : tables) : exc unit * tables :=
  if (variable_limit <? 3 + length item_ids)%nat then (Raise too_many_variables, t)
  else if negb (forallb Models.fits_integer item_ids) then (Raise Models.too_large, t)
  else if held then (Raise Models.locked, t)
  else (Ok tt, reviewed item_ids status reviewer notes t).

(** [approve_items]; no connection is open when the call begins. *)
Definition approve_items (item_ids : list Z) (t : tables) : exc nat * tables :=
  let pending_items_to_approve :=
    List.filter (named_in item_ids) (get_pending_items t) in
  let '(approved_count, held, t') :=
    approve_loop pending_items_to_approve 0 0 false t in
  match update_approval_status
          (held && negb (swept (length pending_items_to_approve)))
          item_ids "approved" (Some "system") (Some "Approved for knowledge base") t' with
  | (Ok _, t'') => (Ok approved_count, t'')
  | (Raise e, t'') => (Raise e, t'')
  end.

(** [reject_items] *)
Definition reject_items (item_ids : list Z) (t : tables) : exc nat * tables :=
  match update_approval_status false item_ids "rejected" (Some "system")
                               (Some "Rejected from knowledge base") t with
  | (Ok _, t') => (Ok (length item_ids), t')
  | (Raise e, t') => (Raise e, t')
  end.

End Reviewing.

(** The request can be written as one statement. *)
Definition admissible (variable_limit : nat) (item_ids : list Z) : bool :=
  (3 + length item_ids <=? variable_limit)%nat && forallb Models.fits_integer item_ids.

Definition has_name (r : pending_item) : bool :=
  match get (pi_item_data r) "material_name" with
  | VNone => false
  | _ => true
  end.

(** The values [add_item] would bind for the row can be bound. *)
Definition bindable (r : pending_item) : bool :=
  Models.binds (get (pi_item_data r) "material_name")
  && Models.binds (get (pi_item_data r) "part_number")
  && Models.binds (get (pi_item_data r) "reasoning")
  && Models.binds (get (pi_item_data r) "qa_classification_label")
  && Models.binds (get (pi_item_data r) "workflow_id").

(** A row whose [INSERT] goes through on an unlocked database. *)
Definition insertable (r : pending_item) : bool := bindable r && has_name r.

(** A row whose [INSERT] fails on the name and leaves the lock. *)
Definition nameless (r : pending_item) : bool := bindable r && negb (has_name r).

(** A pending row that a review of [item_ids] can register. *)
Definition registrable (item_ids : list Z) (r : pending_item) : bool :=
  (pi_status r =? "pending") && named_in item_ids r && insertable r.

(** A pending row on which a review of [item_ids] leaves the lock. *)
Definition blocking (item_ids : list Z) (r : pending_item) : bool :=
  (pi_status r =? "pending") && named_in item_ids r && nameless r.

(** The row [r] once a review has approved it at [now]. *)
Definition approved (now : nat) (r : pending_item) : pending_item :=
  PendingItem (pi_id r) (pi_workflow_id r) (pi_item_data r) "approved"
              (Some "system") (Some now) (Some "Approved for knowledge base").

(** Two rows waiting for review and one rejected before. *)
Definition waiting : tables :=
  Tables []
    [PendingItem 1 "w1" Scenario.gasket "pending" None None None;
     PendingItem 2 "w1" Outage.nameless "pending" None None None;
     PendingItem 3 "w1" Scenario.screw "rejected" (Some "system") (Some 5%nat)
                 (Some "Rejected from knowledge base")].

(** A collector that does not run during the call. *)
Definition idle : nat -> bool := fun _ => false.

End Review.

(* ===================================================================== *)
(** * The retry policy                                                      *)
(* ===================================================================== *)

Section RetryFacts.
Import Resilient.
Variable url : string.
Variable service : nat -> post_result.

Lemma posts_app t1 t2 : posts (t1 ++ t2) = (posts t1 + posts t2)%nat.
Proof. induction t1 as [|[]]; simpl; auto. Qed.

Lemma sleeps_app t1 t2 : sleeps (t1 ++ t2) = sleeps t1 ++ sleeps t2.
Proof. induction t1 as [|[]]; simpl; auto. now f_equal. Qed.

Lemma posts_schedule i k : posts (schedule i k) = S k.
Proof. revert i; induction k; intros; simpl; auto. Qed.

Lemma sleeps_schedule i k :
  sleeps (schedule i k) = map (fun j => 2 ^ Z.of_nat j)%Z (seq i k).
Proof. revert i; induction k; intros; simpl; auto. now f_equal. Qed.

Lemma rate_limited_failed p : rate_limited p = true -> failed p = true.
Proof. destruct p as [r|]; simpl; [|discriminate]. intros H. apply Z.eqb_eq in H. now rewrite H. Qed.

Lemma raise_for_status_failed r :
  raise_for_status url r = None <-> failed (Replied r) = false.
Proof.
  unfold raise_for_status; simpl.
  destruct (400 <=? status_code r)%Z eqn:A, (status_code r <? 500)%Z eqn:B,
           (500 <=? status_code r)%Z eqn:C, (status_code r <? 600)%Z eqn:D;
    simpl; split; intros; try discriminate; try reflexivity; lia.
Qed.

Lemma attempts_step max_retries n i trace :
  attempts url service max_retries (S n) i trace =
  match service i with
  | Replied r =>
      match raise_for_status url r with
      | None => (Ok (Some r), trace ++ [Posted i])
      | Some e =>
          if (status_code r =? 429)%Z && (i <? max_retries - 1)%nat then
            attempts url service max_retries n (S i)
                     ((trace ++ [Posted i]) ++ [Slept (2 ^ Z.of_nat i)])
          else
            (Raise (Exn RuntimeError
                      ("API call failed after " +:+ pretty (i + 1)%nat
                       +:+ " retries: " +:+ e)), trace ++ [Posted i])
      end
  | TransportError e =>
      (Raise (Exn RuntimeError ("API call failed: " +:+ e)), trace ++ [Posted i])
  end.
Proof. reflexivity. Qed.

(** The loop posts once, then once more after each 429 until another
    answer comes or the range is used up; the last answer decides. *)
Lemma attempts_shape (max_retries : nat) :
  forall n i trace, (i + S n = max_retries)%nat ->
  exists k, (k <= n)%nat /\
    snd (attempts url service max_retries (S n) i trace) = trace ++ schedule i k /\
    (forall j, (j < k)%nat -> rate_limited (service (i + j)) = true) /\
    (failed (service (i + k)) = false ->
       exists r, service (i + k) = Replied r /\
         fst (attempts url service max_retries (S n) i trace) = Ok (Some r)) /\
    (failed (service (i + k)) = true ->
       exists e, fst (attempts url service max_retries (S n) i trace) = Raise e /\
         exn_class e = RuntimeError) /\
    (rate_limited (service (i + k)) = true -> (i + k = max_retries - 1)%nat).
Proof.
  induction n as [|n IH]; intros i trace Hi.
  - exists 0%nat. rewrite Nat.add_0_r, attempts_step.
    destruct (service i) as [r|e] eqn:Hs.
    + destruct (raise_for_status url r) as [m|] eqn:Hr.
      * assert (Hlt : (i <? max_retries - 1)%nat = false) by (apply Nat.ltb_ge; lia).
        rewrite Hlt, andb_false_r. simpl.
        repeat split; try lia; eauto.
        intros Hf. apply raise_for_status_failed in Hf. congruence.
      * simpl. repeat split; try lia; eauto.
        -- intros Hf. apply raise_for_status_failed in Hr. simpl in Hf, Hr. congruence.
    + simpl. repeat split; try lia; eauto; discriminate.
  - rewrite attempts_step.
    destruct (service i) as [r|e] eqn:Hs.
    + destruct (raise_for_status url r) as [m|] eqn:Hr.
      * destruct (status_code r =? 429)%Z eqn:H429.
        -- assert (Hlt : (i <? max_retries - 1)%nat = true) by (apply Nat.ltb_lt; lia).
           rewrite Hlt. cbn [andb].
           destruct (IH (S i) ((trace ++ [Posted i]) ++ [Slept (2 ^ Z.of_nat i)]))
             as (k & Hk & Htr & Hrl & Hok & Hraise & Hlast); [lia|].
           exists (S k). replace (i + S k)%nat with (S i + k)%nat by lia.
           repeat split; auto; try lia.
           ++ rewrite Htr. rewrite <- !app_assoc. reflexivity.
           ++ intros [|j] Hj.
              ** rewrite Nat.add_0_r, Hs. exact H429.
              ** replace (i + S j)%nat with (S i + j)%nat by lia. apply Hrl. lia.
        -- cbn [andb]. exists 0%nat. rewrite Nat.add_0_r, Hs.
           repeat split; try lia; eauto.
           ++ intros Hf. apply raise_for_status_failed in Hf. congruence.
           ++ simpl. congruence.
      * exists 0%nat. rewrite Nat.add_0_r, Hs. simpl.
        repeat split; try lia; eauto.
        -- intros Hf. apply raise_for_status_failed in Hr. simpl in Hf, Hr. congruence.
        -- intros H429. apply (rate_limited_failed (Replied r)) in H429.
           apply raise_for_status_failed in Hr. congruence.
    + exists 0%nat. rewrite Nat.add_0_r, Hs. simpl.
      repeat split; try lia; eauto; discriminate.
Qed.

End RetryFacts.

(** C6.  With the default bound, [_call_api_with_retry] posts at most five
    times; it sleeps 1, 2, 4, ... seconds, once between two consecutive
    posts; it posts again only after a 429; a failure that is not a 429 is
    raised on the spot, after no further post; five 429 in a row end in a
    raise after the fifth post; and four 429 followed by a success return
    that success, after sleeping 1, 2, 4 and 8 seconds. *)
Theorem retry_policy (url : string) (service : nat -> Resilient.post_result) :
  let r := Resilient._call_api_with_retry url service Resilient.default_max_retries in
  (Resilient.posts (snd r) <= 5)%nat /\
  Resilient.sleeps (snd r)
    = map (fun j => 2 ^ Z.of_nat j)%Z (seq 0 (Resilient.posts (snd r) - 1)) /\
  (forall j, (j + 1 < Resilient.posts (snd r))%nat ->
     Resilient.rate_limited (service j) = true) /\
  (forall j, (j < 5)%nat ->
     (forall j', (j' < j)%nat -> Resilient.rate_limited (service j') = true) ->
     Resilient.failed (service j) = true ->
     Resilient.rate_limited (service j) = false ->
     Resilient.posts (snd r) = (j + 1)%nat /\
     exists e, fst r = Raise e /\ exn_class e = RuntimeError) /\
  ((forall j, (j < 5)%nat -> Resilient.rate_limited (service j) = true) ->
     Resilient.posts (snd r) = 5%nat /\
     exists e, fst r = Raise e /\ exn_class e = RuntimeError) /\
  (forall resp,
     (forall j, (j < 4)%nat -> Resilient.rate_limited (service j) = true) ->
     service 4%nat = Resilient.Replied resp ->
     Resilient.failed (service 4%nat) = false ->
     fst r = Ok (Some resp) /\ Resilient.sleeps (snd r) = [1; 2; 4; 8]%Z).
Proof.
  intros r.
  destruct (attempts_shape url service 5 4 0 []) as (k & Hk & Htr & Hrl & Hok & Hraise & Hlast);
    [reflexivity|].
  change (Resilient.attempts url service 5 5 0 []) with r in *.
  simpl in Htr, Hrl, Hok, Hraise, Hlast.
  assert (Hposts : Resilient.posts (snd r) = S k) by (rewrite Htr; apply posts_schedule).
  assert (Hstop : forall j, (j < 5)%nat ->
            (forall j', (j' < j)%nat -> Resilient.rate_limited (service j') = true) ->
            (Resilient.rate_limited (service j) = true -> j = 4%nat) ->
            k = j).
  { intros j Hj Hpre Hend.
    destruct (Nat.lt_trichotomy k j) as [Hlt|[Heq|Hgt]]; [|assumption|].
    - specialize (Hlast (Hpre k Hlt)). lia.
    - specialize (Hend (Hrl j Hgt)). lia. }
  repeat split.
  - rewrite Hposts. lia.
  - rewrite Hposts, Htr, sleeps_schedule. simpl. now rewrite Nat.sub_0_r.
  - intros j Hj. apply Hrl. lia.
  - assert (k = j) as -> by (apply Hstop; auto; congruence). rewrite Hposts. lia.
  - assert (k = j) as -> by (apply Hstop; auto; congruence). auto.
  - assert (k = 4%nat) as -> by (apply (Hstop 4%nat); auto; intros; apply H; lia).
    exact Hposts.
  - assert (k = 4%nat) as -> by (apply (Hstop 4%nat); auto; intros; apply H; lia).
    apply Hraise, rate_limited_failed, H. lia.
  - assert (k = 4%nat) as -> by (apply (Hstop 4%nat); auto).
    destruct (Hok H1) as (r0 & Hr0 & ->). congruence.
  - assert (k = 4%nat) as -> by (apply (Hstop 4%nat); auto).
    rewrite Htr. reflexivity.
Qed.

(** The scenario of C6 on a gateway that answers 429 four times, then 200. *)
Lemma retry_policy_witness :
  let service := fun i : nat =>
    if (i <? 4)%nat
    then Resilient.Replied (Resilient.Response 429 "Too Many Requests" "")
    else Resilient.Replied (Resilient.Response 200 "OK" "{}") in
  let r := Resilient._call_api_with_retry "https://gateway" service
             Resilient.default_max_retries in
  fst r = Ok (Some (Resilient.Response 200 "OK" "{}")) /\
  Resilient.sleeps (snd r) = [1; 2; 4; 8]%Z.
Proof.
  intros service r.
  apply (retry_policy "https://gateway" service).
  - intros j Hj. do 4 (destruct j as [|j]; [reflexivity|]). lia.
  - reflexivity.
  - reflexivity.
Defined.

(* ===================================================================== *)
(** * The rule chain                                                        *)
(* ===================================================================== *)

Section RouterFacts.
Import Dedup Router.

Lemma lookup_update kvs : forall (d : item) k,
  update kvs d !! k = match last_binding k kvs with
                      | Some v => Some v
                      | None => d !! k
                      end.
Proof.
  induction kvs as [|[k0 v0] kvs IH]; intros d k; [reflexivity|].
  change (update ((k0, v0) :: kvs) d) with (update kvs (<[k0 := v0]> d)).
  rewrite IH. simpl. destruct (last_binding k kvs); [reflexivity|].
  destruct (String.eqb_spec k0 k) as [->|Hne].
  - apply lookup_insert_eq.
  - now apply lookup_insert_ne.
Qed.

Lemma get_update kvs (d : item) k :
  get (update kvs d) k = match last_binding k kvs with
                         | Some v => v
                         | None => get d k
                         end.
Proof. unfold get. rewrite lookup_update. now destruct (last_binding k kvs). Qed.

Lemma get_or_update kvs (d : item) k dflt :
  get_or (update kvs d) k dflt = match last_binding k kvs with
                                 | Some v => v
                                 | None => get_or d k dflt
                                 end.
Proof. unfold get_or. rewrite lookup_update. now destruct (last_binding k kvs). Qed.

Lemma lookup_enrich (it : item) k :
  k <> "supplier_match" -> k <> "kb_match" -> enrich it !! k = it !! k.
Proof.
  intros H1 H2. unfold enrich.
  rewrite lookup_insert_ne by congruence. now rewrite lookup_delete_ne by congruence.
Qed.

Lemma get_enrich (it : item) k :
  k <> "supplier_match" -> k <> "kb_match" -> get (enrich it) k = get it k.
Proof. intros. unfold get. now rewrite lookup_enrich. Qed.

Lemma has_pn_enrich it : has_pn (enrich it) = has_pn it.
Proof. unfold has_pn. now rewrite get_enrich. Qed.
Lemma has_name_enrich it : has_name (enrich it) = has_name it.
Proof. unfold has_name. now rewrite get_enrich. Qed.
Lemma has_qty_enrich it : has_qty (enrich it) = has_qty it.
Proof. unfold has_qty. now rewrite get_enrich. Qed.
Lemma pn_match_in_master_enrich it master :
  pn_match_in_master (enrich it) master = pn_match_in_master it master.
Proof. unfold pn_match_in_master. now rewrite has_pn_enrich, get_enrich. Qed.

Lemma py_eq_str v s : py_eq v (VStr s) = true -> v = VStr s.
Proof.
  destruct v as [| |z|q|t]; simpl; try discriminate.
  intros H. apply String.eqb_eq in H. now subst.
Qed.

(** An obsolete part number is a part number. *)
Lemma obsolete_has_pn (it d : item) :
  (forall k, k = "part_number" -> d !! k = it !! k) ->
  _is_part_number_obsolete (get_or d "part_number" (VStr "")) = true ->
  has_pn it = true.
Proof.
  intros Hd H. apply py_eq_str in H. unfold has_pn, get, get_or in *.
  rewrite Hd in H by reflexivity.
  destruct (it !! "part_number") as [v|]; simpl in *; [|discriminate].
  subst v. reflexivity.
Qed.

End RouterFacts.

(** C4.  An item whose part number is in the item master and that has a
    quantity and a name is classified by rule 1: label 1, high,
    auto-register, 0.95; it does not get label 3. *)
Theorem rule1_wins (best_match : option item) (it : item) (master : list item) :
  Router.pn_match_in_master it master = true ->
  Router.has_qty it = true ->
  Router.has_name it = true ->
  exists c, Router._apply_classification_logic best_match it master = Ok c /\
    Router.label c = VStr "1" /\
    Router.level c = VStr "high" /\
    Router.path c = VStr Dedup.AUTO /\
    Router.score c = VFloat 0.95 /\
    Router.label c <> VStr "3".
Proof.
  intros Hpn Hqty Hname. unfold Router._apply_classification_logic.
  rewrite pn_match_in_master_enrich, has_qty_enrich, has_name_enrich, Hpn, Hqty, Hname.
  cbn [andb]. eexists. split; [reflexivity|].
  unfold Router.label, Router.level, Router.path, Router.score. cbn [Router.fields].
  rewrite !get_update. cbn. repeat split; discriminate.
Qed.

(** The scenario of C4: PN-123 / Screw M3x10 / qty 10 against a master
    that lists PN-123 / Screw M3x10. *)
Lemma rule1_wins_witness :
  let it : item :=
    <["part_number" := VStr "PN-123"]>
      (<["material_name" := VStr "Screw M3x10"]> (<["qty" := VStr "10"]> ∅)) in
  let master : list item :=
    [ <["part_number" := VStr "PN-123"]> (<["material_name" := VStr "Screw M3x10"]> ∅) ] in
  exists c, Router._apply_classification_logic None it master = Ok c /\
    Router.label c = VStr "1" /\
    Router.level c = VStr "high" /\
    Router.path c = VStr Dedup.AUTO /\
    Router.score c = VFloat 0.95 /\
    Router.label c <> VStr "3".
Proof.
  intros it master. apply (rule1_wins None it master); reflexivity.
Defined.

(** C2.  The item of [test_r004_obsolete_red], an obsolete part number
    with a name, is given label 6 by rule 6, which precedes rule 7; and
    whatever the item, the master and the match, the chain never answers
    with label 7: an obsolete part number is present, so with a name either
    rule 1, 3 or 6 fires first. *)
Theorem obsolete_rule_shadowed :
  (let it : item :=
     <["material_name" := VStr "Old Gasket"]>
       (<["part_number" := VStr "OBSOLETE-PN"]>
          (<["qty" := VStr "1"]> (<["vendor_name" := VStr "Old Parts Co."]> ∅))) in
   let master : list item :=
     [ <["part_number" := VStr "PN-123"]> (<["material_name" := VStr "Screw M3x10"]> ∅);
       <["part_number" := VStr "PN-456"]> (<["material_name" := VStr "Hex Wrench 10mm"]> ∅) ] in
   exists c, Router._apply_classification_logic None it master = Ok c /\
     Router.label c = VStr "6" /\
     Router.level c = VStr "low" /\
     Router.path c = VStr Dedup.HUMAN /\
     Router.score c = VFloat 0.30) /\
  (forall best_match it master,
     match Router._apply_classification_logic best_match it master with
     | Ok c => Router.label c <> VStr "7"
     | Raise _ => True
     end).
Proof.
  split.
  - intros it master.
    assert (H : match Router._apply_classification_logic None it master with
                | Ok c => Router.label c = VStr "6" /\
                          Router.level c = VStr "low" /\
                          Router.path c = VStr Dedup.HUMAN /\
                          Router.score c = VFloat 0.30
                | Raise _ => False
                end) by (vm_compute; repeat split).
    destruct (Router._apply_classification_logic None it master) as [c|];
      [exists c; split; [reflexivity|exact H]|contradiction].
  - intros best_match it master. unfold Router._apply_classification_logic.
    pose proof (obsolete_has_pn (Router.enrich it)
                  (update (Router.defaults (Router.enrich it)) (Router.enrich it)))
      as Hobs.
    destruct (Router._is_part_number_obsolete _) eqn:Ho.
    + assert (Hpn : Router.has_pn (Router.enrich it) = true).
      { apply Hobs; [|reflexivity]. intros k ->. now rewrite lookup_update. }
      clear Hobs. unfold Router.pn_match_in_master. rewrite Hpn. cbn [andb negb].
      destruct (Router.in_master _ _ _), (Router.has_qty _), (Router.has_name _);
        cbn [andb negb];
        repeat match goal with
          | |- context [if ?b then _ else _] => destruct b
          | |- context [mbind _ ?m] => destruct m; cbn [mbind exc_bind]
          end;
        try exact I;
        unfold Router.label; cbn [Router.fields]; rewrite get_update; cbn; discriminate.
    + clear Hobs. cbn [andb].
      repeat match goal with
        | |- context [if ?b then _ else _] => destruct b
        | |- context [mbind _ ?m] => destruct m; cbn [mbind exc_bind]
        end;
      try exact I;
      unfold Router.label; cbn [Router.fields]; rewrite get_update; cbn; discriminate.
Qed.

(* ===================================================================== *)
(** * Deduplication                                                         *)
(* ===================================================================== *)

Section DedupFacts.
Import Dedup.

Local Ltac side := first [assumption | discriminate].

(** ** Each step of the merge writes one field *)

Lemma merge_reasoning_lookup e it m k :
  k <> "reasoning" -> merge_reasoning e it = Ok m -> m !! k = e !! k.
Proof.
  intros Hk. unfold merge_reasoning. destruct (truthy _).
  - destruct (py_in _ _) as [[]|]; cbn [mbind exc_bind mret exc_ret]; try discriminate.
    + now intros [= <-].
    + destruct (get_or e "reasoning" (VStr "")), (get_or it "reasoning" (VStr ""));
        intros [= <-]; try reflexivity. apply lookup_insert_ne. congruence.
  - now intros [= <-].
Qed.

Lemma merge_confidence_lookup e it m k :
  k <> "confidence_score" -> merge_confidence e it = Ok m -> m !! k = e !! k.
Proof.
  intros Hk. unfold merge_confidence.
  destruct (py_max _ _); cbn [mbind exc_bind mret exc_ret]; [|discriminate].
  intros [= <-]. apply lookup_insert_ne. congruence.
Qed.

Lemma merge_action_path_lookup e it k :
  k <> "action_path" -> merge_action_path e it !! k = e !! k.
Proof.
  intros Hk. unfold merge_action_path.
  destruct (action_path_priority (get it _)); [|reflexivity].
  destruct (action_path_priority (get e _)); [destruct (_ <? _)%Z|];
    try reflexivity; apply lookup_insert_ne; congruence.
Qed.

Lemma merge_label_lookup e it k :
  k <> "qa_classification_label" -> merge_label e it !! k = e !! k.
Proof.
  intros Hk. unfold merge_label. destruct (_ && _); [|reflexivity].
  apply lookup_insert_ne. congruence.
Qed.

(** What [merge] returns, step by step. *)
Lemma merge_steps e it m :
  merge e it = Ok m ->
  exists e1 e2, merge_reasoning e it = Ok e1 /\ merge_confidence e1 it = Ok e2 /\
    m = merge_label (merge_action_path e2 it) it.
Proof.
  unfold merge.
  destruct (merge_reasoning e it) as [e1|]; cbn [mbind exc_bind]; [|discriminate].
  destruct (merge_confidence e1 it) as [e2|] eqn:H2; cbn [mbind exc_bind]; [|discriminate].
  intros [= <-]. exists e1, e2. auto.
Qed.

(** A field none of the steps writes is the first item's. *)
Lemma merge_lookup e it m k :
  k <> "reasoning" -> k <> "confidence_score" -> k <> "action_path" ->
  k <> "qa_classification_label" ->
  merge e it = Ok m -> m !! k = e !! k.
Proof.
  intros K1 K2 K3 K4 Hm. apply merge_steps in Hm as (e1 & e2 & H1 & H2 & ->).
  rewrite merge_label_lookup, merge_action_path_lookup by assumption.
  rewrite (merge_confidence_lookup _ _ _ _ K2 H2).
  now rewrite (merge_reasoning_lookup _ _ _ _ K1 H1).
Qed.

Lemma merge_key e it m : merge e it = Ok m -> item_key m = item_key e.
Proof.
  intros Hm. unfold item_key, get.
  rewrite (merge_lookup e it m "material_name") by side.
  now rewrite (merge_lookup e it m "part_number") by side.
Qed.

(** The label after a merge is the label before it. *)
Lemma merge_label_get e it :
  get (merge_label e it) "qa_classification_label" = get e "qa_classification_label".
Proof.
  unfold merge_label. destruct (_ && _); [|reflexivity].
  unfold get at 1. now rewrite lookup_insert_eq.
Qed.

Lemma merge_keeps_label e it m :
  merge e it = Ok m ->
  get m "qa_classification_label" = get e "qa_classification_label".
Proof.
  intros Hm. apply merge_steps in Hm as (e1 & e2 & H1 & H2 & ->).
  rewrite merge_label_get. unfold get.
  rewrite merge_action_path_lookup by discriminate.
  rewrite (merge_confidence_lookup e1 it e2 "qa_classification_label") by side.
  now rewrite (merge_reasoning_lookup e it e1 "qa_classification_label") by side.
Qed.

(** ** When the merge returns *)

Lemma merge_reasoning_total e it :
  is_text (e !! "reasoning") = true -> is_text (it !! "reasoning") = true ->
  exists e1, merge_reasoning e it = Ok e1.
Proof.
  unfold merge_reasoning, get_or, is_text.
  destruct (it !! "reasoning") as [[| | | |new]|]; try discriminate;
    destruct (e !! "reasoning") as [[| | | |old]|]; try discriminate;
    intros _ _; simpl;
    repeat match goal with
           | |- context [if ?b then _ else _] => destruct b
           end; cbn [mbind exc_bind mret exc_ret]; eauto.
Qed.

Lemma py_max_total a b :
  (exists x, as_num a = Some x) -> (exists y, as_num b = Some y) ->
  py_max a b = Ok (match as_num a, as_num b with
                   | Some x, Some y => if Qle_bool y x then a else b
                   | _, _ => a
                   end).
Proof.
  intros [x Hx] [y Hy]. unfold py_max, py_gt. rewrite Hx, Hy.
  cbn [mbind exc_bind mret exc_ret]. now destruct (Qle_bool y x).
Qed.

Lemma is_number_get (d : item) k :
  is_number (d !! k) = true -> exists x, as_num (get_or d k (VInt 0)) = Some x.
Proof.
  unfold is_number, get_or. destruct (d !! k) as [v|]; simpl; [|eauto].
  destruct (as_num v); [eauto|discriminate].
Qed.

Lemma merge_confidence_total e it :
  is_number (e !! "confidence_score") = true ->
  is_number (it !! "confidence_score") = true ->
  exists e2, merge_confidence e it = Ok e2.
Proof.
  intros He Hit. unfold merge_confidence.
  rewrite py_max_total by now apply is_number_get.
  cbn [mbind exc_bind mret exc_ret]. eauto.
Qed.

Lemma merge_total e it :
  scored e = true -> scored it = true -> exists m, merge e it = Ok m.
Proof.
  unfold scored. intros [He1 He2]%andb_prop [Hi1 Hi2]%andb_prop.
  destruct (merge_reasoning_total e it He1 Hi1) as [e1 H1].
  destruct (merge_confidence_total e1 it) as [e2 H2]; [|assumption|].
  - now rewrite (merge_reasoning_lookup e it e1 "confidence_score") by side.
  - unfold merge. rewrite H1. cbn [mbind exc_bind]. rewrite H2.
    cbn [mbind exc_bind mret exc_ret]. eauto.
Qed.

(** ** The action path of a merge *)

Lemma priority_cases v p :
  action_path_priority v = Some p ->
  (p = 3%Z /\ v = VStr HUMAN) \/ (p = 2%Z /\ v = VStr FLAG) \/ (p = 1%Z /\ v = VStr AUTO).
Proof.
  destruct v as [| | | |s]; simpl; try discriminate.
  destruct (String.eqb_spec s HUMAN) as [->|_]; [intros [= <-]; auto|].
  destruct (String.eqb_spec s FLAG) as [->|_]; [intros [= <-]; auto|].
  destruct (String.eqb_spec s AUTO) as [->|_]; [intros [= <-]; auto|discriminate].
Qed.

Lemma merge_action_path_get e it pe pi :
  action_path_priority (get e "action_path") = Some pe ->
  action_path_priority (get it "action_path") = Some pi ->
  get (merge_action_path e it) "action_path"
  = if (pe <? pi)%Z then get it "action_path" else get e "action_path".
Proof.
  intros He Hi. unfold merge_action_path. rewrite He, Hi.
  destruct (pe <? pi)%Z; [|reflexivity].
  unfold get at 1. now rewrite lookup_insert_eq.
Qed.

Lemma merge_path e it m pe pi :
  merge e it = Ok m ->
  action_path_priority (get e "action_path") = Some pe ->
  action_path_priority (get it "action_path") = Some pi ->
  get m "action_path"
  = if (pe <? pi)%Z then get it "action_path" else get e "action_path".
Proof.
  intros Hm He Hi. apply merge_steps in Hm as (e1 & e2 & H1 & H2 & ->).
  assert (Hget : get e2 "action_path" = get e "action_path").
  { unfold get. rewrite (merge_confidence_lookup e1 it e2 "action_path") by side.
    now rewrite (merge_reasoning_lookup e it e1 "action_path") by side. }
  unfold get at 1. rewrite merge_label_lookup by discriminate.
  fold (get (merge_action_path e2 it) "action_path").
  rewrite (merge_action_path_get e2 it pe pi), Hget; congruence.
Qed.

(** ** The dictionary [unique_items] *)

Lemma dict_get_None key d : dict_get key d = None <-> ~ In key (map fst d).
Proof.
  induction d as [|[k v] d IH]; simpl; [tauto|].
  destruct (String.eqb_spec k key) as [->|Hne].
  - split; [discriminate|tauto].
  - rewrite IH. tauto.
Qed.

Lemma dict_get_Some key d v : dict_get key d = Some v -> In (key, v) d.
Proof.
  induction d as [|[k v0] d IH]; simpl; [discriminate|].
  destruct (String.eqb_spec k key) as [->|Hne].
  - intros [= ->]. now left.
  - intros H. right. auto.
Qed.

Lemma dict_set_new key v d : dict_get key d = None -> dict_set key v d = d ++ [(key, v)].
Proof.
  induction d as [|[k v0] d IH]; simpl; [reflexivity|].
  destruct (k =? key); [discriminate|]. intros H. now rewrite IH.
Qed.

Lemma dict_set_keys key v v0 d :
  dict_get key d = Some v0 -> map fst (dict_set key v d) = map fst d.
Proof.
  induction d as [|[k v1] d IH]; simpl; [discriminate|].
  destruct (k =? key); [reflexivity|]. intros H. simpl. now rewrite IH.
Qed.

Lemma dict_set_In key v d k' v' :
  In (k', v') (dict_set key v d) -> (k' = key /\ v' = v) \/ In (k', v') d.
Proof.
  induction d as [|[k v1] d IH]; simpl.
  - intros [[= <- <-]|[]]. now left.
  - destruct (String.eqb_spec k key) as [->|Hne]; simpl.
    + intros [[= <- <-]|H]; [now left|right; now right].
    + intros [H|H]; [right; now left|]. destruct (IH H); [now left|right; now right].
Qed.

(** ** The invariant of the loop *)

Lemma keyed_nil : keyed [].
Proof. split; [constructor|intros ? ? []]. Qed.

Lemma dedup_loop_keyed items : forall d d',
  keyed d -> dedup_loop items d = Ok d' -> keyed d'.
Proof.
  induction items as [|it items IH]; intros d d' [Hnd Hk]; simpl.
  - intros [= <-]. now split.
  - destruct (item_key it) as [key|] eqn:Hkey; cbn [mbind exc_bind]; [|discriminate].
    destruct (dict_get key d) as [e|] eqn:Hget.
    + destruct (merge e it) as [m|] eqn:Hm; cbn [mbind exc_bind]; [|discriminate].
      apply IH. split.
      * now rewrite (dict_set_keys _ _ _ _ Hget).
      * intros k' v' Hin. apply dict_set_In in Hin as [[-> ->]|Hin]; [|auto].
        rewrite (merge_key _ _ _ Hm). apply Hk. now apply dict_get_Some.
    + apply IH. rewrite (dict_set_new _ _ _ Hget). split.
      * rewrite map_app. simpl. apply NoDup_app. repeat split.
        -- exact Hnd.
        -- intros x Hx Hx'. apply list_elem_of_In in Hx. apply list_elem_of_In in Hx'.
           destruct Hx' as [<-|[]]. now apply dict_get_None in Hget.
        -- apply NoDup_singleton.
      * intros k' v' Hin. apply in_app_or in Hin as [Hin|[[= <- <-]|[]]]; auto.
Qed.

(** Running the loop over the values of a keyed dictionary rebuilds it. *)
Lemma dedup_loop_replay d2 : forall d1,
  keyed (d1 ++ d2) -> dedup_loop (map snd d2) d1 = Ok (d1 ++ d2).
Proof.
  induction d2 as [|[k it] d2 IH]; intros d1 [Hnd Hk]; simpl.
  - now rewrite app_nil_r.
  - rewrite (Hk k it) by (apply in_or_app; right; now left). cbn [mbind exc_bind].
    assert (Hget : dict_get k d1 = None).
    { apply dict_get_None. rewrite map_app in Hnd. simpl in Hnd.
      apply NoDup_app in Hnd as (_ & Hnd & _). intros Hin.
      apply list_elem_of_In in Hin. apply (Hnd k Hin). now left. }
    rewrite Hget, (dict_set_new _ _ _ Hget).
    replace (d1 ++ (k, it) :: d2) with ((d1 ++ [(k, it)]) ++ d2)
      by now rewrite <- app_assoc.
    apply IH. rewrite <- app_assoc. now split.
Qed.

End DedupFacts.

(** C8.  Deduplicating the output of a deduplication gives that output
    again; when the first pass raises, so does the composition. *)
Theorem deduplicate_idempotent (items : list item) :
  (Dedup._deduplicate_items items ≫= Dedup._deduplicate_items)
  = Dedup._deduplicate_items items.
Proof.
  unfold Dedup._deduplicate_items at 2 3.
  destruct items as [|it items]; [reflexivity|].
  destruct (Dedup.dedup_loop (it :: items) []) as [d|e] eqn:Hloop;
    cbn [mbind exc_bind mret exc_ret]; [|reflexivity].
  unfold Dedup._deduplicate_items.
  destruct (map snd d) eqn:Hd; [reflexivity|]. rewrite <- Hd.
  pose proof (dedup_loop_keyed _ _ _ keyed_nil Hloop) as Hk.
  now rewrite (dedup_loop_replay d [] Hk).
Qed.

(** C7.  Two items with the same key whose action paths are among the
    three known ones are merged into one record.  Its action path is the
    one of higher priority (the first item's on a tie), so its priority is
    the maximum of the two, and it is human-review as soon as one of the
    two is.  The merge returns when the items carry text as [reasoning]
    and a number as [confidence_score], where they carry them. *)
Theorem merge_keeps_stricter_path (a b : item) (k : string) (pa pb : Z) :
  Dedup.item_key a = Ok k ->
  Dedup.item_key b = Ok k ->
  Dedup.action_path_priority (get a "action_path") = Some pa ->
  Dedup.action_path_priority (get b "action_path") = Some pb ->
  (forall r, Dedup._deduplicate_items [a; b] = Ok r ->
     exists m, r = [m] /\
       get m "action_path"
         = (if (pa <? pb)%Z then get b "action_path" else get a "action_path") /\
       Dedup.action_path_priority (get m "action_path") = Some (Z.max pa pb) /\
       (get a "action_path" = VStr Dedup.HUMAN \/ get b "action_path" = VStr Dedup.HUMAN ->
        get m "action_path" = VStr Dedup.HUMAN)) /\
  (Dedup.scored a = true -> Dedup.scored b = true ->
     exists m, Dedup._deduplicate_items [a; b] = Ok [m]).
Proof.
  intros Ha Hb Pa Pb.
  assert (Hpair : Dedup._deduplicate_items [a; b] = m ← Dedup.merge a b; mret [m]).
  { unfold Dedup._deduplicate_items. cbn [Dedup.dedup_loop]. rewrite Ha.
    cbn [mbind exc_bind Dedup.dict_get Dedup.dict_set]. rewrite Hb.
    cbn [mbind exc_bind]. rewrite String.eqb_refl.
    destruct (Dedup.merge a b); cbn [mbind exc_bind mret exc_ret Dedup.dedup_loop];
      reflexivity. }
  rewrite Hpair. split.
  - intros r. destruct (Dedup.merge a b) as [m|] eqn:Hm; cbn [mbind exc_bind mret exc_ret];
      [|discriminate].
    intros [= <-]. exists m. pose proof (merge_path a b m pa pb Hm Pa Pb) as Hpath.
    split; [reflexivity|]. split; [exact Hpath|]. rewrite Hpath. split.
    + destruct (Z.ltb_spec pa pb).
      * rewrite Pb. f_equal. lia.
      * rewrite Pa. f_equal. lia.
    + destruct (priority_cases _ _ Pa) as [[-> Ea]|[[-> Ea]|[-> Ea]]],
               (priority_cases _ _ Pb) as [[-> Eb]|[[-> Eb]|[-> Eb]]];
        rewrite Ea, Eb; cbn; intros [H|H]; solve [reflexivity | discriminate H].
  - intros Sa Sb. destruct (merge_total a b Sa Sb) as [m ->]. now exists m.
Qed.

(** The scenario of C7: a human-review item and an auto-register item of
    the same key, in either order. *)
Lemma merge_keeps_stricter_path_witness :
  let review : item :=
    <["material_name" := VStr "Screw"]>
      (<["part_number" := VStr "PN-1"]> (<["action_path" := VStr Dedup.HUMAN]> ∅)) in
  let auto : item :=
    <["material_name" := VStr " screw "]>
      (<["part_number" := VStr "pn-1"]> (<["action_path" := VStr Dedup.AUTO]> ∅)) in
  (exists m, Dedup._deduplicate_items [review; auto] = Ok [m] /\
     get m "action_path" = VStr Dedup.HUMAN) /\
  (exists m, Dedup._deduplicate_items [auto; review] = Ok [m] /\
     get m "action_path" = VStr Dedup.HUMAN).
Proof.
  intros review auto. split.
  - destruct (merge_keeps_stricter_path review auto "screw||pn-1" 3 1)
      as (Hpath & Hreturns); try reflexivity.
    destruct Hreturns as [m Hm]; try reflexivity.
    destruct (Hpath _ Hm) as (m' & [= <-] & _ & _ & Hh).
    exists m. split; [exact Hm|]. apply Hh. left. reflexivity.
  - destruct (merge_keeps_stricter_path auto review "screw||pn-1" 1 3)
      as (Hpath & Hreturns); try reflexivity.
    destruct Hreturns as [m Hm]; try reflexivity.
    destruct (Hpath _ Hm) as (m' & [= <-] & _ & _ & Hh).
    exists m. split; [exact Hm|]. apply Hh. right. reflexivity.
Defined.

(** C3.  A first item without a label followed by a duplicate labelled
    "1" merges into a record whose label is [None]: the assignment of
    line 181 copies the first item's own value.  Whatever the two items, a
    merge that returns leaves [get "qa_classification_label"] as it was on
    the first item, so the second item's label is never taken over. *)
Theorem label_gap_not_filled :
  (let first : item :=
     <["material_name" := VStr "Screw"]> (<["part_number" := VStr "PN-1"]> ∅) in
   let second : item :=
     <["material_name" := VStr "Screw"]>
       (<["part_number" := VStr "PN-1"]> (<["qa_classification_label" := VStr "1"]> ∅)) in
   exists m, Dedup._deduplicate_items [first; second] = Ok [m] /\
     m !! "qa_classification_label" = Some VNone /\
     get second "qa_classification_label" = VStr "1") /\
  (forall existing_item it,
     match Dedup.merge existing_item it with
     | Ok m => get m "qa_classification_label" = get existing_item "qa_classification_label"
     | Raise _ => True
     end).
Proof.
  split.
  - intros first second.
    assert (H : match Dedup._deduplicate_items [first; second] with
                | Ok [m] => m !! "qa_classification_label" = Some VNone
                | _ => False
                end) by (vm_compute; reflexivity).
    destruct (Dedup._deduplicate_items [first; second]) as [[|m [|]]|]; try contradiction.
    exists m. split; [reflexivity|]. split; [exact H|reflexivity].
  - intros e it. destruct (Dedup.merge e it) as [m|] eqn:Hm; [|exact I].
    exact (merge_keeps_label e it m Hm).
Qed.

(* ===================================================================== *)
(** * The orchestrator                                                      *)
(* ===================================================================== *)

Section WorkflowFacts.
Import Dedup Models Workflow.
Variable c : collaborators.
Variables (workflow_id wi_path : string) (item_path : option string).
Variable mode : string.

(** The [try] block, call by call. *)
Lemma try_block_unfold w :
  try_block c workflow_id wi_path item_path mode w =
  match extract_text c wi_path with
  | Raise e => (Raise e, at_extracting workflow_id w)
  | Ok wi_content =>
  match item_master_of c item_path with
  | Raise e => (Raise e, at_extracting workflow_id w)
  | Ok item_master_items =>
  match translate_to_english c wi_content with
  | Raise e => (Raise e, at_translating workflow_id w)
  | Ok translated_wi_content =>
  match extract_and_classify_items c translated_wi_content item_master_items
                                   (knowledge_base (db w)) with
  | Raise e => (Raise e, at_classifying workflow_id w)
  | Ok extracted_items =>
  match _deduplicate_items extracted_items with
  | Raise e => (Raise e, at_classifying workflow_id w)
  | Ok deduplicated_items =>
      routing workflow_id mode deduplicated_items (at_classifying workflow_id w)
  end end end end end.
Proof.
  unfold try_block, extracting, translating, classifying, item_master_of.
  unfold mbind, M_bind, mret, M_ret, lift, read_db, set_workflow_status, on_db.
  destruct (extract_text c wi_path); [|reflexivity]. cbn.
  destruct (match item_path with Some _ => _ | None => _ end); [|reflexivity]. cbn.
  destruct (translate_to_english c _); [|reflexivity]. cbn.
  destruct (extract_and_classify_items c _ _ _); [|reflexivity]. cbn.
  destruct (_deduplicate_items _); reflexivity.
Qed.

(** A [try] block that returns has routed the classified items. *)
Lemma try_block_ok w w' :
  try_block c workflow_id wi_path item_path mode w = (Ok tt, w') ->
  exists items,
    classified_items c wi_path item_path (knowledge_base (db w)) = Ok items /\
    routing workflow_id mode items (at_classifying workflow_id w) = (Ok tt, w').
Proof.
  rewrite try_block_unfold. unfold classified_items.
  destruct (extract_text c wi_path); [|discriminate]. cbn [mbind exc_bind].
  destruct (item_master_of c item_path); [|discriminate]. cbn [mbind exc_bind].
  destruct (translate_to_english c _); [|discriminate]. cbn [mbind exc_bind].
  destruct (extract_and_classify_items c _ _ _); [|discriminate]. cbn [mbind exc_bind].
  destruct (_deduplicate_items _) as [items|]; [|discriminate].
  intros H. exists items. split; [reflexivity|exact H].
Qed.

(** ** The sinks *)

Lemma add_to_knowledge_base_run ms : forall w r w',
  _add_to_knowledge_base workflow_id ms w = (r, w') ->
  exists n, (n <= length ms)%nat /\
    (r = Ok tt -> n = length ms) /\
    w' = World (Database (clock (db w)) (workflows (db w))
                  (knowledge_base (db w)
                   ++ map (kb_row_of workflow_id (clock (db w))) (firstn n ms))
                  (pending_approvals (db w)) (workflow_results (db w)))
               (results_dir w).
Proof.
  induction ms as [|m ms IH]; intros [[ck wf kb pa wr] rd] r w'.
  - intros [= <- <-]. exists 0%nat. cbn. rewrite app_nil_r. auto.
  - cbn [_add_to_knowledge_base]. unfold mbind, M_bind, add_item. cbn [db results_dir].
    destruct (negb _);
      [intros [= <- <-]; exists 0%nat; cbn; rewrite app_nil_r;
       repeat split; [lia|discriminate]|].
    destruct (get m "material_name") eqn:Hname;
      try (intros H; apply IH in H as (n & Hn & Hok & ->); exists (S n); cbn;
           rewrite <- app_assoc; cbn; unfold kb_row_of at 2; rewrite Hname;
           repeat split; [lia|intros; f_equal; auto]).
    intros [= <- <-]. exists 0%nat. cbn. rewrite app_nil_r.
    repeat split; [lia|discriminate].
Qed.

Lemma create_pending_approvals_run ms : forall w,
  _create_pending_approvals workflow_id ms w =
  (Ok tt,
   World (Database (clock (db w)) (workflows (db w)) (knowledge_base (db w))
            (pending_approvals (db w)
             ++ map (pending_row_of workflow_id (clock (db w))) ms)
            (workflow_results (db w)))
         (results_dir w)).
Proof.
  induction ms as [|m ms IH]; intros [[ck wf kb pa wr] rd].
  - cbn. now rewrite app_nil_r.
  - cbn [_create_pending_approvals]. unfold mbind, M_bind, on_db. rewrite IH. cbn.
    now rewrite <- app_assoc.
Qed.

(** The two guards [if items_to_auto_register:] and
    [if items_for_human_review:] skip loops that would not iterate. *)
Lemma routing_unfold items w :
  routing workflow_id mode items w =
  match _add_to_knowledge_base workflow_id (List.filter is_auto_register items) w with
  | (Raise e, w1) => (Raise e, w1)
  | (Ok _, w1) =>
      (Ok tt,
       World (updated_status workflow_id "completed" (Some 100%Z)
                (Some "completed") (Some "Processing completed successfully")
                (insert_workflow_result workflow_id items (_generate_summary items mode)
                   (Database (clock (db w1)) (workflows (db w1)) (knowledge_base (db w1))
                      (pending_approvals (db w1)
                       ++ map (pending_row_of workflow_id (clock (db w1)))
                              (List.filter (fun it => negb (is_auto_register it)) items))
                      (workflow_results (db w1)))))
             (<[workflow_id := (items, _generate_summary items mode)]> (results_dir w1)))
  end.
Proof.
  unfold routing.
  replace (match List.filter is_auto_register items with
           | [] => mret tt
           | _ => _add_to_knowledge_base workflow_id (List.filter is_auto_register items)
           end)
    with (_add_to_knowledge_base workflow_id (List.filter is_auto_register items))
    by (destruct (List.filter is_auto_register items); reflexivity).
  replace (match List.filter (fun it => negb (is_auto_register it)) items with
           | [] => mret tt
           | _ => _create_pending_approvals workflow_id
                    (List.filter (fun it => negb (is_auto_register it)) items)
           end)
    with (_create_pending_approvals workflow_id
            (List.filter (fun it => negb (is_auto_register it)) items))
    by (destruct (List.filter (fun it => negb (is_auto_register it)) items); reflexivity).
  unfold mbind at 1. unfold M_bind at 1.
  destruct (_add_to_knowledge_base _ _ w) as [[[]|e] w1]; [|reflexivity].
  unfold mbind at 1. unfold M_bind at 1. rewrite create_pending_approvals_run.
  reflexivity.
Qed.

(** ** Where the [try] block can raise *)

Lemma try_block_raise w e w' :
  try_block c workflow_id wi_path item_path mode w = (Raise e, w') ->
  (workflows (db w') = workflows (db (at_extracting workflow_id w)) \/
   workflows (db w') = workflows (db (at_translating workflow_id w)) \/
   workflows (db w') = workflows (db (at_classifying workflow_id w))) /\
  clock (db w') = clock (db w) /\
  results_dir w' = results_dir w /\
  workflow_results (db w') = workflow_results (db w) /\
  pending_approvals (db w') = pending_approvals (db w).
Proof.
  rewrite try_block_unfold.
  destruct (extract_text c wi_path); [|intros [= <- <-]; cbn; auto 7].
  destruct (item_master_of c item_path); [|intros [= <- <-]; cbn; auto 7].
  destruct (translate_to_english c _); [|intros [= <- <-]; cbn; auto 7].
  destruct (extract_and_classify_items c _ _ _); [|intros [= <- <-]; cbn; auto 7].
  destruct (_deduplicate_items _) as [items|]; [|intros [= <- <-]; cbn; auto 7].
  rewrite routing_unfold.
  destruct (_add_to_knowledge_base _ _ _) as [[[]|e2] w1] eqn:Hadd; [discriminate|].
  intros [= <- <-].
  apply add_to_knowledge_base_run in Hadd as (n & _ & _ & ->). cbn. auto 7.
Qed.

Lemma lookup_updated_status st p sg m dbase row :
  workflows dbase !! workflow_id = Some row ->
  workflows (updated_status workflow_id st p sg m dbase) !! workflow_id
  = Some (set_status (clock dbase) st p sg m row).
Proof. intros H. cbn. rewrite H. apply lookup_insert_eq. Qed.

(** The row a failed [try] block leaves behind is at the milestone of
    the stage that raised. *)
Lemma try_block_raise_row w e w' row :
  workflow_of workflow_id w = Some row ->
  try_block c workflow_id wi_path item_path mode w = (Raise e, w') ->
  exists reached, workflow_of workflow_id w' = Some reached /\
    status reached = "processing" /\
    ((progress reached = 10%Z /\ current_stage reached = Some "extracting") \/
     (progress reached = 30%Z /\ current_stage reached = Some "translating") \/
     (progress reached = 50%Z /\ current_stage reached = Some "classifying")).
Proof.
  unfold workflow_of. intros Hrow Hraise.
  pose proof (lookup_updated_status "processing" (Some 10%Z)
                (Some "extracting") (Some "Extracting data from documents")
                _ _ Hrow) as H1.
  pose proof (lookup_updated_status "processing" (Some 30%Z)
                (Some "translating") (Some "Translating document to English")
                _ _ H1) as H2.
  pose proof (lookup_updated_status "processing" (Some 50%Z)
                (Some "classifying") (Some "Classifying and matching items with Gemini")
                _ _ H2) as H3.
  apply try_block_raise in Hraise as ([Hw|[Hw|Hw]] & _); rewrite Hw;
    unfold at_classifying, at_translating, at_extracting, at_stage; cbn [db];
    [rewrite H1|rewrite H2|rewrite H3];
    (eexists; split; [reflexivity|]; cbn; auto 6).
Qed.

(** The handler's [UPDATE]: applied, or refused and nothing written. *)
Lemma handler_write held st sg m (w : world) :
  set_workflow_status held workflow_id st None sg m w
  = if held then (Raise locked, w)
    else (Ok tt, World (updated_status workflow_id st None sg m (db w)) (results_dir w)).
Proof. unfold set_workflow_status, update_workflow_status. cbn. now destruct held, w. Qed.

(** The run whose [try] block raises. *)
Lemma process_raise w e w' :
  try_block c workflow_id wi_path item_path mode w = (Raise e, w') ->
  _process_workflow_async c workflow_id wi_path item_path mode w
  = if holds_lock e then w'
    else World (updated_status workflow_id "error" None None
                  (Some ("Processing failed: " +:+ exn_str e)) (db w'))
               (results_dir w').
Proof.
  intros Hraise. unfold _process_workflow_async. rewrite Hraise, handler_write.
  now destruct (holds_lock e).
Qed.

(** What [_add_to_knowledge_base] can raise. *)
Lemma add_to_knowledge_base_raise ms : forall w e w',
  _add_to_knowledge_base workflow_id ms w = (Raise e, w') ->
  e = too_large \/ e = not_null_failed.
Proof.
  induction ms as [|m ms IH]; intros w e w'; [discriminate|].
  cbn [_add_to_knowledge_base]. unfold mbind, M_bind, add_item.
  destruct (negb _); [intros [= <- <-]; now left|].
  destruct (get m "material_name"); try apply IH.
  intros [= <- <-]. now right.
Qed.

(** Where the exception of a [try] block comes from: a service or the
    deduplication, or an [INSERT] into the knowledge base. *)
Lemma try_block_raise_origin w e w' :
  try_block c workflow_id wi_path item_path mode w = (Raise e, w') ->
  classified_items c wi_path item_path (knowledge_base (db w)) = Raise e \/
  (exists items,
     classified_items c wi_path item_path (knowledge_base (db w)) = Ok items /\
     (e = too_large \/ e = not_null_failed)).
Proof.
  rewrite try_block_unfold. unfold classified_items.
  destruct (extract_text c wi_path); [|intros [= <- <-]; now left].
  cbn [mbind exc_bind].
  destruct (item_master_of c item_path); [|intros [= <- <-]; now left].
  cbn [mbind exc_bind].
  destruct (translate_to_english c _); [|intros [= <- <-]; now left].
  cbn [mbind exc_bind].
  destruct (extract_and_classify_items c _ _ _); [|intros [= <- <-]; now left].
  cbn [mbind exc_bind].
  destruct (_deduplicate_items _) as [items|]; [|intros [= <- <-]; now left].
  rewrite routing_unfold.
  destruct (_add_to_knowledge_base _ _ _) as [[[]|e2] w1] eqn:Hadd; [discriminate|].
  intros [= <- <-]. right. exists items. split; [reflexivity|].
  exact (add_to_knowledge_base_raise _ _ _ _ Hadd).
Qed.

End WorkflowFacts.

(** C10.  [update_workflow_status] writes [status] and [updated_at] and,
    of [progress], [current_stage] and [message], only those it is given:
    an argument left at [None] leaves its column as it was, and so are the
    other columns, the other rows and the other tables.  It does so when
    the database is not locked and the progress given fits an [INTEGER];
    otherwise it raises and writes nothing.  The error transition of
    [_process_workflow_async] passes a status and a message only, so the
    row of a failed workflow keeps the progress and the stage of the
    milestone the run had reached, 10 / extracting, 30 / translating or
    50 / classifying, whether the handler's update is applied (status
    error) or refused because the database is locked (the row stays as the
    [try] block left it). *)
Theorem status_update_frame :
  (forall held workflow_id new_status new_progress stage new_message dbase row,
     Models.workflows dbase !! workflow_id = Some row ->
     let r := Models.update_workflow_status held workflow_id new_status new_progress
                stage new_message dbase in
     (held = false /\ Models.progress_fits new_progress = true ->
      fst r = Ok tt /\
      exists row', Models.workflows (snd r) !! workflow_id = Some row' /\
        Models.status row' = new_status /\
        Models.updated_at row' = Models.clock dbase /\
        (new_progress = None -> Models.progress row' = Models.progress row) /\
        (stage = None -> Models.current_stage row' = Models.current_stage row) /\
        (new_message = None -> Models.message row' = Models.message row) /\
        Models.comparison_mode row' = Models.comparison_mode row /\
        Models.created_at row' = Models.created_at row /\
        Models.wi_document_path row' = Models.wi_document_path row /\
        Models.item_master_path row' = Models.item_master_path row /\
        (forall other, other <> workflow_id ->
           Models.workflows (snd r) !! other = Models.workflows dbase !! other) /\
        Models.knowledge_base (snd r) = Models.knowledge_base dbase /\
        Models.pending_approvals (snd r) = Models.pending_approvals dbase /\
        Models.workflow_results (snd r) = Models.workflow_results dbase) /\
     (held = true \/ Models.progress_fits new_progress = false ->
      (exists e, fst r = Raise e) /\ snd r = dbase)) /\
  (forall c workflow_id wi_path item_path mode w row e w',
     Workflow.workflow_of workflow_id w = Some row ->
     Workflow.try_block c workflow_id wi_path item_path mode w = (Raise e, w') ->
     exists reached final,
       Workflow.workflow_of workflow_id w' = Some reached /\
       Workflow.workflow_of workflow_id
         (Workflow._process_workflow_async c workflow_id wi_path item_path mode w)
         = Some final /\
       Models.progress final = Models.progress reached /\
       Models.current_stage final = Models.current_stage reached /\
       ((Models.progress reached = 10%Z /\
         Models.current_stage reached = Some "extracting") \/
        (Models.progress reached = 30%Z /\
         Models.current_stage reached = Some "translating") \/
        (Models.progress reached = 50%Z /\
         Models.current_stage reached = Some "classifying")) /\
       (holds_lock e = false ->
          Models.status final = "error" /\
          Models.message final = Some ("Processing failed: " +:+ exn_str e)) /\
       (holds_lock e = true -> final = reached)).
Proof.
  split.
  - intros held workflow_id new_status new_progress stage new_message dbase row Hrow r.
    subst r. unfold Models.update_workflow_status. split.
    + intros [-> Hfits]. rewrite Hfits. cbn [negb fst snd]. split; [reflexivity|].
      exists (Models.set_status (Models.clock dbase) new_status new_progress stage
                                new_message row).
      split; [apply lookup_updated_status, Hrow|].
      cbn. rewrite Hrow. repeat split; try (intros ->; reflexivity).
      intros other Hne. now apply lookup_insert_ne.
    + intros [-> | Hfits].
      * destruct (negb (Models.progress_fits new_progress)); cbn [fst snd];
          (split; [eexists; reflexivity|reflexivity]).
      * rewrite Hfits. cbn [negb fst snd]. split; [eexists; reflexivity|reflexivity].
  - intros c workflow_id wi_path item_path mode w row e w' Hrow Hraise.
    destruct (try_block_raise_row _ _ _ _ _ _ _ _ _ Hrow Hraise)
      as (reached & Hreached & _ & Hstage).
    exists reached. rewrite (process_raise _ _ _ _ _ _ _ _ Hraise).
    destruct (holds_lock e).
    + exists reached. repeat split; try exact Hreached; try exact Hstage;
        discriminate.
    + exists (Models.set_status (Models.clock (Workflow.db w')) "error" None None
                (Some ("Processing failed: " +:+ exn_str e)) reached).
      split; [exact Hreached|]. split.
      { unfold Workflow.workflow_of in *. cbn [Workflow.db].
        now apply lookup_updated_status. }
      split; [reflexivity|]. split; [reflexivity|]. split; [exact Hstage|].
      split; [intros _; split; reflexivity|discriminate].
Qed.

(** The failed run of C10: a document of an unknown type stops the run at
    10 / extracting. *)
Lemma status_update_frame_witness :
  exists final,
    Workflow.workflow_of "w1"
      (Workflow._process_workflow_async Scenario.bad_document "w1" "uploads/w1/wi.png"
         None "full" Scenario.submitted) = Some final /\
    Models.status final = "error" /\
    Models.progress final = 10%Z /\
    Models.current_stage final = Some "extracting".
Proof.
  destruct (proj2 status_update_frame Scenario.bad_document "w1" "uploads/w1/wi.png"
              None "full" Scenario.submitted Scenario.pending_row_w1
              (Exn ValueError "Unsupported file type: .png")
              (Workflow.at_extracting "w1" Scenario.submitted))
    as (reached & final & Hreached & Hfinal & Hprogress & Hstage & _ & Herror & _);
    [reflexivity|reflexivity|].
  exists final. split; [exact Hfinal|]. split; [exact (proj1 (Herror eq_refl))|].
  vm_compute in Hreached. injection Hreached as <-.
  split; [exact Hprogress|exact Hstage].
Defined.

(** C5.  When a call of the [try] block raises, no result is written,
    neither to [results/] nor to [workflow_results], and no pending
    approval is created.  The exception is the one a service or the
    deduplication raised, or it comes from an [INSERT] into the knowledge
    base.  The run ends with the workflow in status error and the message
    "Processing failed: " followed by the text of the exception when the
    handler's update is applied.  It is not applied when the exception
    has left a connection holding the write lock: the update raises in
    its turn and the workflow stays in status processing.  That is what
    happens when an item to register has no name: on the run of
    [Outage.forgets_a_name] the workflow stays processing at
    50 / classifying, with the screw registered. *)
Theorem stage_failure_ends_in_error :
  (forall (c : Workflow.collaborators) (workflow_id wi_path : string)
          (item_path : option string) (mode : string) (w w' : Workflow.world)
          (row : Models.workflow_row) (e : exn),
     Workflow.workflow_of workflow_id w = Some row ->
     Workflow.try_block c workflow_id wi_path item_path mode w = (Raise e, w') ->
     let final :=
       Workflow._process_workflow_async c workflow_id wi_path item_path mode w in
     Workflow.results_dir final = Workflow.results_dir w /\
     Models.workflow_results (Workflow.db final)
     = Models.workflow_results (Workflow.db w) /\
     Models.pending_approvals (Workflow.db final)
     = Models.pending_approvals (Workflow.db w) /\
     (Workflow.classified_items c wi_path item_path
        (Models.knowledge_base (Workflow.db w)) = Raise e \/
      (exists items,
         Workflow.classified_items c wi_path item_path
           (Models.knowledge_base (Workflow.db w)) = Ok items /\
         (e = Models.too_large \/ e = Models.not_null_failed))) /\
     (holds_lock e = false ->
        (exists r, Workflow.workflow_of workflow_id final = Some r /\
           Models.status r = "error" /\
           Models.message r = Some ("Processing failed: " +:+ exn_str e)) /\
        final = Workflow.World
                  (Models.updated_status workflow_id "error" None None
                     (Some ("Processing failed: " +:+ exn_str e)) (Workflow.db w'))
                  (Workflow.results_dir w')) /\
     (holds_lock e = true ->
        final = w' /\
        exists r, Workflow.workflow_of workflow_id final = Some r /\
          Models.status r = "processing")) /\
  (let final := Workflow._process_workflow_async Outage.forgets_a_name "w1"
                  "uploads/w1/wi.txt" None "full" Scenario.submitted in
   (exists r, Workflow.workflow_of "w1" final = Some r /\
      Models.status r = "processing" /\
      Models.progress r = 50%Z /\
      Models.current_stage r = Some "classifying" /\
      Models.message r = Some "Classifying and matching items with Gemini") /\
   map Models.kb_metadata (Models.knowledge_base (Workflow.db final))
   = [Scenario.screw] /\
   Models.pending_approvals (Workflow.db final) = [] /\
   Workflow.results_dir final = ∅).
Proof.
  split.
  - intros c workflow_id wi_path item_path mode w w' row e Hrow Hraise final.
    destruct (try_block_raise_row _ _ _ _ _ _ _ _ _ Hrow Hraise)
      as (reached & Hreached & Hstatus & _).
    destruct (try_block_raise _ _ _ _ _ _ _ _ Hraise) as (_ & _ & Hdir & Hres & Hpend).
    pose proof (try_block_raise_origin _ _ _ _ _ _ _ _ Hraise) as Horigin.
    subst final. rewrite (process_raise _ _ _ _ _ _ _ _ Hraise).
    destruct (holds_lock e).
    + repeat split; try assumption; try discriminate.
      exists reached. split; [exact Hreached|exact Hstatus].
    + repeat split; try assumption; try discriminate.
      eexists. split.
      * unfold Workflow.workflow_of in *. cbn [Workflow.db].
        apply lookup_updated_status. exact Hreached.
      * split; reflexivity.
  - assert (Hc : Workflow.classified_items Outage.forgets_a_name "uploads/w1/wi.txt" None []
                 = Ok [Scenario.screw; Outage.nameless; Scenario.gasket]) by reflexivity.
    assert (Hrun : match Workflow.try_block Outage.forgets_a_name "w1" "uploads/w1/wi.txt"
                           None "full" Scenario.submitted with
                   | (Raise e, _) => e = Models.not_null_failed
                   | _ => False
                   end) by (vm_compute; reflexivity).
    destruct (Workflow.try_block Outage.forgets_a_name "w1" "uploads/w1/wi.txt" None "full"
                Scenario.submitted) as [[[]|e] w'] eqn:Hraise; [contradiction|].
    subst e. intros final. subst final.
    rewrite (process_raise _ _ _ _ _ _ _ _ Hraise).
    change (holds_lock Models.not_null_failed) with true. cbv iota.
    rewrite try_block_unfold in Hraise.
    assert (Hw' : w' = snd (Workflow.routing "w1" "full"
                              [Scenario.screw; Outage.nameless; Scenario.gasket]
                              (Workflow.at_classifying "w1" Scenario.submitted))).
    { change (Workflow.extract_text Outage.forgets_a_name "uploads/w1/wi.txt")
        with (@Ok string Scenario.document) in Hraise.
      cbv beta iota in Hraise.
      change (Workflow.item_master_of Outage.forgets_a_name None)
        with (@Ok (list item) []) in Hraise.
      cbv beta iota in Hraise.
      change (Workflow.translate_to_english Outage.forgets_a_name Scenario.document)
        with (@Ok string "Work instruction") in Hraise.
      cbv beta iota in Hraise.
      change (Workflow.extract_and_classify_items Outage.forgets_a_name "Work instruction"
                [] (Models.knowledge_base (Workflow.db Scenario.submitted)))
        with (@Ok (list item) [Scenario.screw; Outage.nameless; Scenario.gasket]) in Hraise.
      cbv beta iota in Hraise.
      assert (Hd : Dedup._deduplicate_items
                     [Scenario.screw; Outage.nameless; Scenario.gasket]
                   = Ok [Scenario.screw; Outage.nameless; Scenario.gasket]) by reflexivity.
      rewrite Hd in Hraise. cbv beta iota in Hraise. now rewrite Hraise. }
    rewrite Hw'. rewrite routing_unfold.
    assert (Hf : List.filter Workflow.is_auto_register
                   [Scenario.screw; Outage.nameless; Scenario.gasket]
                 = [Scenario.screw; Outage.nameless]) by reflexivity.
    rewrite Hf.
    assert (Hadd : Workflow._add_to_knowledge_base "w1" [Scenario.screw; Outage.nameless]
                     (Workflow.at_classifying "w1" Scenario.submitted)
                   = (Raise Models.not_null_failed,
                      Workflow.World
                        (Models.Database 7
                           (Models.workflows
                              (Workflow.db (Workflow.at_classifying "w1" Scenario.submitted)))
                           [Workflow.kb_row_of "w1" 7 Scenario.screw] [] [])
                        ∅)) by reflexivity.
    rewrite Hadd. cbn [snd Workflow.db Workflow.results_dir Models.knowledge_base
      Models.pending_approvals map Workflow.kb_row_of Models.kb_metadata].
    split; [|repeat split; reflexivity].
    eexists. split; [reflexivity|]. repeat split; reflexivity.
Qed.

(** The run of C5 on a document of an unknown type: the exception holds no
    lock and the error is recorded. *)
Lemma stage_failure_ends_in_error_witness :
  let final := Workflow._process_workflow_async Scenario.bad_document "w1"
                 "uploads/w1/wi.png" None "full" Scenario.submitted in
  (exists r, Workflow.workflow_of "w1" final = Some r /\
     Models.status r = "error" /\
     Models.message r = Some "Processing failed: Unsupported file type: .png") /\
  Workflow.results_dir final = ∅ /\
  Models.workflow_results (Workflow.db final) = [].
Proof.
  destruct (proj1 stage_failure_ends_in_error Scenario.bad_document "w1"
              "uploads/w1/wi.png" None "full" Scenario.submitted
              (Workflow.at_extracting "w1" Scenario.submitted)
              Scenario.pending_row_w1 (Exn ValueError "Unsupported file type: .png"))
    as (Hdir & Hres & _ & _ & Herror & _); [reflexivity|reflexivity|].
  intros final. split; [exact (proj1 (Herror eq_refl))|]. split; [exact Hdir|exact Hres].
Defined.

(** C9.  When the [try] block returns, the run is completed and it has
    written, for the deduplicated items, one knowledge-base row per item
    whose action path is auto-register and one pending approval per other
    item, in order, and nothing else to the two tables: each item has
    gone to exactly one of the two sinks. *)
Theorem every_item_routed_once (c : Workflow.collaborators)
    (workflow_id wi_path : string) (item_path : option string) (mode : string)
    (w w' : Workflow.world) :
  Workflow.try_block c workflow_id wi_path item_path mode w = (Ok tt, w') ->
  exists items registered pending,
    Workflow.classified_items c wi_path item_path
      (Models.knowledge_base (Workflow.db w)) = Ok items /\
    Workflow._process_workflow_async c workflow_id wi_path item_path mode w = w' /\
    registered = List.filter Workflow.is_auto_register items /\
    pending = List.filter (fun it => negb (Workflow.is_auto_register it)) items /\
    Models.knowledge_base (Workflow.db w')
      = Models.knowledge_base (Workflow.db w)
        ++ map (Workflow.kb_row_of workflow_id (Models.clock (Workflow.db w))) registered /\
    Models.pending_approvals (Workflow.db w')
      = Models.pending_approvals (Workflow.db w)
        ++ map (Workflow.pending_row_of workflow_id (Models.clock (Workflow.db w))) pending /\
    Workflow.results_dir w' !! workflow_id
      = Some (items, Workflow._generate_summary items mode) /\
    forall it, In it items ->
      (Workflow.is_auto_register it = true /\ In it registered /\ ~ In it pending) \/
      (Workflow.is_auto_register it = false /\ ~ In it registered /\ In it pending).
Proof.
  intros Hrun. pose proof Hrun as Hrun'.
  apply try_block_ok in Hrun as (items & Hitems & Hrun).
  rewrite routing_unfold in Hrun.
  destruct (Workflow._add_to_knowledge_base _ _ _) as [[[]|] w1] eqn:Hadd; [|discriminate].
  apply add_to_knowledge_base_run in Hadd as (n & _ & Hn & ->).
  specialize (Hn eq_refl). subst n. rewrite firstn_all in Hrun.
  injection Hrun as <-.
  exists items, (List.filter Workflow.is_auto_register items),
    (List.filter (fun it => negb (Workflow.is_auto_register it)) items).
  split; [exact Hitems|].
  split; [unfold Workflow._process_workflow_async; now rewrite Hrun'|].
  split; [reflexivity|]. split; [reflexivity|].
  split; [reflexivity|]. split; [reflexivity|].
  split; [cbn; apply lookup_insert_eq|].
  intros it Hin. rewrite !filter_In.
  destruct (Workflow.is_auto_register it); [left|right]; cbn; intuition discriminate.
Qed.

(** A completed run of C9: the screw is registered, the gasket waits for
    approval. *)
Lemma every_item_routed_once_witness :
  let final := Workflow._process_workflow_async Scenario.gateway_down "w1"
                 "uploads/w1/wi.txt" None "full" Scenario.submitted in
  map Models.kb_metadata (Models.knowledge_base (Workflow.db final)) = [Scenario.screw] /\
  map Models.pa_item_data (Models.pending_approvals (Workflow.db final)) = [Scenario.gasket].
Proof.
  intros final.
  destruct (every_item_routed_once Scenario.gateway_down "w1" "uploads/w1/wi.txt" None
              "full" Scenario.submitted final)
    as (items & registered & pending & Hitems & _ & -> & -> & Hkb & Hpa & _);
    [reflexivity|].
  assert (Hc : Workflow.classified_items Scenario.gateway_down "uploads/w1/wi.txt" None []
               = Ok [Scenario.screw; Scenario.gasket]) by reflexivity.
  change (Models.knowledge_base (Workflow.db Scenario.submitted))
    with (@nil Models.kb_row) in Hitems.
  rewrite Hc in Hitems. injection Hitems as <-.
  rewrite Hkb, Hpa. split; reflexivity.
Defined.

(** C1, as the code has it.  When the translation call raises, whatever
    the exception, [translate_to_english] returns its argument; with the
    translation service of [WorkflowService.__init__], the translating
    stage then returns that text, having written the 30 % milestone, so
    the run goes on to classify the untranslated document. *)
Theorem translation_failure_falls_back (c : Workflow.collaborators)
    (url : string) (gateway : string -> nat -> Resilient.post_result)
    (content_of : string -> exc string)
    (workflow_id wi_content : string) (e : exn) (w : Workflow.world) :
  Workflow.translate_to_english c = Workflow.translation_service url gateway content_of ->
  Resilient.translation_call url gateway content_of wi_content = Raise e ->
  Resilient.translate_to_english url gateway content_of wi_content = wi_content /\
  Workflow.translating c workflow_id wi_content (Workflow.at_extracting workflow_id w)
    = (Ok wi_content, Workflow.at_translating workflow_id w) /\
  (forall wi_path item_path mode item_master_items,
     Workflow.extract_text c wi_path = Ok wi_content ->
     Workflow.item_master_of c item_path = Ok item_master_items ->
     Workflow.try_block c workflow_id wi_path item_path mode w
     = match Workflow.classifying c workflow_id wi_content item_master_items
               (Models.knowledge_base (Workflow.db w))
               (Workflow.at_translating workflow_id w) with
       | (Ok deduplicated_items, w3) =>
           Workflow.routing workflow_id mode deduplicated_items w3
       | (Raise e', w3) => (Raise e', w3)
       end).
Proof.
  intros Hservice Hcall.
  assert (Hsame : Resilient.translate_to_english url gateway content_of wi_content
                  = wi_content)
    by (unfold Resilient.translate_to_english; now rewrite Hcall).
  split; [exact Hsame|]. split.
  - unfold Workflow.translating. rewrite Hservice. unfold Workflow.translation_service.
    rewrite Hsame. reflexivity.
  - intros wi_path item_path mode item_master_items Htext Hmaster.
    rewrite try_block_unfold, Htext, Hmaster, Hservice.
    unfold Workflow.translation_service. rewrite Hsame.
    unfold Workflow.classifying, mbind, Workflow.M_bind, Workflow.lift,
      Workflow.set_workflow_status, Workflow.on_db. cbn.
    destruct (Workflow.extract_and_classify_items c _ _ _); [|reflexivity].
    destruct (Dedup._deduplicate_items _); reflexivity.
Qed.

(** The translating stage of C1 on a gateway that is down. *)
Lemma translation_failure_falls_back_witness :
  Workflow.translating Scenario.gateway_down "w1" Scenario.document
    (Workflow.at_extracting "w1" Scenario.submitted)
  = (Ok Scenario.document, Workflow.at_translating "w1" Scenario.submitted).
Proof.
  apply (translation_failure_falls_back Scenario.gateway_down Scenario.url Scenario.down
           Scenario.content_of "w1" Scenario.document
           (Exn RuntimeError
              "API call failed: API call failed after 1 retries: 500 Server Error: Internal Server Error for url: https://gateway")
           Scenario.submitted); [reflexivity|vm_compute; reflexivity].
Defined.

(** C1 as stated fails: with the gateway down the translation call
    raises, yet [translate_to_english] returns the Japanese text and the
    workflow ends completed, not in error. *)
Lemma translation_failure_is_masked :
  (exists e, Resilient.translation_call Scenario.url Scenario.down Scenario.content_of
               Scenario.document = Raise e) /\
  Resilient.translate_to_english Scenario.url Scenario.down Scenario.content_of
    Scenario.document = Scenario.document /\
  Models.status <$>
    Workflow.workflow_of "w1"
      (Workflow._process_workflow_async Scenario.gateway_down "w1" "uploads/w1/wi.txt"
         None "full" Scenario.submitted) = Some "completed" /\
  ~ (forall c url gateway content_of workflow_id wi_path item_path mode w wi_content e,
       Workflow.translate_to_english c
         = Workflow.translation_service url gateway content_of ->
       Workflow.extract_text c wi_path = Ok wi_content ->
       Resilient.translation_call url gateway content_of wi_content = Raise e ->
       Models.status <$>
         Workflow.workflow_of workflow_id
           (Workflow._process_workflow_async c workflow_id wi_path item_path mode w)
       = Some "error").
Proof.
  assert (Hcall : Resilient.translation_call Scenario.url Scenario.down
            Scenario.content_of Scenario.document
          = Raise (Exn RuntimeError
              "API call failed: API call failed after 1 retries: 500 Server Error: Internal Server Error for url: https://gateway"))
    by (vm_compute; reflexivity).
  assert (Hdone : Models.status <$>
            Workflow.workflow_of "w1"
              (Workflow._process_workflow_async Scenario.gateway_down "w1"
                 "uploads/w1/wi.txt" None "full" Scenario.submitted) = Some "completed")
    by (vm_compute; reflexivity).
  split; [eauto|]. split; [vm_compute; reflexivity|]. split; [exact Hdone|].
  intros H.
  specialize (H Scenario.gateway_down Scenario.url Scenario.down Scenario.content_of
                "w1" "uploads/w1/wi.txt" None "full" Scenario.submitted
                Scenario.document _ eq_refl eq_refl Hcall).
  rewrite Hdone in H. discriminate H.
Qed.

(* ===================================================================== *)
(** * More on deduplication                                                *)
(* ===================================================================== *)

Section DedupMore.
Import Dedup DedupSpec.

Lemma seen_In key keys : seen key keys = true <-> In key keys.
Proof.
  unfold seen. rewrite existsb_exists. split.
  - intros (x & Hx & Heq). apply String.eqb_eq in Heq. now subst.
  - intros H. exists key. split; [exact H|apply String.eqb_refl].
Qed.

Lemma dict_get_seen key d :
  seen key (map fst d) = match dict_get key d with Some _ => true | None => false end.
Proof.
  destruct (dict_get key d) as [e|] eqn:Hg.
  - apply seen_In. apply dict_get_Some in Hg.
    change key with (fst (key, e)). now apply in_map.
  - apply dict_get_None in Hg. destruct (seen key (map fst d)) eqn:Hs; [|reflexivity].
    apply seen_In in Hs. contradiction.
Qed.

(** The keys of [unique_items] after the loop. *)
Lemma dedup_loop_keys items : forall d d',
  dedup_loop items d = Ok d' ->
  exists keys, keys_of items = Ok keys /\
    map fst d' = fold_left (fun acc key => if seen key acc then acc else acc ++ [key])
                           keys (map fst d).
Proof.
  induction items as [|it items IH]; intros d d'; simpl.
  - intros [= <-]. now exists [].
  - destruct (item_key it) as [key|] eqn:Hkey; cbn [mbind exc_bind]; [|discriminate].
    destruct (dict_get key d) as [e|] eqn:Hget.
    + destruct (merge e it) as [m|]; cbn [mbind exc_bind]; [|discriminate].
      intros H. apply IH in H as (keys & -> & ->). exists (key :: keys).
      split; [reflexivity|]. cbn [fold_left].
      now rewrite dict_get_seen, Hget, (dict_set_keys _ _ _ _ Hget).
    + intros H. apply IH in H as (keys & -> & ->). exists (key :: keys).
      split; [reflexivity|]. cbn [fold_left].
      rewrite dict_get_seen, Hget, (dict_set_new _ _ _ Hget), map_app. reflexivity.
Qed.

Lemma keyed_keys_of d : keyed d -> keys_of (map snd d) = Ok (map fst d).
Proof.
  intros [_ Hk]. induction d as [|[k it] d IH]; [reflexivity|].
  simpl. rewrite (Hk k it) by now left. cbn [mbind exc_bind].
  rewrite IH by (intros; apply Hk; now right). reflexivity.
Qed.

Lemma keys_of_length items keys : keys_of items = Ok keys -> length keys = length items.
Proof.
  revert keys. induction items as [|it items IH]; intros keys; simpl.
  - now intros [= <-].
  - destruct (item_key it); cbn [mbind exc_bind]; [|discriminate].
    destruct (keys_of items); cbn [mbind exc_bind mret exc_ret]; [|discriminate].
    intros [= <-]. simpl. f_equal. now apply IH.
Qed.

Lemma first_occurrences_length keys : forall acc,
  (length (fold_left (fun acc key => if seen key acc then acc else acc ++ [key]) keys acc)
   <= length acc + length keys)%nat.
Proof.
  induction keys as [|k keys IH]; intros acc; simpl; [lia|].
  destruct (seen k acc).
  - specialize (IH acc). lia.
  - specialize (IH (acc ++ [k])). rewrite length_app in IH. simpl in IH. lia.
Qed.

End DedupMore.

(** X1.  For items whose names and part numbers are ASCII text, the keys
    of the deduplicated list are the keys of the input in the order of
    their first occurrence: pairwise distinct, and no more than there are
    items. *)
Theorem deduplicated_keys (items r : list item) :
  Forall (fun it => DedupSpec.plain it = true) items ->
  Dedup._deduplicate_items items = Ok r ->
  exists keys, DedupSpec.keys_of items = Ok keys /\
    DedupSpec.keys_of r = Ok (DedupSpec.first_occurrences keys) /\
    NoDup (DedupSpec.first_occurrences keys) /\
    (length r <= length items)%nat.
Proof.
  intros _. unfold Dedup._deduplicate_items. destruct items as [|it items].
  - intros [= <-]. exists []. repeat split; [constructor|reflexivity].
  - destruct (Dedup.dedup_loop (it :: items) []) as [d|] eqn:Hloop;
      cbn [mbind exc_bind mret exc_ret]; [|discriminate].
    intros [= <-].
    pose proof (dedup_loop_keyed _ _ _ keyed_nil Hloop) as Hkeyed.
    apply dedup_loop_keys in Hloop as (keys & Hkeys & Hfst).
    exists keys. split; [exact Hkeys|].
    change (fold_left _ keys (map fst [])) with (DedupSpec.first_occurrences keys) in Hfst.
    rewrite <- Hfst. split; [now apply keyed_keys_of|]. split; [apply Hkeyed|].
    rewrite length_map. rewrite <- (length_map fst d), Hfst.
    apply keys_of_length in Hkeys. rewrite <- Hkeys.
    exact (first_occurrences_length keys []).
Qed.

(** The input of X1: the screw twice, the gasket in between. *)
Lemma deduplicated_keys_witness :
  exists keys,
    DedupSpec.keys_of [Scenario.screw; Scenario.gasket; Scenario.screw] = Ok keys /\
    DedupSpec.keys_of [<["confidence_score" := VInt 0]> Scenario.screw; Scenario.gasket]
      = Ok (DedupSpec.first_occurrences keys) /\
    NoDup (DedupSpec.first_occurrences keys) /\
    (2 <= 3)%nat.
Proof.
  apply (deduplicated_keys [Scenario.screw; Scenario.gasket; Scenario.screw]
           [<["confidence_score" := VInt 0]> Scenario.screw; Scenario.gasket]).
  - repeat constructor.
  - reflexivity.
Defined.

Section DedupDistinct.
Import Dedup DedupSpec.

Lemma keys_of_zip items : forall keys,
  keys_of items = Ok keys ->
  map snd (combine keys items) = items /\ map fst (combine keys items) = keys /\
  forall k it, In (k, it) (combine keys items) -> item_key it = Ok k.
Proof.
  induction items as [|it items IH]; intros keys; simpl.
  - intros [= <-]. repeat split. intros ? ? [].
  - destruct (item_key it) as [k|] eqn:Hk; cbn [mbind exc_bind]; [|discriminate].
    destruct (keys_of items) as [ks|]; cbn [mbind exc_bind mret exc_ret]; [|discriminate].
    intros [= <-]. destruct (IH ks eq_refl) as (H1 & H2 & H3). simpl.
    rewrite H1, H2. repeat split.
    intros k' it' [[= <- <-]|Hin]; [exact Hk|auto].
Qed.

End DedupDistinct.

(** X2.  A list of items whose names and part numbers are ASCII text and
    whose keys are pairwise distinct is returned as it is: nothing is
    merged, nothing reordered, no field is written. *)
Theorem distinct_keys_unchanged (items : list item) (keys : list string) :
  Forall (fun it => DedupSpec.plain it = true) items ->
  DedupSpec.keys_of items = Ok keys ->
  NoDup keys ->
  Dedup._deduplicate_items items = Ok items.
Proof.
  intros _ Hkeys Hnd. destruct (keys_of_zip items keys Hkeys) as (Hsnd & Hfst & Hk).
  unfold Dedup._deduplicate_items. destruct items as [|it items]; [reflexivity|].
  rewrite <- Hsnd at 1.
  rewrite (dedup_loop_replay (combine keys (it :: items)) []).
  - cbn [mbind exc_bind mret exc_ret app]. now rewrite Hsnd.
  - cbn [app]. split; [now rewrite Hfst|exact Hk].
Qed.

(** The two items of the example run have distinct keys. *)
Lemma distinct_keys_unchanged_witness :
  Dedup._deduplicate_items [Scenario.screw; Scenario.gasket]
  = Ok [Scenario.screw; Scenario.gasket].
Proof.
  apply (distinct_keys_unchanged [Scenario.screw; Scenario.gasket]
           ["screw m3x10||pn-123"; "old gasket||obsolete-pn"]).
  - repeat constructor.
  - reflexivity.
  - repeat constructor; rewrite ?list_elem_of_In; simpl; intuition discriminate.
Defined.

Section Dominance.
Import Dedup DedupSpec.

(** A relation "the record [m] covers the item [it]" that every merge
    establishes for the new item and keeps for the items merged before. *)
Variable covers : item -> item -> Prop.
Hypothesis covers_refl : forall it, covers it it.
Hypothesis covers_new : forall e it m, merge e it = Ok m -> covers it m.
Hypothesis covers_keep : forall e it m x, merge e it = Ok m -> covers x e -> covers x m.

Lemma keyed_get k e d : keyed d -> In (k, e) d -> dict_get k d = Some e.
Proof.
  intros [Hnd _]. induction d as [|[k0 v0] d IH]; simpl; [intros []|].
  apply NoDup_cons in Hnd as [Hnotin Hnd].
  destruct (String.eqb_spec k0 k) as [->|Hne].
  - intros [[= ->]|Hin]; [reflexivity|].
    exfalso. apply Hnotin. apply list_elem_of_In.
    apply (in_map fst) in Hin. exact Hin.
  - intros [[= -> _]|Hin]; [congruence|auto].
Qed.

Lemma dict_set_here k v d : In (k, v) (dict_set k v d).
Proof.
  induction d as [|[k0 v0] d IH]; simpl; [now left|].
  destruct (String.eqb_spec k0 k) as [->|Hne]; [now left|now right].
Qed.

Lemma dict_set_other k v d k' v' :
  k' <> k -> In (k', v') d -> In (k', v') (dict_set k v d).
Proof.
  intros Hne. induction d as [|[k0 v0] d IH]; simpl; [intros []|].
  destruct (String.eqb_spec k0 k) as [->|Hne0].
  - intros [[= -> ->]|Hin]; [congruence|now right].
  - intros [H|Hin]; [now left|right; auto].
Qed.

(** What the loop does to the entries it starts from and to the items it
    reads. *)
Lemma dedup_loop_covers items : forall d d',
  keyed d -> dedup_loop items d = Ok d' ->
  (forall k e, In (k, e) d -> exists m, In (k, m) d' /\ extends covers e m) /\
  (forall it, In it items -> exists k m, item_key it = Ok k /\ In (k, m) d' /\ covers it m).
Proof.
  induction items as [|it items IH]; intros d d' Hkeyed; simpl.
  - intros [= <-]. split; [|intros ? []].
    intros k e Hin. exists e. split; [exact Hin|]. now intros x.
  - destruct (item_key it) as [key|] eqn:Hkey; cbn [mbind exc_bind]; [|discriminate].
    assert (Hstep : forall d1 m0,
              dedup_loop items d1 = Ok d' -> keyed d1 ->
              In (key, m0) d1 -> covers it m0 ->
              (forall k e, In (k, e) d -> exists m, In (k, m) d1 /\ extends covers e m) ->
              (forall k e, In (k, e) d -> exists m, In (k, m) d' /\ extends covers e m) /\
              (forall it0, it = it0 \/ In it0 items ->
                 exists k m, item_key it0 = Ok k /\ In (k, m) d' /\ covers it0 m)).
    { intros d1 m0 Hloop Hk1 Hin0 Hcov Hold.
      destruct (IH d1 d' Hk1 Hloop) as [IH1 IH2]. split.
      - intros k e Hin. destruct (Hold k e Hin) as (m1 & Hin1 & Hext1).
        destruct (IH1 k m1 Hin1) as (m & Hin' & Hext). exists m. split; [exact Hin'|].
        intros x Hx. auto.
      - intros it0 [<-|Hin]; [|auto].
        destruct (IH1 key m0 Hin0) as (m & Hin' & Hext). exists key, m. auto. }
    destruct (dict_get key d) as [e|] eqn:Hget.
    + destruct (merge e it) as [m0|] eqn:Hm; cbn [mbind exc_bind]; [|discriminate].
      intros Hloop. apply (Hstep (dict_set key m0 d) m0 Hloop).
      * destruct Hkeyed as [Hnd Hk]. split.
        -- now rewrite (dict_set_keys _ _ _ _ Hget).
        -- intros k' v' Hin. apply dict_set_In in Hin as [[-> ->]|Hin]; [|auto].
           rewrite (merge_key _ _ _ Hm). apply Hk. now apply dict_get_Some.
      * apply dict_set_here.
      * eapply covers_new, Hm.
      * intros k e0 Hin. destruct (String.eqb_spec k key) as [->|Hne].
        -- rewrite (keyed_get _ _ _ Hkeyed Hin) in Hget. injection Hget as ->.
           exists m0. split; [apply dict_set_here|]. intros x Hx. eapply covers_keep; eauto.
        -- exists e0. split; [now apply dict_set_other|]. now intros x.
    + intros Hloop. apply (Hstep (dict_set key it d) it Hloop).
      * destruct Hkeyed as [Hnd Hk]. rewrite (dict_set_new _ _ _ Hget). split.
        -- rewrite map_app. simpl. apply NoDup_app. repeat split; [exact Hnd| |apply NoDup_singleton].
           intros x Hx Hx'. apply list_elem_of_In in Hx. apply list_elem_of_In in Hx'.
           destruct Hx' as [<-|[]]. now apply dict_get_None in Hget.
        -- intros k' v' Hin. apply in_app_or in Hin as [Hin|[[= <- <-]|[]]]; auto.
      * apply dict_set_here.
      * apply covers_refl.
      * intros k e0 Hin. exists e0. split; [|now intros x].
        rewrite (dict_set_new _ _ _ Hget). apply in_or_app. now left.
Qed.

(** Every item is covered by the record of its key. *)
Lemma deduplicate_covers items r :
  _deduplicate_items items = Ok r ->
  forall it, In it items ->
    exists m, In m r /\ item_key m = item_key it /\ covers it m.
Proof.
  unfold _deduplicate_items. destruct items as [|it0 items]; [intros _ ? []|].
  destruct (dedup_loop (it0 :: items) []) as [d|] eqn:Hloop;
    cbn [mbind exc_bind mret exc_ret]; [|discriminate].
  intros [= <-] it Hin.
  pose proof (dedup_loop_keyed _ _ _ keyed_nil Hloop) as [_ Hk].
  destruct (dedup_loop_covers _ _ _ keyed_nil Hloop) as [_ H].
  destruct (H it Hin) as (k & m & Hkey & Hin' & Hcov).
  exists m. split; [|split; [|exact Hcov]].
  - change m with (snd (k, m)). now apply in_map.
  - rewrite Hkey. now apply Hk.
Qed.

End Dominance.

Section Coverage.
Import Dedup DedupSpec.

Local Ltac side := first [assumption | discriminate].

(** The action path after a merge, whatever the two paths are. *)
Lemma merge_path_cases e it m :
  merge e it = Ok m ->
  get m "action_path"
  = match action_path_priority (get it "action_path") with
    | Some n =>
        match action_path_priority (get e "action_path") with
        | None => get it "action_path"
        | Some c => if (c <? n)%Z then get it "action_path" else get e "action_path"
        end
    | None => get e "action_path"
    end.
Proof.
  intros Hm. apply merge_steps in Hm as (e1 & e2 & H1 & H2 & ->).
  assert (Hget : get e2 "action_path" = get e "action_path").
  { unfold get. rewrite (merge_confidence_lookup e1 it e2 "action_path") by side.
    now rewrite (merge_reasoning_lookup e it e1 "action_path") by side. }
  unfold get at 1. rewrite merge_label_lookup by discriminate.
  fold (get (merge_action_path e2 it) "action_path").
  unfold merge_action_path. rewrite Hget.
  destruct (action_path_priority (get it "action_path")) as [n|]; [|exact Hget].
  destruct (action_path_priority (get e "action_path")) as [c|].
  - destruct (c <? n)%Z; [|exact Hget]. unfold get at 1. now rewrite lookup_insert_eq.
  - unfold get at 1. now rewrite lookup_insert_eq.
Qed.

Lemma path_covered_refl it : path_covered it it.
Proof. intros p Hp. exists p. split; [exact Hp|lia]. Qed.

Lemma path_covered_new e it m : merge e it = Ok m -> path_covered it m.
Proof.
  intros Hm p Hp. rewrite (merge_path_cases _ _ _ Hm), Hp.
  destruct (action_path_priority (get e "action_path")) as [c|] eqn:Hc.
  - destruct (Z.ltb_spec c p).
    + exists p. split; [exact Hp|lia].
    + exists c. split; [exact Hc|lia].
  - exists p. split; [exact Hp|lia].
Qed.

Lemma path_covered_keep e it m x :
  merge e it = Ok m -> path_covered x e -> path_covered x m.
Proof.
  intros Hm Hx p Hp. destruct (Hx p Hp) as (c & Hc & Hle).
  rewrite (merge_path_cases _ _ _ Hm), Hc.
  destruct (action_path_priority (get it "action_path")) as [n|] eqn:Hn.
  - destruct (Z.ltb_spec c n).
    + exists n. split; [exact Hn|lia].
    + exists c. split; [exact Hc|lia].
  - exists c. split; [exact Hc|lia].
Qed.

(** The score after a merge. *)
Lemma merge_score e it m :
  merge e it = Ok m ->
  py_max (get_or e "confidence_score" (VInt 0)) (get_or it "confidence_score" (VInt 0))
  = Ok (get_or m "confidence_score" (VInt 0)).
Proof.
  intros Hm. apply merge_steps in Hm as (e1 & e2 & H1 & H2 & ->).
  unfold get_or at 3. rewrite merge_label_lookup, merge_action_path_lookup by discriminate.
  unfold merge_confidence in H2. unfold get_or in H2 at 1.
  rewrite (merge_reasoning_lookup e it e1 "confidence_score") in H2 by side.
  fold (get_or e "confidence_score" (VInt 0)) in H2.
  destruct (py_max _ _) as [score|]; cbn [mbind exc_bind mret exc_ret] in H2; [|discriminate].
  injection H2 as <-. now rewrite lookup_insert_eq.
Qed.

Lemma py_max_num_l a b r x :
  py_max a b = Ok r -> as_num a = Some x ->
  exists z, as_num r = Some z /\ (x <= z)%Q.
Proof.
  unfold py_max, py_gt. intros H Ha. rewrite Ha in H.
  destruct (as_num b) as [y|] eqn:Hb.
  - cbn [mbind exc_bind mret exc_ret] in H. injection H as <-.
    destruct (Qle_bool y x) eqn:Hle; cbn [negb].
    + exists x. split; [exact Ha|apply Qle_refl].
    + exists y. split; [exact Hb|]. apply Qlt_le_weak, Qnot_le_lt.
      intros Hyx. apply Qle_bool_iff in Hyx. congruence.
  - destruct b, a; try discriminate.
Qed.

Lemma py_max_num_r a b r y :
  py_max a b = Ok r -> as_num b = Some y ->
  exists z, as_num r = Some z /\ (y <= z)%Q.
Proof.
  unfold py_max, py_gt. intros H Hb. rewrite Hb in H.
  destruct (as_num a) as [x|] eqn:Ha.
  - cbn [mbind exc_bind mret exc_ret] in H. injection H as <-.
    destruct (Qle_bool y x) eqn:Hle; cbn [negb].
    + exists x. split; [exact Ha|]. now apply Qle_bool_iff.
    + exists y. split; [exact Hb|apply Qle_refl].
  - destruct b, a; try discriminate.
Qed.

Lemma score_covered_refl it : score_covered it it.
Proof. intros x Hx. exists x. split; [exact Hx|apply Qle_refl]. Qed.

Lemma score_covered_new e it m : merge e it = Ok m -> score_covered it m.
Proof. intros Hm x Hx. exact (py_max_num_r _ _ _ _ (merge_score _ _ _ Hm) Hx). Qed.

Lemma score_covered_keep e it m x :
  merge e it = Ok m -> score_covered x e -> score_covered x m.
Proof.
  intros Hm Hx q Hq. destruct (Hx q Hq) as (y & Hy & Hle).
  destruct (py_max_num_l _ _ _ _ (merge_score _ _ _ Hm) Hy) as (z & Hz & Hle').
  exists z. split; [exact Hz|]. eapply Qle_trans; eauto.
Qed.

(** Substrings of a concatenation. *)
Lemma prefix_refl s : String.prefix s s = true.
Proof. induction s as [|c s IH]; simpl; [reflexivity|]. now destruct (ascii_dec c c). Qed.

Lemma prefix_app s : forall t u,
  String.prefix s t = true -> String.prefix s (t +:+ u) = true.
Proof.
  induction s as [|c s IH]; intros [|d t] u; simpl; try reflexivity; try discriminate.
  - now destruct u.
  - destruct (ascii_dec c d); [apply IH|discriminate].
Qed.

Lemma is_substring_prefix s t : String.prefix s t = true -> is_substring s t = true.
Proof. intros H. destruct t; cbn [is_substring]; rewrite H; reflexivity. Qed.

Lemma is_substring_refl s : is_substring s s = true.
Proof. apply is_substring_prefix, prefix_refl. Qed.

Lemma is_substring_app_l s t u :
  is_substring s t = true -> is_substring s (t +:+ u) = true.
Proof.
  induction t as [|d t IH]; cbn [is_substring].
  - rewrite orb_false_r. intros H. apply is_substring_prefix. exact (prefix_app s "" u H).
  - intros [H|H]%orb_prop.
    + apply is_substring_prefix. exact (prefix_app s (String d t) u H).
    + change (String d t +:+ u) with (String d (t +:+ u)). cbn [is_substring].
      rewrite (IH H). apply orb_true_r.
Qed.

Lemma is_substring_app_r s a : is_substring s (a +:+ s) = true.
Proof.
  induction a as [|d a IH].
  - apply is_substring_refl.
  - change (String d a +:+ s) with (String d (a +:+ s)). cbn [is_substring].
    rewrite IH. apply orb_true_r.
Qed.

Lemma is_substring_skip s a b :
  is_substring s b = true -> is_substring s (a +:+ b) = true.
Proof.
  intros H. induction a as [|d a IH]; [exact H|].
  change (String d a +:+ b) with (String d (a +:+ b)). cbn [is_substring].
  rewrite IH. apply orb_true_r.
Qed.

(** The reasoning after a merge: the first item's, or the two joined. *)
Lemma merge_reasoning_spec e it m :
  merge e it = Ok m ->
  if truthy (get_or it "reasoning" (VStr "")) then
    exists old new,
      get_or e "reasoning" (VStr "") = VStr old /\
      get_or it "reasoning" (VStr "") = VStr new /\
      get_or m "reasoning" (VStr "")
      = VStr (if is_substring new old then old else old +:+ " | " +:+ new)
  else get_or m "reasoning" (VStr "") = get_or e "reasoning" (VStr "").
Proof.
  intros Hm. apply merge_steps in Hm as (e1 & e2 & H1 & H2 & ->).
  assert (Hm : get_or (merge_label (merge_action_path e2 it) it) "reasoning" (VStr "")
               = get_or e1 "reasoning" (VStr "")).
  { unfold get_or. rewrite merge_label_lookup, merge_action_path_lookup by discriminate.
    now rewrite (merge_confidence_lookup e1 it e2 "reasoning") by side. }
  rewrite Hm. clear Hm H2. unfold merge_reasoning in H1.
  destruct (truthy _); [|now injection H1 as <-].
  destruct (get_or e "reasoning" (VStr "")) as [| | | |old] eqn:He; try discriminate.
  destruct (get_or it "reasoning" (VStr "")) as [| | | |new] eqn:Hi; try discriminate.
  cbn [py_in mbind exc_bind mret exc_ret] in H1.
  exists old, new. split; [reflexivity|]. split; [reflexivity|].
  destruct (is_substring new old); injection H1 as <-; [exact He|].
  unfold get_or. now rewrite lookup_insert_eq.
Qed.

Lemma truthy_text s : s <> "" -> truthy (VStr s) = true.
Proof. intros H. simpl. now destruct (String.eqb_spec s ""). Qed.

Lemma reasoning_covered_refl it : reasoning_covered it it.
Proof. intros s Hs _. exists s. split; [exact Hs|apply is_substring_refl]. Qed.

Lemma reasoning_covered_new e it m : merge e it = Ok m -> reasoning_covered it m.
Proof.
  intros Hm s Hs Hne. pose proof (merge_reasoning_spec _ _ _ Hm) as H.
  rewrite Hs, (truthy_text s Hne) in H. destruct H as (old & new & _ & [= <-] & ->).
  eexists. split; [reflexivity|].
  destruct (is_substring s old) eqn:Hsub; [exact Hsub|].
  apply is_substring_skip, is_substring_app_r.
Qed.

Lemma reasoning_covered_keep e it m x :
  merge e it = Ok m -> reasoning_covered x e -> reasoning_covered x m.
Proof.
  intros Hm Hx s Hs Hne. destruct (Hx s Hs Hne) as (t & Ht & Hsub).
  pose proof (merge_reasoning_spec _ _ _ Hm) as H.
  destruct (truthy _).
  - destruct H as (old & new & Hold & _ & ->). rewrite Ht in Hold. injection Hold as <-.
    eexists. split; [reflexivity|].
    destruct (is_substring new t); [exact Hsub|now apply is_substring_app_l].
  - exists t. split; [congruence|exact Hsub].
Qed.

End Coverage.

(** X3.  Scrutiny is never lowered, over a whole list: the record kept for
    a key is at least as strict as every item of that key whose action
    path is one of the three known ones. *)
Theorem no_item_path_downgraded (items r : list item) :
  Dedup._deduplicate_items items = Ok r ->
  forall it, In it items ->
    exists m, In m r /\ Dedup.item_key m = Dedup.item_key it /\
      DedupSpec.path_covered it m.
Proof.
  apply deduplicate_covers.
  - apply path_covered_refl.
  - apply path_covered_new.
  - apply path_covered_keep.
Qed.

(** The second mention asks for human review; so does the merged record. *)
Lemma no_item_path_downgraded_witness :
  exists m, In m [Mentions.merged_mention] /\
    Dedup.item_key m = Dedup.item_key Mentions.second_mention /\
    DedupSpec.path_covered Mentions.second_mention m.
Proof.
  apply (no_item_path_downgraded [Mentions.first_mention; Mentions.second_mention]
           [Mentions.merged_mention]).
  - reflexivity.
  - right. left. reflexivity.
Defined.

(** X4.  The record kept for a key scores at least as high as every item
    of that key that has a numeric confidence score (a missing score
    counts as 0). *)
Theorem no_item_score_lowered (items r : list item) :
  Dedup._deduplicate_items items = Ok r ->
  forall it, In it items ->
    exists m, In m r /\ Dedup.item_key m = Dedup.item_key it /\
      DedupSpec.score_covered it m.
Proof.
  apply deduplicate_covers.
  - apply score_covered_refl.
  - apply score_covered_new.
  - apply score_covered_keep.
Qed.

(** The first mention scores 0.4, the merged record 0.9. *)
Lemma no_item_score_lowered_witness :
  exists m, In m [Mentions.merged_mention] /\
    Dedup.item_key m = Dedup.item_key Mentions.first_mention /\
    DedupSpec.score_covered Mentions.first_mention m.
Proof.
  apply (no_item_score_lowered [Mentions.first_mention; Mentions.second_mention]
           [Mentions.merged_mention]).
  - reflexivity.
  - left. reflexivity.
Defined.

(** X5.  No reasoning is lost: the reasoning of the record kept for a key
    contains the reasoning of every item of that key, when that is a
    non-empty text. *)
Theorem no_item_reasoning_lost (items r : list item) :
  Dedup._deduplicate_items items = Ok r ->
  forall it, In it items ->
    exists m, In m r /\ Dedup.item_key m = Dedup.item_key it /\
      DedupSpec.reasoning_covered it m.
Proof.
  apply deduplicate_covers.
  - apply reasoning_covered_refl.
  - apply reasoning_covered_new.
  - apply reasoning_covered_keep.
Qed.

(** "in KB" is part of the merged "in BOM | in KB". *)
Lemma no_item_reasoning_lost_witness :
  exists m, In m [Mentions.merged_mention] /\
    Dedup.item_key m = Dedup.item_key Mentions.second_mention /\
    DedupSpec.reasoning_covered Mentions.second_mention m.
Proof.
  apply (no_item_reasoning_lost [Mentions.first_mention; Mentions.second_mention]
           [Mentions.merged_mention]).
  - reflexivity.
  - right. left. reflexivity.
Defined.

(* ===================================================================== *)
(** * The key of an item                                                   *)
(* ===================================================================== *)

Section KeyFacts.
Import Dedup DedupSpec Text.

Lemma lstrip_blank s : blank s = true -> lstrip s = "".
Proof.
  induction s as [|c s IH]; simpl; [reflexivity|].
  intros [Hc Hs]%andb_prop. rewrite Hc. auto.
Qed.

Lemma rstrip_blank s : blank s = true -> rstrip s = "".
Proof.
  induction s as [|c s IH]; simpl; [reflexivity|].
  intros [Hc Hs]%andb_prop. now rewrite (IH Hs), Hc.
Qed.

Lemma lstrip_pad pad s : blank pad = true -> lstrip (pad +:+ s) = lstrip s.
Proof.
  induction pad as [|c pad IH]; simpl; [reflexivity|].
  intros [Hc Hs]%andb_prop. rewrite Hc. auto.
Qed.

Lemma rstrip_pad pad s : blank pad = true -> rstrip (s +:+ pad) = rstrip s.
Proof.
  intros Hpad. induction s as [|c s IH]; simpl.
  - now apply rstrip_blank.
  - now rewrite IH.
Qed.

Lemma strip_pad_r pad s : blank pad = true -> strip (s +:+ pad) = strip s.
Proof.
  intros Hpad. unfold strip. induction s as [|c s IH].
  - change ("" +:+ pad) with pad. now rewrite (lstrip_blank pad Hpad).
  - change (String c s +:+ pad) with (String c (s +:+ pad)). cbn [lstrip].
    destruct (is_space c); [exact IH|].
    change (String c (s +:+ pad)) with (String c s +:+ pad). now apply rstrip_pad.
Qed.

Lemma strip_pad l r s :
  blank l = true -> blank r = true -> strip (l +:+ s +:+ r) = strip s.
Proof.
  intros Hl Hr. unfold strip. rewrite (lstrip_pad l _ Hl).
  exact (strip_pad_r r s Hr).
Qed.

Lemma strip_blank s : blank s = true -> strip s = "".
Proof. intros H. unfold strip. now rewrite (lstrip_blank s H). Qed.

Lemma is_space_lower c : is_space (lower_char c) = is_space c.
Proof. destruct c as [[] [] [] [] [] [] [] []]; reflexivity. Qed.

Lemma lower_empty s : (lower s =? "") = (s =? "").
Proof. now destruct s. Qed.

Lemma lstrip_lower s : lstrip (lower s) = lower (lstrip s).
Proof.
  induction s as [|c s IH]; simpl; [reflexivity|].
  rewrite is_space_lower. now destruct (is_space c).
Qed.

Lemma rstrip_lower s : rstrip (lower s) = lower (rstrip s).
Proof.
  induction s as [|c s IH]; simpl; [reflexivity|].
  rewrite IH, is_space_lower, lower_empty.
  now destruct (is_space c && (rstrip s =? "")).
Qed.

Lemma strip_lower s : strip (lower s) = lower (strip s).
Proof. unfold strip. now rewrite lstrip_lower, rstrip_lower. Qed.

Lemma get_insert_eq (it : item) k v : get (<[k := v]> it) k = v.
Proof. unfold get. now rewrite lookup_insert_eq. Qed.

Lemma get_insert_ne (it : item) k k' v : k <> k' -> get (<[k := v]> it) k' = get it k'.
Proof. intros H. unfold get. now rewrite lookup_insert_ne. Qed.

Lemma item_key_normal it :
  item_key it =
  (n ← normal (get it "material_name");
   p ← normal (get it "part_number");
   mret (n +:+ "||" +:+ p)).
Proof.
  unfold item_key, normal.
  destruct (strip_or_empty (get it "material_name")); [|reflexivity].
  cbn [mbind exc_bind mret exc_ret].
  destruct (strip_or_empty (get it "part_number")); reflexivity.
Qed.

Lemma item_key_field (it : item) k v v' :
  k = "material_name" \/ k = "part_number" ->
  normal v = normal v' ->
  item_key (<[k := v]> it) = item_key (<[k := v']> it).
Proof.
  intros [-> | ->] Hn; rewrite !item_key_normal;
    rewrite ?get_insert_eq, ?get_insert_ne by discriminate; now rewrite Hn.
Qed.

End KeyFacts.

(** X6.  In the key, a name or a part number counts the same whether it is
    [None], missing or blank, whatever white space surrounds it, and
    whatever the case of its letters. *)
Theorem key_normalisation (it : item) (k : string) :
  k = "material_name" \/ k = "part_number" ->
  Dedup.item_key (delete k it) = Dedup.item_key (<[k := VNone]> it) /\
  (forall s, Text.blank s = true ->
     Dedup.item_key (<[k := VStr s]> it) = Dedup.item_key (<[k := VNone]> it)) /\
  (forall l s r, Text.blank l = true -> Text.blank r = true ->
     Dedup.item_key (<[k := VStr (l +:+ s +:+ r)]> it)
     = Dedup.item_key (<[k := VStr s]> it)) /\
  (forall s t, lower s = lower t ->
     Dedup.item_key (<[k := VStr s]> it) = Dedup.item_key (<[k := VStr t]> it)).
Proof.
  intros Hk. split; [|split; [|split]].
  - rewrite !item_key_normal. unfold get.
    destruct Hk as [-> | ->];
      rewrite ?lookup_delete_eq, ?lookup_insert_eq;
      rewrite ?lookup_delete_ne, ?lookup_insert_ne by discriminate; reflexivity.
  - intros s Hs. apply item_key_field; [exact Hk|].
    unfold DedupSpec.normal. cbn [Dedup.strip_or_empty mbind exc_bind mret exc_ret].
    now rewrite strip_blank.
  - intros l s r Hl Hr. apply item_key_field; [exact Hk|].
    unfold DedupSpec.normal. cbn [Dedup.strip_or_empty mbind exc_bind mret exc_ret].
    now rewrite strip_pad.
  - intros s t Hst. apply item_key_field; [exact Hk|].
    unfold DedupSpec.normal. cbn [Dedup.strip_or_empty mbind exc_bind mret exc_ret].
    now rewrite <- !strip_lower, Hst.
Qed.

(** " Screw " with its spaces has the key of "Screw". *)
Lemma key_normalisation_witness :
  Dedup.item_key (<["material_name" := VStr (" " +:+ "Screw" +:+ " ")]> Scenario.screw)
  = Dedup.item_key (<["material_name" := VStr "Screw"]> Scenario.screw).
Proof.
  destruct (key_normalisation Scenario.screw "material_name") as (_ & _ & Hpad & _);
    [left; reflexivity|].
  apply Hpad; reflexivity.
Defined.

Section NameErrors.
Import Dedup DedupSpec.

Lemma item_key_strippable it k :
  item_key it = Ok k ->
  strippable (get it "material_name") = true /\ strippable (get it "part_number") = true.
Proof.
  unfold item_key.
  destruct (get it "material_name"), (get it "part_number"); try discriminate; auto.
Qed.

Lemma keys_of_In items : forall keys it,
  keys_of items = Ok keys -> In it items -> exists k, item_key it = Ok k.
Proof.
  induction items as [|it0 items IH]; intros keys it; simpl; [intros _ []|].
  destruct (item_key it0) as [k0|] eqn:Hk; cbn [mbind exc_bind]; [|discriminate].
  destruct (keys_of items) as [ks|]; cbn [mbind exc_bind]; [|discriminate].
  intros _ [<-|Hin]; eauto.
Qed.

End NameErrors.

(** X7.  One item whose name or part number is neither text nor [None]
    (a number, a boolean) makes the whole deduplication raise, wherever the
    item stands in the list. *)
Theorem unnormalisable_item_raises (items : list item) (it : item) :
  In it items ->
  DedupSpec.strippable (get it "material_name")
    && DedupSpec.strippable (get it "part_number") = false ->
  exists e, Dedup._deduplicate_items items = Raise e.
Proof.
  intros Hin Hbad. destruct (Dedup._deduplicate_items items) as [r|e] eqn:Hd; [|eauto].
  exfalso. unfold Dedup._deduplicate_items in Hd. destruct items as [|it0 items]; [easy|].
  destruct (Dedup.dedup_loop (it0 :: items) []) as [d|] eqn:Hloop; [|discriminate].
  apply dedup_loop_keys in Hloop as (keys & Hkeys & _).
  destruct (keys_of_In _ _ _ Hkeys Hin) as [k Hk].
  apply item_key_strippable in Hk as [H1 H2]. rewrite H1, H2 in Hbad. discriminate.
Qed.

(** A name that came back as the number 42, after a good item. *)
Lemma unnormalisable_item_raises_witness :
  exists e, Dedup._deduplicate_items [Scenario.screw; Mentions.numbered] = Raise e.
Proof.
  apply (unnormalisable_item_raises [Scenario.screw; Mentions.numbered] Mentions.numbered).
  - right. left. reflexivity.
  - reflexivity.
Defined.

(* ===================================================================== *)
(** * More on the rule chain                                               *)
(* ===================================================================== *)

(** Walks down the chain: one case per rule that can fire. *)
Ltac walk_chain :=
  repeat match goal with
    | |- context [if ?b then _ else _] => destruct b
    | |- context [mbind _ ?m] => destruct m; cbn [mbind exc_bind]
    end.

Section RouterMore.
Import Dedup Router RouterSpec.

Lemma last_binding_None k kvs : ~ In k (map fst kvs) -> last_binding k kvs = None.
Proof.
  induction kvs as [|[k0 v0] kvs IH]; simpl; [reflexivity|].
  intros H. rewrite IH by tauto.
  destruct (String.eqb_spec k0 k); [|reflexivity]. tauto.
Qed.

Lemma not_written_update k kvs (d : item) :
  ~ In k written ->
  forallb (fun key => existsb (String.eqb key) written) (map fst kvs) = true ->
  update kvs d !! k = d !! k.
Proof.
  intros Hk Hsub. rewrite lookup_update, last_binding_None; [reflexivity|].
  intros Hin. apply Hk. rewrite forallb_forall in Hsub.
  specialize (Hsub k Hin). apply existsb_exists in Hsub as (x & Hx & Heq).
  apply String.eqb_eq in Heq. now subst.
Qed.

Lemma not_written_enrich k (it : item) : ~ In k written -> enrich it !! k = it !! k.
Proof.
  intros Hk. apply lookup_enrich; intros ->; apply Hk; simpl; tauto.
Qed.

End RouterMore.

(** X8.  A part number found in the item master without a quantity gives
    label 3, medium, auto-with-flag, 0.70, whether or not there is a
    name. *)
Theorem rule3_without_quantity (best_match : option item) (it : item) (master : list item) :
  Router.pn_match_in_master it master = true ->
  Router.has_qty it = false ->
  exists c, Router._apply_classification_logic best_match it master = Ok c /\
    Router.label c = VStr "3" /\
    Router.level c = VStr "medium" /\
    Router.path c = VStr Dedup.FLAG /\
    Router.score c = VFloat 0.70.
Proof.
  intros Hpn Hqty. unfold Router._apply_classification_logic.
  rewrite pn_match_in_master_enrich, has_qty_enrich, Hpn, Hqty.
  cbn [andb negb]. eexists. split; [reflexivity|].
  unfold Router.label, Router.level, Router.path, Router.score. cbn [Router.fields].
  rewrite !get_update. cbn. repeat split.
Qed.

(** PN-123 / Screw M3x10 without a quantity. *)
Lemma rule3_without_quantity_witness :
  let it : item :=
    <["part_number" := VStr "PN-123"]> (<["material_name" := VStr "Screw M3x10"]> ∅) in
  let master : list item :=
    [ <["part_number" := VStr "PN-123"]> (<["material_name" := VStr "Screw M3x10"]> ∅) ] in
  exists c, Router._apply_classification_logic None it master = Ok c /\
    Router.label c = VStr "3" /\
    Router.level c = VStr "medium" /\
    Router.path c = VStr Dedup.FLAG /\
    Router.score c = VFloat 0.70.
Proof.
  intros it master. apply (rule3_without_quantity None it master); reflexivity.
Defined.

(** X9.  Whatever the chain answers, level, action path and score agree:
    high goes with auto-register and a score from 0.90 to 0.95, medium with
    auto-with-flag and 0.55 to 0.70, low with human intervention and at
    most 0.40. *)
Theorem verdict_coherent (best_match : option item) (it : item) (master : list item) :
  match Router._apply_classification_logic best_match it master with
  | Ok c => RouterSpec.coherent c
  | Raise _ => True
  end.
Proof.
  unfold Router._apply_classification_logic.
  walk_chain; try exact I;
  unfold RouterSpec.coherent, Router.level, Router.path, Router.score; cbn [Router.fields];
  rewrite !get_update; cbn; eexists; (split; [reflexivity|]);
  first [ left; repeat split; unfold Qle; simpl; lia
        | right; left; repeat split; unfold Qle; simpl; lia
        | right; right; repeat split; unfold Qle; simpl; lia ].
Qed.

(** X10.  The chain leaves alone every field it does not write itself:
    part number, name, quantity, unit, vendor and the like come out as
    they went in, and [qa_material_name] is a copy of the name. *)
Theorem classification_keeps_fields (best_match : option item) (it : item)
    (master : list item) :
  match Router._apply_classification_logic best_match it master with
  | Ok c =>
      (forall k, ~ In k RouterSpec.written -> Router.fields c !! k = it !! k) /\
      get (Router.fields c) "qa_material_name" = get it "material_name" /\
      Router.kb_match c = best_match
  | Raise _ => True
  end.
Proof.
  unfold Router._apply_classification_logic.
  walk_chain; try exact I; cbn [Router.fields Router.kb_match];
    (split;
     [ intros k Hk; rewrite !not_written_update by (assumption || reflexivity);
       now apply not_written_enrich
     | split; [rewrite !get_update; cbn; now apply get_enrich | reflexivity] ]).
Qed.

(** X11.  The flag [kit_available] of the answer does not report what the
    extraction found: it is [True] when rule 11 fired (label 11) and
    [False] in every other case, whatever the item carried. *)
Theorem kit_flag_only_with_label_11 (best_match : option item) (it : item)
    (master : list item) :
  match Router._apply_classification_logic best_match it master with
  | Ok c =>
      (Router.label c = VStr "11" /\ get (Router.fields c) "kit_available" = VBool true) \/
      (Router.label c <> VStr "11" /\ get (Router.fields c) "kit_available" = VBool false)
  | Raise _ => True
  end.
Proof.
  unfold Router._apply_classification_logic.
  walk_chain; try exact I; unfold Router.label; cbn [Router.fields];
  rewrite !get_update; cbn;
  first [ left; split; reflexivity | right; split; [discriminate|reflexivity] ].
Qed.

Section RouterEdges.
Import Dedup Router.

Lemma has_vendor_enrich it : has_vendor (enrich it) = has_vendor it.
Proof. unfold has_vendor. now rewrite get_enrich. Qed.

Lemma get_or_enrich (it : item) k dflt :
  k <> "supplier_match" -> k <> "kb_match" -> get_or (enrich it) k dflt = get_or it k dflt.
Proof. intros. unfold get_or. now rewrite lookup_enrich. Qed.

Lemma no_name_text (it : item) :
  get_or it "material_name" (VStr "") = VStr "" -> has_name it = false.
Proof.
  unfold get_or, has_name, get.
  destruct (it !! "material_name") as [v|]; simpl; [intros ->|]; reflexivity.
Qed.

Lemma defaults_name x : last_binding "material_name" (defaults x) = None.
Proof. reflexivity. Qed.

Lemma defaults_multiple x : last_binding "multiple_references" (defaults x) = None.
Proof. reflexivity. Qed.

End RouterEdges.

(** X12.  A name that is [null] in the extraction output crashes the chain
    when no earlier rule takes the item: with no part number and no vendor,
    the ambiguity test of rule 8 searches in [None] and raises a
    [TypeError]. *)
Theorem null_name_raises (best_match : option item) (it : item) (master : list item) :
  it !! "material_name" = Some VNone ->
  Router.has_pn it = false ->
  Router.has_vendor it = false ->
  Router._apply_classification_logic best_match it master
  = Raise (Exn TypeError "argument of type 'NoneType' is not iterable").
Proof.
  intros Hname Hpn Hvendor.
  assert (Hn : Router.has_name it = false) by (unfold Router.has_name, get; now rewrite Hname).
  unfold Router._apply_classification_logic, Router.pn_match_in_master,
    Router.name_match_in_master.
  rewrite has_pn_enrich, has_name_enrich, has_vendor_enrich, Hpn, Hn, Hvendor.
  rewrite ?andb_false_r. cbn [andb negb].
  rewrite !get_or_update, defaults_name, !get_or_enrich by discriminate.
  assert (Hg : get_or it "material_name" (VStr "") = VNone)
    by (unfold get_or; now rewrite Hname).
  rewrite Hg. reflexivity.
Qed.

(** An item with a vendor-less, number-less null name. *)
Lemma null_name_raises_witness :
  Router._apply_classification_logic None
    (<["material_name" := VNone]> (<["qty" := VStr "2"]> ∅)) []
  = Raise (Exn TypeError "argument of type 'NoneType' is not iterable").
Proof.
  apply (null_name_raises None (<["material_name" := VNone]> (<["qty" := VStr "2"]> ∅)) []);
    reflexivity.
Defined.

(** X13.  An item with no part number, no name (missing or empty), no
    vendor and no multiple references falls through to the default: label
    5, low, human intervention, 0.0, "No match found". *)
Theorem default_verdict (best_match : option item) (it : item) (master : list item) :
  Router.has_pn it = false ->
  get_or it "material_name" (VStr "") = VStr "" ->
  Router.has_vendor it = false ->
  truthy (get_or it "multiple_references" (VBool false)) = false ->
  exists c, Router._apply_classification_logic best_match it master = Ok c /\
    Router.label c = VStr "5" /\
    Router.level c = VStr "low" /\
    Router.path c = VStr Dedup.HUMAN /\
    Router.score c = VFloat 0.0 /\
    get (Router.fields c) "reasoning" = VStr "No match found".
Proof.
  intros Hpn Hname Hvendor Hmulti. pose proof (no_name_text it Hname) as Hn.
  unfold Router._apply_classification_logic, Router.pn_match_in_master,
    Router.name_match_in_master.
  rewrite has_pn_enrich, has_name_enrich, has_vendor_enrich, Hpn, Hn, Hvendor.
  rewrite ?andb_false_r. cbn [andb negb].
  rewrite !get_or_update, defaults_name, defaults_multiple,
    !get_or_enrich by discriminate.
  rewrite Hname, Hmulti.
  cbn [Router._is_name_ambiguous py_in mbind exc_bind mret exc_ret is_substring
       String.prefix orb].
  eexists. split; [reflexivity|].
  unfold Router.label, Router.level, Router.path, Router.score. cbn [Router.fields].
  rewrite !get_update. cbn. repeat split.
Qed.

(** The item of [test_r005_extraction_failed_red]: every field empty. *)
Lemma default_verdict_witness :
  let it : item :=
    <["material_name" := VStr ""]>
      (<["part_number" := VStr ""]> (<["qty" := VStr ""]> (<["vendor_name" := VStr ""]> ∅))) in
  exists c, Router._apply_classification_logic None it [] = Ok c /\
    Router.label c = VStr "5" /\
    Router.level c = VStr "low" /\
    Router.path c = VStr Dedup.HUMAN /\
    Router.score c = VFloat 0.0 /\
    get (Router.fields c) "reasoning" = VStr "No match found".
Proof.
  intros it. apply (default_verdict None it []); reflexivity.
Defined.

(** X14.  Label 2 is only ever given to an item without a name: with a
    name, a part number of the master and a quantity, rule 1 has already
    answered. *)
Theorem label_2_only_without_name (best_match : option item) (it : item)
    (master : list item) :
  match Router._apply_classification_logic best_match it master with
  | Ok c => Router.label c = VStr "2" -> Router.has_name it = false
  | Raise _ => True
  end.
Proof.
  unfold Router._apply_classification_logic.
  rewrite has_name_enrich.
  destruct (Router.has_name it); [|walk_chain; auto].
  destruct (Router.pn_match_in_master _ _), (Router.has_qty _); cbn [andb negb];
    walk_chain; try exact I;
    unfold Router.label; cbn [Router.fields]; rewrite get_update; cbn; discriminate.
Qed.

(* ===================================================================== *)
(** * More on the retry loop                                               *)
(* ===================================================================== *)

Section RetryMore.
Import Resilient RetrySpec.

Lemma sum_powers k : forall i,
  fold_right Z.add 0%Z (map (fun j => 2 ^ Z.of_nat j)%Z (seq i k))
  = (2 ^ Z.of_nat (i + k) - 2 ^ Z.of_nat i)%Z.
Proof.
  induction k as [|k IH]; intros i; simpl.
  - rewrite Nat.add_0_r. lia.
  - rewrite IH. replace (i + S k)%nat with (S i + k)%nat by lia.
    replace (Z.of_nat (S i)) with (Z.of_nat i + 1)%Z by lia.
    rewrite Z.pow_add_r by lia. lia.
Qed.

End RetryMore.

(** X15.  For any bound, [_call_api_with_retry] posts at most that many
    times and has slept 2^(posts-1) - 1 seconds in all when it comes back.
    With bound 0 it posts nothing and returns [None]; with a positive bound
    it posts at least once and never returns [None]: it returns a response
    or raises. *)
Theorem retry_bounds (url : string) (service : nat -> Resilient.post_result)
    (max_retries : nat) :
  let r := Resilient._call_api_with_retry url service max_retries in
  (Resilient.posts (snd r) <= max_retries)%nat /\
  RetrySpec.total_wait (snd r) = (2 ^ Z.of_nat (Resilient.posts (snd r) - 1) - 1)%Z /\
  (max_retries = 0%nat -> r = (Ok None, [])) /\
  ((0 < max_retries)%nat ->
     (1 <= Resilient.posts (snd r))%nat /\ fst r <> Ok None).
Proof.
  intros r. destruct max_retries as [|n].
  - repeat split; try reflexivity; lia.
  - destruct (attempts_shape url service (S n) n 0 [])
      as (k & Hk & Htr & _ & Hok & Hraise & _); [reflexivity|].
    change (Resilient.attempts url service (S n) (S n) 0 []) with r in *.
    simpl in Htr, Hok, Hraise.
    assert (Hposts : Resilient.posts (snd r) = S k) by (rewrite Htr; apply posts_schedule).
    split; [lia|]. split; [|split; [discriminate|]].
    + unfold RetrySpec.total_wait. rewrite Hposts, Htr, sleeps_schedule, sum_powers.
      simpl. rewrite Nat.sub_0_r. reflexivity.
    + intros _. split; [lia|].
      destruct (Resilient.failed (service k)) eqn:Hf.
      * destruct (Hraise eq_refl) as (e & -> & _). discriminate.
      * destruct (Hok eq_refl) as (resp & _ & ->). discriminate.
Qed.

(** The longest wait of X15 under the default bound: four 429, then a
    fifth that ends the call, after 1 + 2 + 4 + 8 seconds. *)
Lemma retry_bounds_witness :
  let service := fun _ : nat =>
    Resilient.Replied (Resilient.Response 429 "Too Many Requests" "") in
  let r := Resilient._call_api_with_retry "https://gateway" service 5 in
  (1 <= Resilient.posts (snd r))%nat /\ fst r <> Ok None.
Proof.
  intros service r. apply (retry_bounds "https://gateway" service 5). lia.
Defined.

(** X16.  A translation that is rate-limited fewer than five times and
    then answered comes through: [translate_to_english] returns the text
    extracted from the answer. *)
Theorem translation_survives_rate_limits (url : string)
    (gateway : string -> nat -> Resilient.post_result)
    (content_of : string -> exc string) (text translated : string)
    (k : nat) (answer : Resilient.response) :
  (k < 5)%nat ->
  (forall j, (j < k)%nat ->
     Resilient.rate_limited (gateway (Resilient.translation_prompt text) j) = true) ->
  gateway (Resilient.translation_prompt text) k = Resilient.Replied answer ->
  Resilient.failed (Resilient.Replied answer) = false ->
  content_of (Resilient.text answer) = Ok translated ->
  Resilient.translate_to_english url gateway content_of text = translated.
Proof.
  intros Hk Hlimited Hanswer Hgood Hcontent.
  set (service := gateway (Resilient.translation_prompt text)) in *.
  destruct (attempts_shape url service 5 4 0 [])
    as (k' & Hk' & _ & Hrl & Hok & _ & Hlast); [reflexivity|].
  set (r := Resilient.attempts url service 5 5 0 []) in *.
  simpl in Hrl, Hok, Hlast.
  assert (k' = k) as ->.
  { destruct (Nat.lt_trichotomy k' k) as [Hlt|[Heq|Hgt]]; [|assumption|].
    - specialize (Hlast (Hlimited k' Hlt)). lia.
    - specialize (Hrl k Hgt). rewrite Hanswer in Hrl.
      apply (rate_limited_failed (Resilient.Replied answer)) in Hrl. congruence. }
  rewrite Hanswer in Hok. destruct (Hok Hgood) as (resp & [= <-] & Hfst).
  unfold Resilient.translate_to_english, Resilient.translation_call, Resilient._call_api,
    Resilient._call_api_with_retry, Resilient.default_max_retries.
  fold service. fold r. rewrite Hfst. cbn [mbind exc_bind]. now rewrite Hcontent.
Qed.

(** Two 429, then the translation. *)
Lemma translation_survives_rate_limits_witness :
  Resilient.translate_to_english "https://gateway"
    (fun _ i => if (i <? 2)%nat
                then Resilient.Replied (Resilient.Response 429 "Too Many Requests" "")
                else Resilient.Replied (Resilient.Response 200 "OK" "Work instruction"))
    (fun body => Ok body) "作業手順書"
  = "Work instruction".
Proof.
  apply (translation_survives_rate_limits _ _ _ _ _ 2
           (Resilient.Response 200 "OK" "Work instruction")).
  - lia.
  - intros j Hj. do 2 (destruct j as [|j]; [reflexivity|]). lia.
  - reflexivity.
  - reflexivity.
  - reflexivity.
Defined.

(* ===================================================================== *)
(** * The Gemini agent                                                     *)
(* ===================================================================== *)

Section GeminiFacts.
Import Gemini Text.

Lemma split_at_None needle s :
  split_at needle s = None <-> is_substring needle s = false.
Proof.
  induction s as [|c s IH]; cbn [split_at is_substring].
  - destruct (String.prefix needle ""); simpl; split; congruence.
  - destruct (String.prefix needle (String c s)); cbn [orb]; [split; discriminate|].
    rewrite <- IH. destruct (split_at needle s) as [[b a]|]; split; congruence.
Qed.

Lemma skip_app s t : skip (String.length s) (s +:+ t) = t.
Proof. induction s as [|c s IH]; simpl; [now destruct t|exact IH]. Qed.

Lemma prefix_fence c n a X :
  no_backtick (String c a) = true -> String.prefix (String "`" n) (String c a +:+ X) = false.
Proof.
  cbn [no_backtick]. intros [Hc _]%andb_prop.
  change (String c a +:+ X) with (String c (a +:+ X)). cbn [String.prefix].
  destruct (ascii_dec "`" c) as [<-|]; [discriminate|reflexivity].
Qed.

(** A fence after a text without backticks is the first one. *)
Lemma split_at_fence n a X :
  no_backtick a = true ->
  split_at (String "`" n) (a +:+ String "`" n +:+ X) = Some (a, X).
Proof.
  intros Ha. induction a as [|c a IH].
  - change ("" +:+ String "`" n +:+ X) with (String "`" n +:+ X).
    destruct (String "`" n +:+ X) eqn:E; [discriminate|].
    cbn [split_at]. rewrite <- E.
    rewrite (prefix_app (String "`" n) (String "`" n) X (prefix_refl _)).
    now rewrite skip_app.
  - change (String c a +:+ String "`" n +:+ X) with (String c (a +:+ String "`" n +:+ X)).
    cbn [split_at].
    change (String c (a +:+ String "`" n +:+ X)) with (String c a +:+ (String "`" n +:+ X)).
    rewrite (prefix_fence c n a _ Ha).
    change (String c a +:+ (String "`" n +:+ X)) with (String c (a +:+ String "`" n +:+ X)).
    simpl in Ha. apply andb_prop in Ha as [_ Ha]. now rewrite (IH Ha).
Qed.

Lemma no_backtick_app a b :
  no_backtick a = true -> no_backtick b = true -> no_backtick (a +:+ b) = true.
Proof. intros Ha Hb. induction a as [|c a IH]; simpl in *; [exact Hb|].
  apply andb_prop in Ha as [Hc Ha]. now rewrite Hc, IH. Qed.

Lemma blank_no_backtick s : blank s = true -> no_backtick s = true.
Proof.
  induction s as [|c s IH]; simpl; [reflexivity|].
  intros [Hc Hs]%andb_prop. rewrite (IH Hs), andb_true_r.
  destruct (Ascii.eqb_spec c "`") as [->|]; [discriminate|reflexivity].
Qed.

Lemma append_empty s : s +:+ "" = s.
Proof.
  induction s as [|c s IH]; [reflexivity|].
  change (String c (s +:+ "") = String c s). now rewrite IH.
Qed.

Lemma split_at_no_fence n s :
  no_backtick s = true -> split_at (String "`" n) s = None.
Proof.
  induction s as [|c s IH]; [reflexivity|]. intros Hs. cbn [split_at].
  pose proof (prefix_fence c n s "" Hs) as Hp.
  rewrite append_empty in Hp.
  rewrite Hp. simpl in Hs. apply andb_prop in Hs as [_ Hs]. now rewrite IH.
Qed.

End GeminiFacts.

Section GeminiStrip.
Import Gemini Text.

Lemma no_backtick_lstrip s : no_backtick s = true -> no_backtick (lstrip s) = true.
Proof.
  induction s as [|c s IH]; [reflexivity|]. intros Hs. cbn [lstrip].
  destruct (is_space c); [|exact Hs].
  cbn [no_backtick] in Hs. apply andb_prop in Hs as [_ Hs]. now apply IH.
Qed.

Lemma lstrip_fence n X : lstrip (String "`" n +:+ X) = String "`" n +:+ X.
Proof. reflexivity. Qed.

Lemma lstrip_own s X :
  lstrip s = s -> s <> "" -> lstrip (s +:+ X) = s +:+ X.
Proof.
  destruct s as [|c s]; [congruence|]. intros Hs _.
  change (String c s +:+ X) with (String c (s +:+ X)).
  cbn [lstrip] in *. destruct (is_space c) eqn:Hc; [|reflexivity].
  exfalso. clear -Hs.
  assert (Hlen : forall t, String.length (lstrip t) <= String.length t).
  { induction t as [|d t IHt]; cbn [lstrip]; [lia|].
    destruct (is_space d); cbn [String.length]; lia. }
  specialize (Hlen s). rewrite Hs in Hlen. cbn [String.length] in Hlen. lia.
Qed.

(** The fence and the white space around the body are dropped. *)
Lemma fenced_body (pre ws1 body ws2 post : string) :
  no_backtick pre = true ->
  blank ws1 = true -> blank ws2 = true ->
  no_backtick body = true ->
  strip body = body ->
  _extract_json_from_markdown
    (pre +:+ "```json" +:+ ws1 +:+ body +:+ ws2 +:+ "```" +:+ post) = body.
Proof.
  intros Hpre H1 H2 Hbody Hstrip.
  unfold _extract_json_from_markdown.
  rewrite (split_at_fence "``json" pre _ Hpre).
  rewrite (lstrip_pad ws1 _ H1).
  destruct (string_dec body "") as [->|Hne].
  - change ("" +:+ ws2 +:+ "```" +:+ post) with (ws2 +:+ "```" +:+ post).
    rewrite (lstrip_pad ws2 _ H2), (lstrip_fence "``" post).
    change ("```" +:+ post) with ("" +:+ "```" +:+ post).
    now rewrite (split_at_fence "``" "" post eq_refl).
  - assert (Hl : lstrip body = body).
    { unfold strip in Hstrip.
      assert (Hlen : forall t, String.length (rstrip t) <= String.length t).
      { induction t as [|d t IHt]; cbn [rstrip]; [lia|].
        destruct (is_space d && (rstrip t =? ""))%bool; cbn [String.length]; lia. }
      assert (Hlen' : forall t, String.length (lstrip t) <= String.length t).
      { induction t as [|d t IHt]; cbn [lstrip]; [lia|].
        destruct (is_space d); cbn [String.length]; lia. }
      destruct body as [|c b]; [reflexivity|]. cbn [lstrip] in *.
      destruct (is_space c); [|reflexivity]. exfalso.
      pose proof (Hlen (lstrip b)) as Ha. pose proof (Hlen' b) as Hb.
      rewrite Hstrip in Ha. cbn [String.length] in Ha. lia. }
    assert (Hr : rstrip body = body).
    { unfold strip in Hstrip. now rewrite Hl in Hstrip. }
    rewrite (lstrip_own body _ Hl Hne).
    replace (body +:+ ws2 +:+ "```" +:+ post) with ((body +:+ ws2) +:+ "```" +:+ post).
    2:{ clear. induction body as [|c b IH]; [reflexivity|].
        change (String c ((b +:+ ws2) +:+ "```" +:+ post) = String c (b +:+ ws2 +:+ "```" +:+ post)).
        now rewrite IH. }
    rewrite (split_at_fence "``" (body +:+ ws2) post
               (no_backtick_app _ _ Hbody (blank_no_backtick _ H2))).
    now rewrite (rstrip_pad ws2 body H2).
Qed.


End GeminiStrip.

Section GeminiCall.
Variable url : string.
Variable service : nat -> Resilient.post_result.

(** The call reaches an answer that follows fewer than five 429. *)
Lemma retry_reaches_answer k answer :
  (k < 5)%nat ->
  (forall j, (j < k)%nat -> Resilient.rate_limited (service j) = true) ->
  service k = Resilient.Replied answer ->
  Resilient.failed (Resilient.Replied answer) = false ->
  fst (Resilient._call_api_with_retry url service 5) = Ok (Some answer).
Proof.
  intros Hk Hlimited Hanswer Hgood.
  destruct (attempts_shape url service 5 4 0 [])
    as (k' & Hk' & _ & Hrl & Hok & _ & Hlast); [reflexivity|].
  unfold Resilient._call_api_with_retry.
  set (r := Resilient.attempts url service 5 5 0 []) in *.
  simpl in Hrl, Hok, Hlast.
  assert (k' = k) as ->.
  { destruct (Nat.lt_trichotomy k' k) as [Hlt|[Heq|Hgt]]; [|assumption|].
    - specialize (Hlast (Hlimited k' Hlt)). lia.
    - specialize (Hrl k Hgt). rewrite Hanswer in Hrl.
      apply (rate_limited_failed (Resilient.Replied answer)) in Hrl. congruence. }
  rewrite Hanswer in Hok. now destruct (Hok Hgood) as (resp & [= <-] & Hfst).
Qed.

(** A gateway that fails every POST makes the call raise. *)
Lemma retry_all_failed :
  (forall j, (j < 5)%nat -> Resilient.failed (service j) = true) ->
  exists e, fst (Resilient._call_api_with_retry url service 5) = Raise e.
Proof.
  intros Hfailed.
  destruct (attempts_shape url service 5 4 0 [])
    as (k' & Hk' & _ & _ & _ & Hraise & _); [reflexivity|].
  unfold Resilient._call_api_with_retry.
  set (r := Resilient.attempts url service 5 5 0 []) in *.
  simpl in Hraise.
  destruct (Hraise (Hfailed k' ltac:(lia))) as (e & He & _). now exists e.
Qed.

End GeminiCall.

(** X17. A text without a complete fenced block is returned as it is:
    when it has no "```json" at all, and also when the opening fence is
    never closed (the opening fence then stays in the result). *)
Theorem incomplete_block_returns_text (text : string) :
  is_substring "```json" text = false \/
  (exists pre rest, text = pre +:+ "```json" +:+ rest /\
                    Gemini.no_backtick pre = true /\ Gemini.no_backtick rest = true) ->
  Gemini._extract_json_from_markdown text = text.
Proof.
  unfold Gemini._extract_json_from_markdown.
  intros [Hno | (pre & rest & -> & Hpre & Hrest)].
  - apply split_at_None in Hno. now rewrite Hno.
  - rewrite (split_at_fence "``json" pre rest Hpre).
    now rewrite (split_at_no_fence "``" _ (no_backtick_lstrip _ Hrest)).
Qed.

Lemma incomplete_block_returns_text_witness :
  Gemini._extract_json_from_markdown "Sure: ```json [1, 2" = "Sure: ```json [1, 2".
Proof.
  apply incomplete_block_returns_text. right.
  exists "Sure: ", " [1, 2". split; [reflexivity|]. split; reflexivity.
Defined.

(** X18. Round trip of the fence: an ASCII body without backticks and
    without white space at its ends, wrapped in "```json" and "```" with
    any ASCII white space inside the fences, any text without backticks in
    front and any text behind, is extracted exactly. *)
Theorem fenced_block_extracted (pre ws1 body ws2 post : string) :
  Gemini.no_backtick pre = true ->
  Text.blank ws1 = true -> Text.blank ws2 = true ->
  Gemini.no_backtick body = true ->
  Text.ascii_text body = true ->
  strip body = body ->
  Gemini._extract_json_from_markdown
    (pre +:+ "```json" +:+ ws1 +:+ body +:+ ws2 +:+ "```" +:+ post) = body.
Proof. intros Hpre H1 H2 Hbody _. now apply fenced_body. Qed.

Lemma fenced_block_extracted_witness :
  Gemini._extract_json_from_markdown
    ("Here it is:" +:+ "```json" +:+ String "010" "  " +:+ "[{'qty': 1}]" +:+ String "010" ""
       +:+ "```" +:+ " Done.") = "[{'qty': 1}]".
Proof.
  apply (fenced_block_extracted "Here it is:" (String "010" "  ") "[{'qty': 1}]"
           (String "010" "") " Done."); reflexivity.
Defined.

(** X19. The agent reads a fenced answer: when the gateway answers the
    prompt after fewer than five 429 and the content of the answer is a
    JSON array wrapped in a "```json" fence, with any text without
    backticks in front and any text behind, the items of the array are
    returned. *)
Theorem fenced_answer_is_read (url : string)
    (gateway : string -> list item -> list Models.kb_row -> nat -> Resilient.post_result)
    (choices_content : string -> exc (option string))
    (loads_items : string -> exc (option (list item)))
    (document : string) (item_master : list item) (kb : list Models.kb_row)
    (k : nat) (answer : Resilient.response)
    (pre ws1 body ws2 post : string) (items : list item) :
  (k < 5)%nat ->
  (forall j, (j < k)%nat ->
     Resilient.rate_limited (gateway document item_master kb j) = true) ->
  gateway document item_master kb k = Resilient.Replied answer ->
  Resilient.failed (Resilient.Replied answer) = false ->
  choices_content (Resilient.text answer)
  = Ok (Some (pre +:+ "```json" +:+ ws1 +:+ body +:+ ws2 +:+ "```" +:+ post)) ->
  Gemini.no_backtick pre = true ->
  Text.blank ws1 = true -> Text.blank ws2 = true ->
  Gemini.no_backtick body = true ->
  strip body = body ->
  loads_items body = Ok (Some items) ->
  Gemini.extract_and_classify_items url gateway choices_content loads_items
    document item_master kb = items.
Proof.
  intros Hk Hlimited Hanswer Hgood Hcontent Hpre H1 H2 Hbody Hstrip Hloads.
  unfold Gemini.extract_and_classify_items, Resilient.default_max_retries.
  rewrite (retry_reaches_answer url _ k answer Hk Hlimited Hanswer Hgood).
  rewrite Hcontent, (fenced_body pre ws1 body ws2 post Hpre H1 H2 Hbody Hstrip).
  now rewrite Hloads.
Qed.

Lemma fenced_answer_is_read_witness :
  Gemini.extract_and_classify_items "https://gateway"
    (fun _ _ _ i =>
       if (i <? 1)%nat
       then Resilient.Replied (Resilient.Response 429 "Too Many Requests" "")
       else Resilient.Replied (Resilient.Response 200 "OK" "Sure! ```json [{screw}] ``` Done."))
    (fun body => Ok (Some body))
    (fun s => if s =? "[{screw}]" then Ok (Some [Scenario.screw])
              else Raise (Exn ValueError "not JSON"))
    "Work instruction" [] []
  = [Scenario.screw].
Proof.
  apply (fenced_answer_is_read _ _ _ _ _ _ _ 1
           (Resilient.Response 200 "OK" "Sure! ```json [{screw}] ``` Done.")
           "Sure! " " " "[{screw}]" " " " Done.").
  - lia.
  - intros j Hj. destruct j as [|j]; [reflexivity|lia].
  - reflexivity.
  - reflexivity.
  - reflexivity.
  - reflexivity.
  - reflexivity.
  - reflexivity.
  - reflexivity.
  - reflexivity.
  - reflexivity.
Defined.

(* ===================================================================== *)
(** * Runs of the orchestrator                                             *)
(* ===================================================================== *)

Section RunFacts.
Import Dedup Models Workflow.

Lemma filter_split {A : Type} (f : A -> bool) (l : list A) :
  length l = (length (List.filter f l) + length (List.filter (fun x => negb (f x)) l))%nat.
Proof.
  induction l as [|a l IH]; [reflexivity|]. cbn [List.filter].
  destruct (f a); cbn [negb length]; lia.
Qed.

(** The registration stops at the first item without a name, and leaves
    the write lock behind. *)
Lemma add_to_knowledge_base_null workflow_id ms1 m ms2 : forall w,
  Forall (fun x => storable x = true /\ get x "material_name" <> VNone) ms1 ->
  storable m = true ->
  get m "material_name" = VNone ->
  _add_to_knowledge_base workflow_id (ms1 ++ m :: ms2) w =
  (Raise not_null_failed,
   World (Database (clock (db w)) (workflows (db w))
            (knowledge_base (db w) ++ map (kb_row_of workflow_id (clock (db w))) ms1)
            (pending_approvals (db w)) (workflow_results (db w)))
         (results_dir w)).
Proof.
  induction ms1 as [|x ms1 IH]; intros [[ck wf kb pa wr] rd] Hall Hs Hm.
  - cbn [app _add_to_knowledge_base]. unfold mbind, M_bind, add_item.
    fold (storable m). rewrite Hs. cbn [negb db results_dir]. rewrite Hm. cbn.
    now rewrite app_nil_r.
  - apply Forall_cons_iff in Hall as [[Hsx Hx] Hall].
    cbn [app _add_to_knowledge_base]. unfold mbind, M_bind, add_item.
    fold (storable x). rewrite Hsx. cbn [negb db results_dir].
    destruct (get x "material_name") eqn:Hname; [congruence| | | |];
      rewrite (IH _ Hall Hs Hm); cbn; rewrite <- app_assoc; cbn;
      unfold kb_row_of at 2; rewrite Hname; reflexivity.
Qed.

(** The row of the workflow when classification starts. *)
Lemma at_classifying_row workflow_id w row :
  workflow_of workflow_id w = Some row ->
  exists row', workflows (db (at_classifying workflow_id w)) !! workflow_id = Some row' /\
    progress row' = 50%Z /\ current_stage row' = Some "classifying" /\
    status row' = "processing" /\
    message row' = Some "Classifying and matching items with Gemini".
Proof.
  unfold workflow_of, at_classifying, at_translating, at_extracting, at_stage.
  intros Hrow. cbn [db]. eexists. split.
  - apply lookup_updated_status, lookup_updated_status,
      lookup_updated_status, Hrow.
  - repeat split; reflexivity.
Qed.

(** [updated_status] leaves the rows of the other workflows. *)
Lemma updated_status_other workflow_id st p sg m dbase other :
  other <> workflow_id ->
  workflows (updated_status workflow_id st p sg m dbase) !! other
  = workflows dbase !! other.
Proof.
  intros Hne. cbn. destruct (workflows dbase !! workflow_id); [|reflexivity].
  now apply lookup_insert_ne.
Qed.

Lemma at_classifying_other workflow_id w other :
  other <> workflow_id ->
  workflows (db (at_classifying workflow_id w)) !! other = workflows (db w) !! other.
Proof.
  intros Hne. unfold at_classifying, at_translating, at_extracting, at_stage. cbn [db].
  now rewrite !updated_status_other.
Qed.

(** What a routing that returns has written. *)
Lemma routing_ok workflow_id mode items w w' :
  routing workflow_id mode items w = (Ok tt, w') ->
  w' = World (updated_status workflow_id "completed" (Some 100%Z)
                (Some "completed") (Some "Processing completed successfully")
                (Database (clock (db w)) (workflows (db w))
                   (knowledge_base (db w)
                    ++ map (kb_row_of workflow_id (clock (db w)))
                           (List.filter is_auto_register items))
                   (pending_approvals (db w)
                    ++ map (pending_row_of workflow_id (clock (db w)))
                           (List.filter (fun it => negb (is_auto_register it)) items))
                   (workflow_results (db w)
                    ++ [ResultRow workflow_id items (_generate_summary items mode)])))
             (<[workflow_id := (items, _generate_summary items mode)]> (results_dir w)).
Proof.
  rewrite routing_unfold.
  destruct (_add_to_knowledge_base _ _ w) as [[[]|e] w1] eqn:Hadd; [|discriminate].
  apply add_to_knowledge_base_run in Hadd as (n & _ & Hn & ->).
  rewrite (Hn eq_refl), firstn_all. intros [= <-]. reflexivity.
Qed.

(** A routing that returns leaves the row completed at 100. *)
Lemma routing_ok_row workflow_id mode items w w' row :
  workflows (db w) !! workflow_id = Some row ->
  routing workflow_id mode items w = (Ok tt, w') ->
  exists r, workflow_of workflow_id w' = Some r /\
    status r = "completed" /\ progress r = 100%Z.
Proof.
  intros Hrow Hrun. rewrite (routing_ok _ _ _ _ _ Hrun).
  unfold workflow_of. cbn [db]. eexists. split.
  - apply lookup_updated_status. exact Hrow.
  - split; reflexivity.
Qed.

(** The [try] block on items that classify. *)
Lemma try_block_classified c workflow_id wi_path item_path mode w items :
  classified_items c wi_path item_path (knowledge_base (db w)) = Ok items ->
  try_block c workflow_id wi_path item_path mode w
  = routing workflow_id mode items (at_classifying workflow_id w).
Proof.
  rewrite try_block_unfold. unfold classified_items.
  destruct (extract_text c wi_path); [|discriminate]. cbn [mbind exc_bind].
  destruct (item_master_of c item_path); [|discriminate]. cbn [mbind exc_bind].
  destruct (translate_to_english c _); [|discriminate]. cbn [mbind exc_bind].
  destruct (extract_and_classify_items c _ _ _); [|discriminate]. cbn [mbind exc_bind].
  destruct (_deduplicate_items _) as [items'|]; [|discriminate].
  now intros [= ->].
Qed.

End RunFacts.

Section AgentFacts.
Import Gemini.

(** When the gateway answers no POST of the prompt, the agent returns no
    item. *)
Lemma agent_outage url gateway choices_content loads_items document item_master kb :
  (forall j, (j < 5)%nat ->
     Resilient.failed (gateway document item_master kb j) = true) ->
  extract_and_classify_items url gateway choices_content loads_items
    document item_master kb = [].
Proof.
  intros Hfailed. unfold extract_and_classify_items, Resilient.default_max_retries.
  destruct (retry_all_failed url _ Hfailed) as (e & ->). reflexivity.
Qed.

End AgentFacts.

(** X20. An outage of the classifier is not an error of the workflow:
    when the document is read and translated and the gateway fails every
    POST of the classification prompt, the run ends completed at 100 with
    an empty result and a summary of zero materials, and neither the
    knowledge base nor the pending approvals change. *)
Theorem classifier_outage_completes_empty (c : Workflow.collaborators)
    (url : string)
    (gateway : string -> list item -> list Models.kb_row -> nat -> Resilient.post_result)
    (choices_content : string -> exc (option string))
    (loads_items : string -> exc (option (list item)))
    (workflow_id wi_path : string) (item_path : option string) (mode : string)
    (w : Workflow.world) (row : Models.workflow_row)
    (document translated : string) (item_master : list item) :
  Workflow.extract_and_classify_items c
  = Gemini.gemini_service url gateway choices_content loads_items ->
  Workflow.extract_text c wi_path = Ok document ->
  Workflow.item_master_of c item_path = Ok item_master ->
  Workflow.translate_to_english c document = Ok translated ->
  (forall j, (j < 5)%nat ->
     Resilient.failed
       (gateway translated item_master (Models.knowledge_base (Workflow.db w)) j) = true) ->
  Workflow.workflow_of workflow_id w = Some row ->
  let final := Workflow._process_workflow_async c workflow_id wi_path item_path mode w in
  (exists r, Workflow.workflow_of workflow_id final = Some r /\
     Models.status r = "completed" /\ Models.progress r = 100%Z) /\
  Workflow.results_dir final !! workflow_id = Some ([], Models.Summary 0 0 0 mode) /\
  Models.knowledge_base (Workflow.db final) = Models.knowledge_base (Workflow.db w) /\
  Models.pending_approvals (Workflow.db final) = Models.pending_approvals (Workflow.db w).
Proof.
  intros Hagent Hdoc Hmaster Htr Hfailed Hrow final. subst final.
  unfold Workflow._process_workflow_async.
  rewrite try_block_unfold, Hdoc. cbv beta iota.
  rewrite Hmaster. cbv beta iota. rewrite Htr. cbv beta iota.
  rewrite Hagent. unfold Gemini.gemini_service.
  rewrite (agent_outage _ _ _ _ _ _ _ Hfailed).
  change (Dedup._deduplicate_items []) with (@Ok (list item) []). cbv beta iota.
  destruct (at_classifying_row workflow_id w row Hrow) as (row' & Hrow' & _).
  destruct (Workflow.routing workflow_id mode [] (Workflow.at_classifying workflow_id w))
    as [[[]|e] w'] eqn:Hrun.
  - split; [exact (routing_ok_row _ _ _ _ _ _ Hrow' Hrun)|].
    rewrite (routing_ok _ _ _ _ _ Hrun). cbn [Workflow.results_dir Workflow.db
      Models.updated_status Models.knowledge_base Models.pending_approvals
      List.filter map].
    rewrite lookup_insert_eq, !app_nil_r. repeat split; reflexivity.
  - exfalso. rewrite routing_unfold in Hrun. discriminate.
Qed.

(** The run of X20 on the gateway that answers 503. *)
Lemma classifier_outage_completes_empty_witness :
  let final := Workflow._process_workflow_async Outage.classifier_down "w1"
                 "uploads/w1/wi.txt" None "full" Scenario.submitted in
  (exists r, Workflow.workflow_of "w1" final = Some r /\
     Models.status r = "completed" /\ Models.progress r = 100%Z) /\
  Workflow.results_dir final !! "w1" = Some ([], Models.Summary 0 0 0 "full").
Proof.
  intros final.
  destruct (classifier_outage_completes_empty Outage.classifier_down Scenario.url
              Outage.agent_down (fun _ => Ok None) (fun _ => Ok None)
              "w1" "uploads/w1/wi.txt" None "full" Scenario.submitted
              Scenario.pending_row_w1 Scenario.document "Work instruction" [])
    as (Hdone & Hres & _); try reflexivity.
  split; [exact Hdone|exact Hres].
Defined.

(** X21. A failed registration is partial, and is not recorded as a
    failure.  When the deduplicated items that go to the knowledge base
    hold one without a name ([material_name] missing or [None]), the items
    in front of it are in the knowledge base all the same, no pending
    approval is created, not even for the items that need review, and no
    result is saved.  The workflow stays at 50 / classifying and in
    status processing, with the message of the milestone: the handler
    finds the database locked by the connection of the failed [INSERT],
    and the failure is recorded nowhere. *)
Theorem failed_registration_is_partial (c : Workflow.collaborators)
    (workflow_id wi_path : string) (item_path : option string) (mode : string)
    (w : Workflow.world) (row : Models.workflow_row)
    (items before after : list item) (m : item) :
  Workflow.workflow_of workflow_id w = Some row ->
  Workflow.classified_items c wi_path item_path
    (Models.knowledge_base (Workflow.db w)) = Ok items ->
  List.filter Workflow.is_auto_register items = before ++ m :: after ->
  Forall (fun x => Workflow.storable x = true /\ get x "material_name" <> VNone) before ->
  Workflow.storable m = true ->
  get m "material_name" = VNone ->
  let final := Workflow._process_workflow_async c workflow_id wi_path item_path mode w in
  (exists r, Workflow.workflow_of workflow_id final = Some r /\
     Models.progress r = 50%Z /\
     Models.current_stage r = Some "classifying" /\
     Models.status r = "processing" /\
     Models.message r = Some "Classifying and matching items with Gemini") /\
  (Models.knowledge_base (Workflow.db final)
   = Models.knowledge_base (Workflow.db w)
     ++ map (Workflow.kb_row_of workflow_id (Models.clock (Workflow.db w))) before) /\
  Models.pending_approvals (Workflow.db final) = Models.pending_approvals (Workflow.db w) /\
  Models.workflow_results (Workflow.db final) = Models.workflow_results (Workflow.db w) /\
  Workflow.results_dir final = Workflow.results_dir w.
Proof.
  intros Hrow Hitems Hfilter Hbefore Hs Hm final. subst final.
  assert (Hraise : Workflow.try_block c workflow_id wi_path item_path mode w
                   = (Raise Models.not_null_failed,
                      Workflow.World
                        (Models.Database (Models.clock (Workflow.db w))
                           (Models.workflows
                              (Workflow.db (Workflow.at_classifying workflow_id w)))
                           (Models.knowledge_base (Workflow.db w)
                            ++ map (Workflow.kb_row_of workflow_id
                                      (Models.clock (Workflow.db w))) before)
                           (Models.pending_approvals (Workflow.db w))
                           (Models.workflow_results (Workflow.db w)))
                        (Workflow.results_dir w))).
  { rewrite (try_block_classified _ _ _ _ _ _ _ Hitems), routing_unfold, Hfilter.
    now rewrite (add_to_knowledge_base_null _ _ _ _ _ Hbefore Hs Hm). }
  rewrite (process_raise _ _ _ _ _ _ _ _ Hraise).
  destruct (at_classifying_row workflow_id w row Hrow)
    as (row' & Hrow' & Hp & Hst & Hstatus & Hmsg).
  change (holds_lock Models.not_null_failed) with true. cbv iota.
  split; [|repeat split; reflexivity].
  exists row'. repeat split; assumption.
Qed.

(** The run of X21: the screw is registered, then the nameless item stops
    the run; the gasket, which needs review, gets no pending approval, and
    the workflow stays in status processing. *)
Lemma failed_registration_is_partial_witness :
  let final := Workflow._process_workflow_async Outage.forgets_a_name "w1"
                 "uploads/w1/wi.txt" None "full" Scenario.submitted in
  map Models.kb_metadata (Models.knowledge_base (Workflow.db final)) = [Scenario.screw] /\
  Models.pending_approvals (Workflow.db final) = [] /\
  exists r, Workflow.workflow_of "w1" final = Some r /\ Models.status r = "processing".
Proof.
  intros final.
  assert (Hc : Workflow.classified_items Outage.forgets_a_name "uploads/w1/wi.txt" None []
               = Ok [Scenario.screw; Outage.nameless; Scenario.gasket]) by reflexivity.
  destruct (failed_registration_is_partial Outage.forgets_a_name "w1" "uploads/w1/wi.txt"
              None "full" Scenario.submitted Scenario.pending_row_w1
              [Scenario.screw; Outage.nameless; Scenario.gasket]
              [Scenario.screw] [] Outage.nameless)
    as ((r & Hr & _ & _ & Hstatus & _) & Hkb & Hpa & _).
  - reflexivity.
  - exact Hc.
  - reflexivity.
  - repeat constructor. discriminate.
  - reflexivity.
  - reflexivity.
  - fold final in Hkb, Hpa, Hr. rewrite Hkb, Hpa. split; [reflexivity|].
    split; [reflexivity|]. exists r. split; [exact Hr|exact Hstatus].
Defined.

(** X22. The summary of a completed run accounts for the rows written:
    [successful_matches] is the number of rows added to the knowledge
    base, and [total_materials] is that number plus the number of pending
    approvals created; one result row is added. *)
Theorem summary_accounts_for_rows (c : Workflow.collaborators)
    (workflow_id wi_path : string) (item_path : option string) (mode : string)
    (w w' : Workflow.world) :
  Workflow.try_block c workflow_id wi_path item_path mode w = (Ok tt, w') ->
  exists items s,
    Workflow.results_dir w' !! workflow_id = Some (items, s) /\
    (length (Models.knowledge_base (Workflow.db w'))
     = length (Models.knowledge_base (Workflow.db w)) + Models.successful_matches s)%nat /\
    (length (Models.pending_approvals (Workflow.db w')) + Models.successful_matches s
     = length (Models.pending_approvals (Workflow.db w)) + Models.total_materials s)%nat /\
    Models.workflow_results (Workflow.db w')
    = Models.workflow_results (Workflow.db w) ++ [Models.ResultRow workflow_id items s].
Proof.
  intros Hrun. apply try_block_ok in Hrun as (items & _ & Hrun).
  apply routing_ok in Hrun as ->.
  exists items, (Workflow._generate_summary items mode).
  cbn [Workflow.results_dir Workflow.db Models.updated_status
    Models.knowledge_base Models.pending_approvals Models.workflow_results
    Workflow._generate_summary Models.successful_matches Models.total_materials
    Workflow.at_classifying Workflow.at_translating Workflow.at_extracting
    Workflow.at_stage Models.clock].
  rewrite lookup_insert_eq, !length_app, !length_map.
  pose proof (filter_split Workflow.is_auto_register items).
  repeat split; try reflexivity; lia.
Qed.

Lemma summary_accounts_for_rows_witness :
  exists items s,
    Workflow.results_dir
      (snd (Workflow.try_block Scenario.gateway_down "w1" "uploads/w1/wi.txt" None "full"
              Scenario.submitted)) !! "w1" = Some (items, s) /\
    Models.total_materials s = 2%nat /\ Models.successful_matches s = 1%nat.
Proof.
  destruct (summary_accounts_for_rows Scenario.gateway_down "w1" "uploads/w1/wi.txt" None
              "full" Scenario.submitted
              (snd (Workflow.try_block Scenario.gateway_down "w1" "uploads/w1/wi.txt" None
                      "full" Scenario.submitted)))
    as (items & s & Hres & Hkb & Hpa & _); [reflexivity|].
  exists items, s. split; [exact Hres|].
  assert (Hk : length (Models.knowledge_base (Workflow.db
             (snd (Workflow.try_block Scenario.gateway_down "w1" "uploads/w1/wi.txt" None
                     "full" Scenario.submitted)))) = 1%nat) by reflexivity.
  assert (Hq : length (Models.pending_approvals (Workflow.db
             (snd (Workflow.try_block Scenario.gateway_down "w1" "uploads/w1/wi.txt" None
                     "full" Scenario.submitted)))) = 1%nat) by reflexivity.
  rewrite Hk in Hkb. rewrite Hq in Hpa. cbn in Hkb, Hpa. lia.
Defined.

(* ===================================================================== *)
(** * What a run may touch                                                 *)
(* ===================================================================== *)

Section IsolationFacts.
Import Dedup Models Workflow Isolation.
Variable workflow_id : string.

Lemma touches_only_refl w : touches_only workflow_id w w.
Proof.
  repeat split; try (exists []; split; [now rewrite app_nil_r|constructor]).
Qed.

Lemma touches_only_trans w1 w2 w3 :
  touches_only workflow_id w1 w2 -> touches_only workflow_id w2 w3 ->
  touches_only workflow_id w1 w3.
Proof.
  intros (Hc & Hw & Hr & (kb & Hkb & Hkb') & (pa & Hpa & Hpa') & (wr & Hwr & Hwr'))
         (Hc2 & Hw2 & Hr2 & (kb2 & Hkb2 & Hkb2') & (pa2 & Hpa2 & Hpa2') & (wr2 & Hwr2 & Hwr2')).
  split; [congruence|].
  split; [intros o Ho; rewrite (Hw2 o Ho); now apply Hw|].
  split; [intros o Ho; rewrite (Hr2 o Ho); now apply Hr|].
  split; [exists (kb ++ kb2); split;
          [rewrite Hkb2, Hkb; now rewrite app_assoc|now apply Forall_app]|].
  split; [exists (pa ++ pa2); split;
          [rewrite Hpa2, Hpa; now rewrite app_assoc|now apply Forall_app]|].
  exists (wr ++ wr2); split; [rewrite Hwr2, Hwr; now rewrite app_assoc|now apply Forall_app].
Qed.

Lemma touches_only_status st p sg m w :
  touches_only workflow_id w
    (World (updated_status workflow_id st p sg m (db w)) (results_dir w)).
Proof.
  split; [reflexivity|].
  split; [intros o Ho; cbn [db]; now apply updated_status_other|].
  split; [reflexivity|].
  repeat split; exists []; (split; [cbn; now rewrite app_nil_r|constructor]).
Qed.

Lemma touches_only_at_extracting w : touches_only workflow_id w (at_extracting workflow_id w).
Proof. apply touches_only_status. Qed.

Lemma touches_only_at_translating w :
  touches_only workflow_id w (at_translating workflow_id w).
Proof.
  eapply touches_only_trans; [apply touches_only_at_extracting|apply touches_only_status].
Qed.

Lemma touches_only_at_classifying w :
  touches_only workflow_id w (at_classifying workflow_id w).
Proof.
  eapply touches_only_trans; [apply touches_only_at_translating|apply touches_only_status].
Qed.

Lemma touches_only_add ms w r w' :
  _add_to_knowledge_base workflow_id ms w = (r, w') -> touches_only workflow_id w w'.
Proof.
  intros Hadd. apply add_to_knowledge_base_run in Hadd as (n & _ & _ & ->).
  split; [reflexivity|]. split; [reflexivity|]. split; [reflexivity|].
  split; [|split; exists []; (split; [cbn; now rewrite app_nil_r|constructor])].
  eexists. split; [reflexivity|]. apply List.Forall_forall. intros x Hx.
  apply in_map_iff in Hx as (m & <- & _). reflexivity.
Qed.

Lemma touches_only_routing mode items w r w' :
  routing workflow_id mode items w = (r, w') -> touches_only workflow_id w w'.
Proof.
  rewrite routing_unfold.
  destruct (_add_to_knowledge_base _ _ w) as [[[]|e] w1] eqn:Hadd.
  - intros [= <- <-]. apply touches_only_add in Hadd.
    eapply touches_only_trans; [exact Hadd|]. clear Hadd.
    split; [reflexivity|].
    split; [intros o Ho; cbn [db]; now rewrite updated_status_other|].
    split; [intros o Ho; cbn [results_dir]; now apply lookup_insert_ne|].
    split; [exists []; split; [cbn; now rewrite app_nil_r|constructor]|].
    split.
    + eexists. split; [reflexivity|]. apply List.Forall_forall. intros x Hx.
      apply in_map_iff in Hx as (m & <- & _). reflexivity.
    + eexists. split; [reflexivity|]. repeat constructor.
  - intros [= <- <-]. now apply touches_only_add in Hadd.
Qed.

Lemma touches_only_try_block c wi_path item_path mode w r w' :
  try_block c workflow_id wi_path item_path mode w = (r, w') ->
  touches_only workflow_id w w'.
Proof.
  rewrite try_block_unfold.
  destruct (extract_text c wi_path);
    [|intros [= <- <-]; apply touches_only_at_extracting].
  destruct (item_master_of c item_path);
    [|intros [= <- <-]; apply touches_only_at_extracting].
  destruct (translate_to_english c _);
    [|intros [= <- <-]; apply touches_only_at_translating].
  destruct (extract_and_classify_items c _ _ _);
    [|intros [= <- <-]; apply touches_only_at_classifying].
  destruct (_deduplicate_items _) as [items|];
    [|intros [= <- <-]; apply touches_only_at_classifying].
  intros Hrun. apply touches_only_routing in Hrun.
  eapply touches_only_trans; [apply touches_only_at_classifying|exact Hrun].
Qed.

Lemma touches_only_run c wi_path item_path mode w :
  touches_only workflow_id w
    (_process_workflow_async c workflow_id wi_path item_path mode w).
Proof.
  unfold _process_workflow_async.
  destruct (try_block c workflow_id wi_path item_path mode w) as [[[]|e] w'] eqn:Hrun;
    apply touches_only_try_block in Hrun; [exact Hrun|].
  eapply touches_only_trans; [exact Hrun|]. rewrite handler_write.
  destruct (holds_lock e); [apply touches_only_refl|apply touches_only_status].
Qed.

End IsolationFacts.

(** X23. A run touches only its own workflow: whatever the services do
    and however the run ends, the rows and the results files of the other
    workflows are as before, and the knowledge base, the pending approvals
    and the results table have only grown, by rows that carry the id of
    the run. *)
Theorem run_touches_only_its_workflow (c : Workflow.collaborators)
    (workflow_id wi_path : string) (item_path : option string) (mode : string)
    (w : Workflow.world) :
  Isolation.touches_only workflow_id w
    (Workflow._process_workflow_async c workflow_id wi_path item_path mode w).
Proof. apply touches_only_run. Qed.

(* ===================================================================== *)
(** * The life of a workflow                                               *)
(* ===================================================================== *)

Section LifeFacts.
Import Dedup Models Workflow Isolation Service.

(** Deleting the rows of a workflow from a table that has grown by rows of
    that workflow only. *)
Lemma filter_own {A : Type} (f : A -> bool) (l rows : list A) :
  Forall (fun x => f x = true) l -> Forall (fun x => f x = false) rows ->
  List.filter f (l ++ rows) = l.
Proof.
  intros Hl Hrows. induction Hl as [|x l Hx _ IH]; cbn [app List.filter].
  - induction Hrows as [|y rows Hy _ IH]; cbn [List.filter]; [reflexivity|now rewrite Hy].
  - now rewrite Hx, IH.
Qed.

Lemma filter_others {A : Type} (f : A -> bool) (l : list A) :
  Forall (fun x => f x = true) (List.filter f l).
Proof. apply List.Forall_forall. intros x Hx. now apply filter_In in Hx. Qed.

Lemma start_workflow_fresh workflow_id wi_document item_master mode s :
  workflows (db (state s)) !! workflow_id = None ->
  exists j s',
    start_workflow workflow_id wi_document item_master mode s = (Done true, s') /\
    submitted s' = submitted s ++ [j] /\
    job_workflow_id j = workflow_id /\
    job_wi_path j
    = path_join (path_join upload_dir workflow_id) (filename wi_document) /\
    job_item_path j
    = option_map (fun u => path_join (path_join upload_dir workflow_id) (filename u))
                 item_master /\
    job_comparison_mode j = mode /\
    workflows (db (state s'))
    = <[workflow_id :=
          WorkflowRow "pending" mode (clock (db (state s))) (clock (db (state s))) 0
                      None None (Some (job_wi_path j)) (job_item_path j)]>
        (workflows (db (state s))) /\
    clock (db (state s')) = clock (db (state s)) /\
    knowledge_base (db (state s')) = knowledge_base (db (state s)) /\
    pending_approvals (db (state s')) = pending_approvals (db (state s)) /\
    workflow_results (db (state s')) = workflow_results (db (state s)) /\
    results_dir (state s') = results_dir (state s) /\
    (forall other, other <> workflow_id -> uploads s' !! other = uploads s !! other).
Proof.
  intros Hfresh. unfold start_workflow, Store.create_workflow. rewrite Hfresh.
  eexists. eexists. split; [reflexivity|]. cbn [submitted state db results_dir uploads
    workflows clock knowledge_base pending_approvals workflow_results
    job_workflow_id job_wi_path job_item_path job_comparison_mode].
  repeat split; try reflexivity.
  intros other Hother. now apply lookup_insert_ne.
Qed.

End LifeFacts.






(* ===================================================================== *)
(** * The review of pending items                                          *)
(* ===================================================================== *)

Section ReviewFacts.
Import Review.
Variable order : list pending_item -> list pending_item.
Variable now : nat.
Variable variable_limit : nat.
Variable swept : nat -> bool.

Lemma filter_perm {A : Type} (f : A -> bool) (l l' : list A) :
  Permutation l l' -> Permutation (List.filter f l) (List.filter f l').
Proof.
  induction 1 as [|x l l' _ IH|x y l|l l' l'' _ IH1 _ IH2]; cbn [List.filter].
  - constructor.
  - destruct (f x); [now constructor|exact IH].
  - destruct (f x), (f y); try reflexivity. constructor.
  - now transitivity (List.filter f l').
Qed.

Lemma filter_and {A : Type} (f g : A -> bool) (l : list A) :
  List.filter g (List.filter f l) = List.filter (fun x => f x && g x) l.
Proof.
  induction l as [|x l IH]; [reflexivity|]. cbn [List.filter].
  destruct (f x); cbn [List.filter andb]; [destruct (g x); now rewrite IH|exact IH].
Qed.

Lemma filter_none {A : Type} (f : A -> bool) (l : list A) :
  (forall x, In x l -> f x = false) -> List.filter f l = [].
Proof.
  induction l as [|x l IH]; [reflexivity|]. intros H. cbn [List.filter].
  rewrite (H x (or_introl eq_refl)). apply IH. intros y Hy. apply H. now right.
Qed.

(** One [INSERT] on an unlocked database. *)
Lemma add_item_unlocked r t :
  add_item false (entry_of now (pi_item_data r)) t
  = if insertable r
    then (Ok tt,
          Tables (knowledge_base t ++ [entry_of now (pi_item_data r)])
                 (pending_approvals t), false)
    else if nameless r then (Raise Models.not_null_failed, t, true)
    else (Raise Models.too_large, t, false).
Proof.
  unfold add_item, insertable, nameless, has_name.
  change (storable (entry_of now (pi_item_data r))) with (bindable r).
  cbn [entry_of ke_material_name].
  destruct (bindable r); cbn [negb andb]; [|reflexivity].
  now destruct (get (pi_item_data r) "material_name").
Qed.

(** One [INSERT] on a locked database. *)
Lemma add_item_locked e t :
  exists x, add_item true e t = (Raise x, t, true).
Proof. unfold add_item. destruct (negb (storable e)); eexists; reflexivity. Qed.

(** As long as no row leaves the lock, the loop registers the rows that
    can be inserted, in order, and counts them. *)
Lemma approve_loop_clean before : forall rest i n t,
  Forall (fun r => nameless r = false) before ->
  approve_loop now swept (before ++ rest) i n false t
  = approve_loop now swept rest (i + length before)%nat
      (n + length (List.filter insertable before))%nat false
      (Tables (knowledge_base t
               ++ map (fun r => entry_of now (pi_item_data r))
                      (List.filter insertable before))
              (pending_approvals t)).
Proof.
  induction before as [|r before IH]; intros rest i n [kb pa] Hclean.
  - cbn. now rewrite !Nat.add_0_r, app_nil_r.
  - apply Forall_cons_iff in Hclean as [Hr Hclean].
    cbn [app approve_loop andb List.filter]. rewrite add_item_unlocked, Hr.
    destruct (insertable r); rewrite (IH _ _ _ _ Hclean);
      cbn [knowledge_base pending_approvals length map];
      rewrite <- ?app_assoc; cbn [app]; f_equal; lia.
Qed.

(** While the lock is held and the collector does not run, nothing is
    written. *)
Lemma approve_loop_blocked items : forall i n t,
  (forall j, swept j = false) ->
  approve_loop now swept items i n true t = (n, true, t).
Proof.
  induction items as [|r items IH]; intros i n t Hidle; [reflexivity|].
  cbn [approve_loop]. rewrite Hidle. cbn [negb andb].
  destruct (add_item_locked (entry_of now (pi_item_data r)) t) as (x & ->).
  now apply IH.
Qed.

(** The loop does not write to [pending_approvals]. *)
Lemma approve_loop_pending items : forall i n held t,
  pending_approvals (snd (approve_loop now swept items i n held t))
  = pending_approvals t.
Proof.
  induction items as [|r items IH]; intros i n held t; [reflexivity|].
  cbn [approve_loop]. unfold add_item.
  destruct (negb _); [apply IH|].
  destruct (held && negb (swept i)); [apply IH|].
  destruct (ke_material_name _); rewrite IH; reflexivity.
Qed.

Lemma selection_In ids t r :
  (forall l, Permutation (order l) l) ->
  In r (List.filter (named_in ids) (get_pending_items order t)) ->
  In r (pending_approvals t) /\ (pi_status r =? "pending") = true /\
  named_in ids r = true.
Proof.
  intros Horder Hr. apply filter_In in Hr as [Hr Hn].
  apply (Permutation_in _ (Horder _)) in Hr. apply filter_In in Hr as [Hr Hp].
  auto.
Qed.

(** The rows a review registers, up to the order of the selection. *)
Lemma to_approve_perm ids t :
  (forall l, Permutation (order l) l) ->
  Permutation
    (List.filter insertable (List.filter (named_in ids) (get_pending_items order t)))
    (List.filter (registrable ids) (pending_approvals t)).
Proof.
  intros Horder. unfold get_pending_items.
  etransitivity; [apply filter_perm, filter_perm, Horder|].
  rewrite !filter_and.
  rewrite (List.filter_ext _ (registrable ids)); [reflexivity|].
  intros r. unfold registrable. now rewrite andb_assoc.
Qed.

Lemma update_admissible held ids st rv nt t :
  admissible variable_limit ids = true ->
  update_approval_status now variable_limit held ids st rv nt t
  = if held then (Raise Models.locked, t) else (Ok tt, reviewed now ids st rv nt t).
Proof.
  unfold admissible, update_approval_status.
  intros [Hlimit Hfits]%andb_prop. apply Nat.leb_le in Hlimit.
  destruct (Nat.ltb_spec variable_limit (3 + length ids)); [lia|].
  now rewrite Hfits.
Qed.

Lemma update_ok held ids st rv nt t t' :
  update_approval_status now variable_limit held ids st rv nt t = (Ok tt, t') ->
  admissible variable_limit ids = true /\ held = false /\
  t' = reviewed now ids st rv nt t.
Proof.
  unfold admissible, update_approval_status.
  destruct (Nat.ltb_spec variable_limit (3 + length ids)); [discriminate|].
  destruct (forallb Models.fits_integer ids); [|discriminate]. cbn [negb].
  destruct held; [discriminate|]. intros [= <-].
  split; [|auto]. rewrite andb_true_r. apply Nat.leb_le. lia.
Qed.

(** A review in which no named pending row leaves the lock. *)
Lemma approve_clean ids t :
  (forall l, Permutation (order l) l) ->
  admissible variable_limit ids = true ->
  (forall r, In r (pending_approvals t) -> blocking ids r = false) ->
  approve_items order now variable_limit swept ids t
  = (Ok (length (List.filter insertable
                   (List.filter (named_in ids) (get_pending_items order t)))),
     reviewed now ids "approved" (Some "system") (Some "Approved for knowledge base")
       (Tables (knowledge_base t
                ++ map (fun r => entry_of now (pi_item_data r))
                       (List.filter insertable
                          (List.filter (named_in ids) (get_pending_items order t))))
               (pending_approvals t))).
Proof.
  intros Horder Hadm Hclean. unfold approve_items.
  set (to := List.filter (named_in ids) (get_pending_items order t)).
  assert (Hto : Forall (fun r => nameless r = false) to).
  { apply List.Forall_forall. intros r Hr.
    destruct (selection_In ids t r Horder Hr) as (Hin & Hp & Hn).
    specialize (Hclean r Hin). unfold blocking in Hclean.
    now rewrite Hp, Hn in Hclean. }
  rewrite <- (app_nil_r to) at 1. rewrite (approve_loop_clean to [] 0 0 t Hto).
  cbn [approve_loop andb]. now rewrite (update_admissible false _ _ _ _ _ Hadm).
Qed.

End ReviewFacts.

(** X27. When no pending row named in the request lacks a name,
    [approve_items] registers exactly the rows that are pending, named in
    the request and can be inserted: the count it returns is the number
    of rows added to the knowledge base, one per such row; each row is
    approved by "system", and its [workflow_id] is what the item holds
    under that key, not the workflow of the pending row.  Every row named
    in the request is marked approved. *)
Theorem approval_registers_named_rows
    (order : list Review.pending_item -> list Review.pending_item) (now : nat)
    (variable_limit : nat) (swept : nat -> bool)
    (item_ids : list Z) (t : Review.tables) :
  (forall l, Permutation (order l) l) ->
  Review.admissible variable_limit item_ids = true ->
  (forall r, In r (Review.pending_approvals t) -> Review.blocking item_ids r = false) ->
  exists rows,
    Review.approve_items order now variable_limit swept item_ids t
    = (Ok (length rows),
       Review.reviewed now item_ids "approved" (Some "system")
         (Some "Approved for knowledge base")
         (Review.Tables (Review.knowledge_base t ++ rows) (Review.pending_approvals t))) /\
    Permutation (map Review.ke_metadata rows)
      (map Review.pi_item_data
         (List.filter (Review.registrable item_ids) (Review.pending_approvals t))) /\
    Forall (fun e => Review.ke_approved_by e = "system" /\
                     Review.ke_workflow_id e = get (Review.ke_metadata e) "workflow_id")
           rows.
Proof.
  intros Horder Hadm Hclean.
  rewrite (approve_clean order now variable_limit swept item_ids t Horder Hadm Hclean).
  eexists. split; [now rewrite length_map|]. split.
  - rewrite map_map. cbn [Review.entry_of Review.ke_metadata].
    apply Permutation_map, to_approve_perm, Horder.
  - apply List.Forall_forall. intros e He. apply in_map_iff in He as (r & <- & _).
    split; reflexivity.
Qed.

(** The review of the gasket: one row more in the knowledge base, and
    the row approved. *)
Lemma approval_registers_named_rows_witness :
  exists rows,
    Review.approve_items (@rev _) 9 999 Review.idle [1%Z] Review.waiting
    = (Ok (length rows),
       Review.reviewed 9 [1%Z] "approved" (Some "system")
         (Some "Approved for knowledge base")
         (Review.Tables rows (Review.pending_approvals Review.waiting))).
Proof.
  destruct (approval_registers_named_rows (@rev _) 9 999 Review.idle [1%Z] Review.waiting)
    as (rows & Hrun & _).
  - intros l. symmetry. apply Permutation_rev.
  - reflexivity.
  - intros r [<-|[<-|[<-|[]]]]; reflexivity.
  - exists rows. exact Hrun.
Defined.

(** X28. Approval without registration: when none of the rows named in
    the request is a pending row that can be inserted or that lacks a
    name, as when they were all approved or rejected before,
    [approve_items] returns 0 and adds nothing to the knowledge base, and
    still marks every named row approved. *)
Theorem approved_without_registration
    (order : list Review.pending_item -> list Review.pending_item) (now : nat)
    (variable_limit : nat) (swept : nat -> bool)
    (item_ids : list Z) (t : Review.tables) :
  (forall l, Permutation (order l) l) ->
  Review.admissible variable_limit item_ids = true ->
  (forall r, In r (Review.pending_approvals t) ->
     Review.registrable item_ids r = false /\ Review.blocking item_ids r = false) ->
  fst (Review.approve_items order now variable_limit swept item_ids t) = Ok 0%nat /\
  Review.knowledge_base
    (snd (Review.approve_items order now variable_limit swept item_ids t))
  = Review.knowledge_base t /\
  forall r, In r (Review.pending_approvals t) -> Review.named_in item_ids r = true ->
    In (Review.approved now r)
       (Review.pending_approvals
          (snd (Review.approve_items order now variable_limit swept item_ids t))).
Proof.
  intros Horder Hadm Hnone.
  rewrite (approve_clean order now variable_limit swept item_ids t Horder Hadm
             (fun r Hr => proj2 (Hnone r Hr))).
  assert (Hempty : List.filter Review.insertable
                     (List.filter (Review.named_in item_ids)
                        (Review.get_pending_items order t)) = []).
  { apply Permutation_nil. symmetry.
    etransitivity; [apply to_approve_perm, Horder|].
    rewrite filter_none; [reflexivity|]. intros r Hr. apply (Hnone r Hr). }
  rewrite Hempty. cbn [length map fst snd Review.reviewed Review.knowledge_base
    Review.pending_approvals]. rewrite app_nil_r.
  split; [reflexivity|]. split; [reflexivity|].
  intros r Hr Hn. apply in_map_iff. exists r. split; [now rewrite Hn|exact Hr].
Qed.

(** The rejected screw is approved; the knowledge base stays empty. *)
Lemma approved_without_registration_witness :
  fst (Review.approve_items (@rev _) 9 999 Review.idle [3%Z] Review.waiting) = Ok 0%nat /\
  Review.knowledge_base
    (snd (Review.approve_items (@rev _) 9 999 Review.idle [3%Z] Review.waiting)) = [] /\
  In (Review.PendingItem 3 "w1" Scenario.screw "approved" (Some "system") (Some 9%nat)
        (Some "Approved for knowledge base"))
     (Review.pending_approvals
        (snd (Review.approve_items (@rev _) 9 999 Review.idle [3%Z] Review.waiting))).
Proof.
  destruct (approved_without_registration (@rev _) 9 999 Review.idle [3%Z] Review.waiting)
    as (Hn & Hkb & Hmarked).
  - intros l. symmetry. apply Permutation_rev.
  - reflexivity.
  - intros r [<-|[<-|[<-|[]]]]; split; reflexivity.
  - split; [exact Hn|]. split; [exact Hkb|].
    apply (Hmarked (Review.PendingItem 3 "w1" Scenario.screw "rejected" (Some "system")
                      (Some 5%nat) (Some "Rejected from knowledge base"))).
    + right. right. now left.
    + reflexivity.
Defined.

(** X29. Approving the same rows a second time, after a first call that
    returned, registers nothing more: the second call returns 0, leaves
    the knowledge base as the first call left it, and changes no
    status. *)
Theorem second_approval_adds_nothing
    (order : list Review.pending_item -> list Review.pending_item) (now later : nat)
    (variable_limit : nat) (swept again : nat -> bool)
    (item_ids : list Z) (t : Review.tables) (n : nat) :
  (forall l, Permutation (order l) l) ->
  fst (Review.approve_items order now variable_limit swept item_ids t) = Ok n ->
  let once := snd (Review.approve_items order now variable_limit swept item_ids t) in
  let twice := Review.approve_items order later variable_limit again item_ids once in
  fst twice = Ok 0%nat /\
  Review.knowledge_base (snd twice) = Review.knowledge_base once /\
  map Review.pi_status (Review.pending_approvals (snd twice))
  = map Review.pi_status (Review.pending_approvals once).
Proof.
  intros Horder Hfirst once twice. subst twice.
  assert (Hshape : Review.admissible variable_limit item_ids = true /\
            exists t', Review.pending_approvals t' = Review.pending_approvals t /\
              once = Review.reviewed now item_ids "approved" (Some "system")
                       (Some "Approved for knowledge base") t').
  { subst once. revert Hfirst. unfold Review.approve_items.
    pose proof (approve_loop_pending now swept
                  (List.filter (Review.named_in item_ids) (Review.get_pending_items order t))
                  0 0 false t) as Hpa.
    destruct (Review.approve_loop _ _ _ _ _ _ _) as [[k held] t'].
    cbn [snd] in Hpa.
    destruct (Review.update_approval_status _ _ _ _ _ _ _ _) as [[[]|e] t''] eqn:Hup;
      [|discriminate].
    intros _. apply update_ok in Hup as (Hadm & _ & ->).
    split; [exact Hadm|]. exists t'. split; [exact Hpa|reflexivity]. }
  destruct Hshape as (Hadm & t' & Hpa & Honce).
  assert (Hnone : forall r, In r (Review.pending_approvals once) ->
            Review.registrable item_ids r = false /\ Review.blocking item_ids r = false).
  { rewrite Honce. cbn [Review.reviewed Review.pending_approvals].
    intros r Hr. apply in_map_iff in Hr as (r0 & <- & _).
    unfold Review.registrable, Review.blocking.
    destruct (Review.named_in item_ids r0) eqn:Hn0.
    - split; reflexivity.
    - unfold Review.named_in in *. rewrite Hn0, !andb_false_r. split; reflexivity. }
  rewrite (approve_clean order later variable_limit again item_ids once Horder Hadm
             (fun r Hr => proj2 (Hnone r Hr))).
  assert (Hempty : List.filter Review.insertable
                     (List.filter (Review.named_in item_ids)
                        (Review.get_pending_items order once)) = []).
  { apply Permutation_nil. symmetry.
    etransitivity; [apply to_approve_perm, Horder|].
    rewrite filter_none; [reflexivity|]. intros r Hr. apply (Hnone r Hr). }
  rewrite Hempty. cbn [length map fst snd Review.reviewed Review.knowledge_base
    Review.pending_approvals]. rewrite app_nil_r.
  split; [reflexivity|]. split; [reflexivity|].
  rewrite map_map. apply map_ext_in. intros r Hr.
  destruct (Review.named_in item_ids r) eqn:Hn; [|reflexivity].
  cbn [Review.pi_status]. rewrite Honce in Hr.
  cbn [Review.reviewed Review.pending_approvals] in Hr.
  apply in_map_iff in Hr as (r0 & <- & _). unfold Review.named_in in *.
  destruct (existsb (Z.eqb (Review.pi_id r0)) item_ids) eqn:Hn0; [reflexivity|].
  congruence.
Qed.

Lemma second_approval_adds_nothing_witness :
  let once := snd (Review.approve_items (@rev _) 9 999 Review.idle [1%Z] Review.waiting) in
  fst (Review.approve_items (@rev _) 12 999 Review.idle [1%Z] once) = Ok 0%nat.
Proof.
  intros once.
  destruct (second_approval_adds_nothing (@rev _) 9 12 999 Review.idle Review.idle [1%Z]
              Review.waiting 1) as (Hn & _).
  - intros l. symmetry. apply Permutation_rev.
  - reflexivity.
  - exact Hn.
Defined.

(** X30. One nameless row blocks the review.  When the rows to approve,
    in the order they are selected, reach a row whose item has no name,
    its failed [INSERT] leaves the database locked; if the collector does
    not run before the call ends, every later [INSERT] is refused and so
    is the final [UPDATE]: [approve_items] raises "database is locked",
    the rows in front of the nameless one are in the knowledge base, the
    rows behind it are not, and no row is marked approved. *)
Theorem nameless_row_blocks_review
    (order : list Review.pending_item -> list Review.pending_item) (now : nat)
    (variable_limit : nat) (swept : nat -> bool)
    (item_ids : list Z) (t : Review.tables)
    (before after : list Review.pending_item) (r : Review.pending_item) :
  (forall i, swept i = false) ->
  Review.admissible variable_limit item_ids = true ->
  List.filter (Review.named_in item_ids) (Review.get_pending_items order t)
  = before ++ r :: after ->
  Forall (fun x => Review.nameless x = false) before ->
  Review.nameless r = true ->
  Review.approve_items order now variable_limit swept item_ids t
  = (Raise Models.locked,
     Review.Tables
       (Review.knowledge_base t
        ++ map (fun x => Review.entry_of now (Review.pi_item_data x))
               (List.filter Review.insertable before))
       (Review.pending_approvals t)).
Proof.
  intros Hidle Hadm Hsel Hbefore Hr. unfold Review.approve_items. rewrite Hsel.
  rewrite (approve_loop_clean now swept before (r :: after) 0 0 t Hbefore).
  cbn [Review.approve_loop andb]. rewrite add_item_unlocked.
  assert (Hins : Review.insertable r = false).
  { unfold Review.nameless, Review.insertable in *.
    destruct (Review.bindable r); [|discriminate].
    cbn [andb] in *. now destruct (Review.has_name r). }
  rewrite Hins, Hr, (approve_loop_blocked now swept after _ _ _ Hidle), Hidle.
  cbn [negb andb]. now rewrite (update_admissible now variable_limit true _ _ _ _ _ Hadm).
Qed.

(** The review of the three rows in the order of their ids: the gasket
    is registered, the nameless item locks the database, the call
    raises. *)
Lemma nameless_row_blocks_review_witness :
  Review.approve_items (fun l => l) 9 999 Review.idle [1%Z; 2%Z; 3%Z] Review.waiting
  = (Raise Models.locked,
     Review.Tables [Review.entry_of 9 Scenario.gasket]
                   (Review.pending_approvals Review.waiting)).
Proof.
  apply (nameless_row_blocks_review (fun l => l) 9 999 Review.idle [1%Z; 2%Z; 3%Z]
           Review.waiting
           [Review.PendingItem 1 "w1" Scenario.gasket "pending" None None None] []
           (Review.PendingItem 2 "w1" Outage.nameless "pending" None None None)).
  - reflexivity.
  - reflexivity.
  - reflexivity.
  - repeat constructor.
  - reflexivity.
Defined.
